(** * SlurmSpawner: a shallow embedding of [slurmspawner.py]

    The spawner submits one Slurm batch job per JupyterHub user, follows
    its state through [squeue], and cancels it with [scancel].  The
    Python methods are embedded as functions of a state-and-exception
    monad over the spawner object and the host it runs on (the scheduler
    behind the shell, the file system, the password database).

    Python text is modelled as [string] (ASCII text); Python integers as
    [Z], and the port picked by [random_port] as [N].  What a command
    prints is taken to be ASCII, which [bytes.decode] returns as it is.
    [int] has the interpreter's limit on the digits it converts; the
    integers that are printed with [str] are taken to be below it. *)

From Stdlib Require Import ZArith NArith Ascii String DecimalString DecimalN.
From stdpp Require Import base gmap strings list.

Local Open Scope Z_scope.

(** ** The Python string primitives the spawner uses *)

Module Py.

Definition nl : string := String "010"%char "".
Definition dq : string := String "034"%char "".

(** [str.isspace] on the ASCII range: tab, LF, VT, FF, CR, the four
    separators FS GS RS US, and the blank. *)
Definition isspace (c : ascii) : bool :=
  let n := nat_of_ascii c in
  ((9 <=? n) && (n <=? 13) || (28 <=? n) && (n <=? 32))%nat.

(** [bytes.strip] knows fewer blanks than [str.strip]. *)
Definition bytes_isspace (c : ascii) : bool :=
  let n := nat_of_ascii c in
  ((9 <=? n) && (n <=? 13) || (n =? 32))%nat.

Fixpoint lstrip (sp : ascii -> bool) (s : string) : string :=
  match s with
  | EmptyString => EmptyString
  | String c s' => if sp c then lstrip sp s' else s
  end.

Fixpoint rstrip (sp : ascii -> bool) (s : string) : string :=
  match s with
  | EmptyString => EmptyString
  | String c s' =>
      match rstrip sp s' with
      | EmptyString => if sp c then EmptyString else String c EmptyString
      | r => String c r
      end
  end.

(** [s.strip()] on a [str] *)
Definition strip (s : string) : string := lstrip isspace (rstrip isspace s).
(** [b.strip()] on a [bytes] *)
Definition bytes_strip (s : string) : string :=
  lstrip bytes_isspace (rstrip bytes_isspace s).

(** [s.split(sep)] for a one-character separator: never empty. *)
Fixpoint split (sep : ascii) (s : string) : list string :=
  match s with
  | EmptyString => [EmptyString]
  | String c s' =>
      if Ascii.eqb c sep then EmptyString :: split sep s'
      else match split sep s' with
           | p :: ps => String c p :: ps
           | [] => [String c EmptyString]
           end
  end.

(** [s.split()]: the maximal runs of non-blank characters. *)
Fixpoint split_ws_from (cur : string) (s : string) : list string :=
  match s with
  | EmptyString => match cur with EmptyString => [] | _ => [cur] end
  | String c s' =>
      if isspace c
      then match cur with
           | EmptyString => split_ws_from EmptyString s'
           | _ => cur :: split_ws_from EmptyString s'
           end
      else split_ws_from (cur +:+ String c EmptyString) s'
  end.
Definition split_ws (s : string) : list string := split_ws_from EmptyString s.

Fixpoint startswith (p s : string) : bool :=
  match p, s with
  | EmptyString, _ => true
  | String a p', String b s' => Ascii.eqb a b && startswith p' s'
  | String _ _, EmptyString => false
  end.

(** [needle in hay] for two [str] *)
Fixpoint contains (needle hay : string) : bool :=
  startswith needle hay ||
  match hay with
  | EmptyString => false
  | String _ hay' => contains needle hay'
  end.

(** [sep.join(l)] *)
Fixpoint join (sep : string) (l : list string) : string :=
  match l with
  | [] => EmptyString
  | [x] => x
  | x :: l' => x +:+ sep +:+ join sep l'
  end.

(** [l[-1]] of a list: [None] stands for [IndexError]. *)
Definition last_item (l : list string) : option string := last l.

(** [str(n)] for an [int] *)
Definition str (z : Z) : string := NilZero.string_of_int (Z.to_int z).
Definition str_N (n : N) : string := NilZero.string_of_uint (N.to_uint n).

Definition digit (c : ascii) : option Z :=
  let n := nat_of_ascii c in
  if ((48 <=? n) && (n <=? 57))%nat then Some (Z.of_nat n - 48) else None.

(** The digits of an integer literal, with single underscores allowed
    between digits; [acc] is [None] until the first digit, and [us]
    tells that the previous character was an underscore. *)
Fixpoint digits (acc : option Z) (us : bool) (s : string) : option Z :=
  match s with
  | EmptyString => if us then None else acc
  | String c s' =>
      match digit c with
      | Some d => digits (Some (10 * default 0 acc + d)) false s'
      | None =>
          if Ascii.eqb c "_"%char
          then match acc with
               | Some _ => if us then None else digits acc true s'
               | None => None
               end
          else None
      end
  end.

(** The interpreter converts a decimal literal of at most this many
    digits ([sys.int_info.default_max_str_digits]); the sign, the blanks
    around and the underscores are not counted. *)
Definition max_str_digits : N := 4300.

Fixpoint count_digits (s : string) : N :=
  match s with
  | EmptyString => 0
  | String c s' => if Ascii.eqb c "_"%char then count_digits s' else N.succ (count_digits s')
  end.

Definition literal (r : string) : option Z :=
  if (count_digits r <=? max_str_digits)%N then digits None false r else None.

(** [int(s)]: blanks around, an optional sign, decimal digits, no more
    of them than the interpreter converts.  [None] stands for
    [ValueError]. *)
Definition int (s : string) : option Z :=
  match strip s with
  | String "+" r => literal r
  | String "-" r => Z.opp <$> literal r
  | r => literal r
  end.

(** Bytes that are text in every encoding the interpreter may use:
    [bytes.decode] and [str.encode] leave them as they are. *)
Definition is_ascii (s : string) : bool :=
  forallb (fun c => (nat_of_ascii c <? 128)%nat) (list_ascii_of_string s).

End Py.

(** ** The host the spawner runs on *)

(** What the spawner asks of the machine: running a shell command with
    some text on its standard input, which yields the raw bytes of its
    standard output ([subprocess.Popen(cmd, shell=True, stdin=PIPE,
    stdout=PIPE)] and [communicate]; the error stream is not piped, so
    the second component of [communicate]'s pair is always [None]), and
    JupyterHub's [random_port]. *)
Class Host (Env : Type) := {
  popen : string -> string -> Env -> string * Env;
  random_port : Env -> N * Env
}.

(** A scheduler that plays back a fixed list of outputs, one per command,
    and keeps quiet afterwards; it hands out the same port every time. *)
Record Script := { replies : list string; free_port : N }.

#[export] Instance script_host : Host Script := {|
  popen _ _ sc :=
    match replies sc with
    | [] => (EmptyString, sc)
    | r :: rs => (r, {| replies := rs; free_port := free_port sc |})
    end;
  random_port sc := (free_port sc, sc)
|}.

(** One line of the password database ([pwd.getpwnam]). *)
Record Passwd := { pw_uid : Z; pw_gid : Z; pw_dir : string }.

(** What the spawner did to the outside, in order.  Log lines are left
    out: they change nothing the spawner reads back. *)
Inductive Event :=
| Popen (cmd stdin : string)
| DbCommit
| Sleep (seconds : Z).

(** ** The spawner object *)

(** The traits set in [jupyterhub_config.py], with what the base
    [Spawner] supplies: the user, the command line ([self.cmd] followed by
    [self.get_args()]) and the environment of [super().get_env()]. *)
Record Config := {
  extra_launch_script : string;
  partition : string;
  mem : Z;
  time : string;
  ntasks : Z;
  cpus_per_task : Z;
  nodes : Z;
  qos : string;
  job_name : string;
  output : string;
  run_with_sudo : bool;
  user_name : string;
  cmd_and_args : list string;
  base_env : gmap string string
}.

(** [self.authenticator]: the per-session request of the login form. *)
Record Form := {
  custom : bool;
  form_memory : Z;
  form_cpus : Z;
  form_tasks : Z;
  form_time : string;
  form_nodes : Z
}.

(** [self.user.server.port] holds the text of the [squeue] comment column
    or the integer from [random_port]. *)
Inductive Port :=
| PortStr (s : string)
| PortInt (n : N).

(** The spawner and what it can reach.  [slurm_job_id] is a [Unicode]
    trait and is never [None]; [slurm_port] is the attribute that
    [load_state] and [clear_state] assign (the hub calls one of them
    before it asks for [get_state]).  [server_ip] and [server_port] are
    [self.user.server.ip] and [.port].  [env] is the host behind [popen];
    [files] maps a path to the text of the file, [dirs] holds the
    directories, [unwritable] the paths that [open(path, "w")] refuses
    with [IOError]; [passwd] is the password database; [trace] is what
    was done so far. *)
Record State (Env : Type) := {
  cfg : Config;
  authenticator : Form;
  slurm_job_id : string;
  slurm_port : string;
  server_ip : option string;
  server_port : Port;
  spawn_pending : bool;
  env : Env;
  files : gmap string string;
  dirs : gset string;
  unwritable : gset string;
  passwd : gmap string Passwd;
  trace : list Event
}.
Arguments cfg {Env}.
Arguments authenticator {Env}.
Arguments slurm_job_id {Env}.
Arguments slurm_port {Env}.
Arguments server_ip {Env}.
Arguments server_port {Env}.
Arguments spawn_pending {Env}.
Arguments env {Env}.
Arguments files {Env}.
Arguments dirs {Env}.
Arguments unwritable {Env}.
Arguments passwd {Env}.
Arguments trace {Env}.

Inductive Exn :=
| SlurmException (msg : string)
| ValueError
| IndexError
| KeyError (key : string).

(** How a call ends: it returns, it raises, or the model ran out of the
    fuel that bounds the [while True] of the submission. *)
Inductive Outcome (A : Type) :=
| Return (a : A)
| Raise (e : Exn)
| OutOfFuel.
Arguments Return {A}.
Arguments Raise {A}.
Arguments OutOfFuel {A}.

(** ** The monad of the methods: state, exceptions, fuel *)

Definition M (Env A : Type) : Type := State Env -> Outcome A * State Env.

#[export] Instance M_ret {Env} : MRet (M Env) := fun A a st => (Return a, st).
Definition raise {Env A} (e : Exn) : M Env A := fun st => (Raise e, st).
Definition out_of_fuel {Env A} : M Env A := fun st => (OutOfFuel, st).
#[export] Instance M_bind {Env} : MBind (M Env) := fun A B k m st =>
    match m st with
    | (Return a, st') => k a st'
    | (Raise e, st') => (Raise e, st')
    | (OutOfFuel, st') => (OutOfFuel, st')
    end.
Definition get {Env A} (f : State Env -> A) : M Env A := fun st => (Return (f st), st).
Definition modify {Env} (f : State Env -> State Env) : M Env unit := fun st => (Return tt, f st).
(** [None] raises the given exception. *)
Definition or_raise {Env A} (e : Exn) (o : option A) : M Env A :=
  match o with Some a => mret a | None => raise e end.

Definition set_slurm_job_id {Env} (v : string) (st : State Env) : State Env :=
  {| cfg := cfg st; authenticator := authenticator st; slurm_job_id := v;
     slurm_port := slurm_port st; server_ip := server_ip st;
     server_port := server_port st; spawn_pending := spawn_pending st;
     env := env st; files := files st; dirs := dirs st;
     unwritable := unwritable st; passwd := passwd st; trace := trace st |}.
Definition set_slurm_port {Env} (v : string) (st : State Env) : State Env :=
  {| cfg := cfg st; authenticator := authenticator st; slurm_job_id := slurm_job_id st;
     slurm_port := v; server_ip := server_ip st;
     server_port := server_port st; spawn_pending := spawn_pending st;
     env := env st; files := files st; dirs := dirs st;
     unwritable := unwritable st; passwd := passwd st; trace := trace st |}.
Definition set_server_ip {Env} (v : option string) (st : State Env) : State Env :=
  {| cfg := cfg st; authenticator := authenticator st; slurm_job_id := slurm_job_id st;
     slurm_port := slurm_port st; server_ip := v;
     server_port := server_port st; spawn_pending := spawn_pending st;
     env := env st; files := files st; dirs := dirs st;
     unwritable := unwritable st; passwd := passwd st; trace := trace st |}.
Definition set_server_port {Env} (v : Port) (st : State Env) : State Env :=
  {| cfg := cfg st; authenticator := authenticator st; slurm_job_id := slurm_job_id st;
     slurm_port := slurm_port st; server_ip := server_ip st;
     server_port := v; spawn_pending := spawn_pending st;
     env := env st; files := files st; dirs := dirs st;
     unwritable := unwritable st; passwd := passwd st; trace := trace st |}.
Definition set_spawn_pending {Env} (v : bool) (st : State Env) : State Env :=
  {| cfg := cfg st; authenticator := authenticator st; slurm_job_id := slurm_job_id st;
     slurm_port := slurm_port st; server_ip := server_ip st;
     server_port := server_port st; spawn_pending := v;
     env := env st; files := files st; dirs := dirs st;
     unwritable := unwritable st; passwd := passwd st; trace := trace st |}.
Definition set_authenticator {Env} (v : Form) (st : State Env) : State Env :=
  {| cfg := cfg st; authenticator := v; slurm_job_id := slurm_job_id st;
     slurm_port := slurm_port st; server_ip := server_ip st;
     server_port := server_port st; spawn_pending := spawn_pending st;
     env := env st; files := files st; dirs := dirs st;
     unwritable := unwritable st; passwd := passwd st; trace := trace st |}.
Definition set_env {Env} (v : Env) (st : State Env) : State Env :=
  {| cfg := cfg st; authenticator := authenticator st; slurm_job_id := slurm_job_id st;
     slurm_port := slurm_port st; server_ip := server_ip st;
     server_port := server_port st; spawn_pending := spawn_pending st;
     env := v; files := files st; dirs := dirs st;
     unwritable := unwritable st; passwd := passwd st; trace := trace st |}.
Definition set_files {Env} (v : gmap string string) (st : State Env) : State Env :=
  {| cfg := cfg st; authenticator := authenticator st; slurm_job_id := slurm_job_id st;
     slurm_port := slurm_port st; server_ip := server_ip st;
     server_port := server_port st; spawn_pending := spawn_pending st;
     env := env st; files := v; dirs := dirs st;
     unwritable := unwritable st; passwd := passwd st; trace := trace st |}.
Definition set_dirs {Env} (v : gset string) (st : State Env) : State Env :=
  {| cfg := cfg st; authenticator := authenticator st; slurm_job_id := slurm_job_id st;
     slurm_port := slurm_port st; server_ip := server_ip st;
     server_port := server_port st; spawn_pending := spawn_pending st;
     env := env st; files := files st; dirs := v;
     unwritable := unwritable st; passwd := passwd st; trace := trace st |}.
Definition set_trace {Env} (v : list Event) (st : State Env) : State Env :=
  {| cfg := cfg st; authenticator := authenticator st; slurm_job_id := slurm_job_id st;
     slurm_port := slurm_port st; server_ip := server_ip st;
     server_port := server_port st; spawn_pending := spawn_pending st;
     env := env st; files := files st; dirs := dirs st;
     unwritable := unwritable st; passwd := passwd st; trace := v |}.

Definition emit {Env} (e : Event) : M Env unit := modify (fun st => set_trace (trace st ++ [e]) st).


(** ** The methods of [SlurmSpawner] *)

(** The fourth component of what [query_slurm_by_jobname] returns: the
    list [output_list[3:]] when [squeue] printed a line, the string [""]
    otherwise.  [in] is membership on the one, substring on the other. *)
Inductive Reason :=
| ReasonTokens (l : list string)
| ReasonText (s : string).

Definition reason_has (needle : string) (r : Reason) : bool :=
  match r with
  | ReasonTokens l => bool_decide (needle ∈ l)
  | ReasonText s => Py.contains needle s
  end.

(** [form.custom = False] *)
Definition served (form : Form) : Form :=
  {| custom := false; form_memory := form_memory form; form_cpus := form_cpus form;
     form_tasks := form_tasks form; form_time := form_time form;
     form_nodes := form_nodes form |}.

(** The values chosen for the five directives a session may ask for. *)
Record Resources := {
  r_memory : Z;
  r_cpus : Z;
  r_ntasks : Z;
  r_stime : string;
  r_nodes : Z
}.

(** The [Template] text with its fifteen placeholders filled in. *)
Definition slurm_script (cpus job_name mem ntasks nodes user output part qos time
    port gid sbatch export_cmd cmd : string) : string :=
  Py.join Py.nl
    [ "#!/bin/bash";
      "#SBATCH --cpus-per-task=" +:+ cpus;
      "#SBATCH --job-name=" +:+ job_name;
      "#SBATCH --mem=" +:+ mem;
      "#SBATCH --ntasks=" +:+ ntasks;
      "#SBATCH --nodes=" +:+ nodes;
      "#SBATCH --output=/home/" +:+ user +:+ "/" +:+ output;
      "#SBATCH --partition=" +:+ part;
      "#SBATCH --qos=" +:+ qos;
      "#SBATCH --time=" +:+ time;
      "#SBATCH --workdir=/home/" +:+ user;
      "#SBATCH --comment=" +:+ port;
      "#SBATCH --open-mode=append";
      "#SBATCH --uid=" +:+ user;
      "#SBATCH --gid=" +:+ gid;
      "#SBATCH --export=none";
      "#SBATCH --get-user-env=L";
      "";
      "##### USER-DEFINED TEMPLATE LOADED HERE #####";
      sbatch;
      "##### END USER-DEFINED TEMPLATE #############";
      "";
      "echo " +:+ Py.dq +:+ "*** Spawning single-user server ***" +:+ Py.dq;
      export_cmd;
      cmd;
      "";
      "        " ].

Section Spawner.
Context {Env : Type} `{Host Env}.

(** [popen.communicate(stdin)[0]] of a fresh [Popen(cmd, shell=True)] *)
Definition communicate (cmd stdin : string) : M Env string :=
  fun st =>
    let (out, e') := popen cmd stdin (env st) in
    (Return out, set_trace (trace st ++ [Popen cmd stdin]) (set_env e' st)).

(** [random_port()] *)
Definition pick_port : M Env N :=
  fun st => let (p, e') := random_port (env st) in (Return p, set_env e' st).

(** [out[1]] is [None], so the answer is [out[0].decode().strip()]. *)
Definition run_command (cmd : string) : M Env string :=
  out ← communicate cmd "";
  mret (Py.strip out).

(** The base [Spawner] hooks called through [super()] touch none of the
    fields kept here; what the base [get_state] returns is an argument. *)
Definition load_state (state : gmap string string) : M Env unit :=
  modify (set_slurm_job_id (default "" (state !! "slurm_job_id")));;
  modify (set_slurm_port (default "" (state !! "slurm_port"))).

Definition get_state (super_state : gmap string string) : M Env (gmap string string) :=
  let state := super_state in
  jid ← get slurm_job_id;
  let state := if String.eqb jid "" then state else <["slurm_job_id" := jid]> state in
  port ← get slurm_port;
  let state := if String.eqb port "" then state else <["slurm_port" := port]> state in
  mret state.

Definition clear_state : M Env unit :=
  modify (set_slurm_job_id "");;
  modify (set_slurm_port "").

(** [pwd.getpwnam(name)] *)
Definition getpwnam (name : string) : M Env Passwd :=
  db ← get passwd;
  or_raise (KeyError name) (db !! name).

(** [USER] and [HOME] of the user, added to the environment. *)
Definition user_env (e : gmap string string) : M Env (gmap string string) :=
  c ← get cfg;
  let e := <["USER" := user_name c]> e in
  pw ← getpwnam (user_name c);
  mret (<["HOME" := pw_dir pw]> e).

Definition get_env : M Env (gmap string string) :=
  c ← get cfg;
  user_env (base_env c).

(** The state of the tracked job as [squeue] prints it; a job that is
    pending with a reason that says [failed] counts as [FAILED].  Without
    a job id nothing is asked. *)
Definition check_slurm_job_state : M Env string :=
  jid ← get slurm_job_id;
  if String.eqb jid "" then mret ""
  else
    out ← run_command ("squeue -h -j " +:+ jid +:+ " -o %T");
    if Py.contains "PENDING" out then
      reason ← run_command ("squeue -h -j " +:+ jid +:+ " -O reason");
      if Py.contains "failed" reason then mret "FAILED" else mret out
    else mret out.

(** One [scancel] of the tracked job.  A [scancel] that prints anything
    raises; otherwise the result tells whether the job has left the
    queue. *)
Definition _stop_slurm_job : M Env bool :=
  jid ← get slurm_job_id;
  if String.eqb jid "" then mret true
  else
    output ← run_command ("scancel " +:+ jid);
    if negb (String.eqb output "")
    then raise (SlurmException
                  ("Failed to cancel job " +:+ jid +:+ ": slurm output: " +:+ output))
    else
      job_state ← check_slurm_job_state;
      mret (bool_decide
              (job_state ∈ ["CANCELLED"; "COMPLETED"; "FAILED"; "COMPLETING"; ""])).

(** [stop_slurm_job] hands [_stop_slurm_job] to the one-thread executor
    and yields its future: the same result, the same exception. *)
Definition stop_slurm_job : M Env bool := _stop_slurm_job.

(** The first four columns of what [squeue] prints for the user's job of
    this name. *)
Definition query_slurm_by_jobname (user jobname : string)
  : M Env (string * string * string * Reason) :=
  output ← run_command ("squeue -h -u " +:+ user +:+ " --name=" +:+ jobname
                          +:+ " -O jobid,comment,state,reason");
  let output_list := Py.split_ws (Py.strip output) in
  if bool_decide (0 < length output_list)%nat then
    jobid ← or_raise IndexError (output_list !! 0%nat);
    port ← or_raise IndexError (output_list !! 1%nat);
    state ← or_raise IndexError (output_list !! 2%nat);
    let reason := drop 3 output_list in
    mret (jobid, port, state, ReasonTokens reason)
  else mret ("", "", "", ReasonText "").

(** The address and the name of the node that runs the job, or
    [(None, None)]. *)
Definition get_slurm_job_info (jobid : string) : M Env (option string * option string) :=
  out ← communicate ("squeue -h -j " +:+ jobid +:+ " -o %N") "";
  let node_name := Py.bytes_strip out in
  if String.eqb node_name "" then mret (None, None)
  else
    out ← communicate ("host " +:+ node_name) "";
    let out := Py.bytes_strip out in
    node_ip ← or_raise IndexError (Py.last_item (Py.split " " out));
    mret (Some node_ip, Some node_name).

(** *** [_run_jupyterhub_singleuser], block by block *)

(** The admin's snippet, when the file is there. *)
Definition load_extra_launch_script : M Env string :=
  c ← get cfg;
  fs ← get files;
  match fs !! extra_launch_script c with
  | Some text => mret text
  | None => mret "# *** No user template found ***"
  end.

(** [full_cmd = cmd.split(';')], [full_cmd[0]], [full_cmd[1]] *)
Definition split_cmd (cmd : string) : M Env (string * string) :=
  let full_cmd := Py.split ";" cmd in
  export_cmd ← or_raise IndexError (full_cmd !! 0%nat);
  cmd ← or_raise IndexError (full_cmd !! 1%nat);
  mret (export_cmd, cmd).

(** The body of [if form.time:].  The four [int] calls are there to
    raise on text that is no number; [stime] is the value so far. *)
Definition checked_time (form_time stime : string) : M Env string :=
  let tokens := Py.split ":" form_time in
  t0 ← or_raise IndexError (tokens !! 0%nat);
  d ← or_raise IndexError (Py.split "-" t0 !! 0%nat);
  days ← or_raise ValueError (Py.int d);
  h ← or_raise IndexError (Py.split "-" t0 !! 1%nat);
  hours ← or_raise ValueError (Py.int h);
  t1 ← or_raise IndexError (tokens !! 1%nat);
  minutes ← or_raise ValueError (Py.int t1);
  t2 ← or_raise IndexError (tokens !! 2%nat);
  seconds ← or_raise ValueError (Py.int t2);
  if bool_decide (days <= 14) then mret form_time else mret stime.

(** The per-session request against the configured defaults. *)
Definition choose_resources : M Env Resources :=
  c ← get cfg;
  form ← get authenticator;
  let memory := mem c in
  let cpus := cpus_per_task c in
  let ntasks_ := ntasks c in
  let stime := time c in
  let nodes_ := nodes c in
  if custom form then
    let memory := if bool_decide (form_memory form > 0) then form_memory form else memory in
    let cpus :=
      if bool_decide (form_cpus form > 0) && bool_decide (form_cpus form <= 32)
      then form_cpus form else cpus in
    let ntasks_ :=
      if bool_decide (form_tasks form > 0) && bool_decide (form_tasks form <= 128)
      then form_tasks form else ntasks_ in
    stime ←
      (if String.eqb (form_time form) "" then mret stime
       else checked_time (form_time form) stime);
    let nodes_ :=
      if bool_decide (form_nodes form > 0) && bool_decide (form_nodes form <= 32)
      then form_nodes form else nodes_ in
    modify (set_authenticator (served form));;
    mret {| r_memory := memory; r_cpus := cpus; r_ntasks := ntasks_;
            r_stime := stime; r_nodes := nodes_ |}
  else
    mret {| r_memory := memory; r_cpus := cpus; r_ntasks := ntasks_;
            r_stime := stime; r_nodes := nodes_ |}.

(** [slurm_script.substitute(...)] *)
Definition render (c : Config) (r : Resources) (sbatch export_cmd cmd : string)
    (port : N) (user : string) (gid : Z) : string :=
  slurm_script (Py.str (r_cpus r)) (job_name c) (Py.str (r_memory r))
    (Py.str (r_ntasks r)) (Py.str (r_nodes r)) user (output c) (partition c)
    (qos c) (r_stime r) (Py.str_N port) (Py.str gid) sbatch export_cmd cmd.

(** [for c in str(port): sum += int(c)], then [str(sum)] *)
Definition add_digit (acc : option Z) (c : ascii) : option Z :=
  sum ← acc; d ← Py.int (String c ""); Some (sum + d).
Definition port_hash (port : N) : option string :=
  sum ← foldl add_digit (Some 0) (list_ascii_of_string (Py.str_N port));
  Some (Py.str sum).

(** The file the [job_submit.lua] side reads back.  [os.mkdir] is taken
    to succeed; [open(file_name, "w")] raises [IOError] on the paths of
    [unwritable]. *)
Definition write_hash_file (user : string) (port : N) : M Env unit :=
  pw ← getpwnam user;
  let uid := pw_uid pw in
  ds ← get dirs;
  fs ← get files;
  (if bool_decide ("/tmp/jupyter" ∈ ds) || bool_decide (is_Some (fs !! "/tmp/jupyter"))
   then mret tt
   else modify (set_dirs ({["/tmp/jupyter"]} ∪ ds)));;
  let file_name := "/tmp/jupyter/" +:+ Py.str uid in
  ro ← get unwritable;
  (if bool_decide (file_name ∈ ro)
   then raise (SlurmException
                 ("Error opening hash file '" +:+ file_name +:+ "' for writing"))
   else modify (fun st => set_files (<[file_name := ""]> (files st)) st));;
  hash ← or_raise ValueError (port_hash port);
  modify (fun st =>
            set_files (<[file_name := default "" (files st !! file_name) +:+ hash]> (files st)) st).

(** [sbatch] reads the script on its standard input. *)
Definition submit (slurm_script : string) : M Env unit :=
  c ← get cfg;
  let cmd := if run_with_sudo c then "sudo sbatch" else "sbatch" in
  out ← communicate cmd slurm_script;
  let output := Py.bytes_strip out in
  if String.eqb output "" || bool_decide (String.length output = 0%nat)
  then raise (SlurmException "Slurm did not attempt to start the job! Check Slurm logs")
  else
    jid ← or_raise IndexError (Py.last_item (Py.split " " output));
    modify (set_slurm_job_id jid).

(** The [while True] after the submission; one unit of fuel per turn. *)
Fixpoint wait_until_running (fuel : nat) (job_state : string) : M Env unit :=
  match fuel with
  | O => out_of_fuel
  | S fuel' =>
      if Py.contains "RUNNING" job_state then mret tt
      else if Py.contains "PENDING" job_state then
        job_state ← check_slurm_job_state;
        emit (Sleep 1);;
        wait_until_running fuel' job_state
      else
        jid ← get slurm_job_id;
        raise (SlurmException ("Job " +:+ jid +:+ " failed to start!"))
  end.

(** Submits the [sbatch] script that starts the single-user server and
    waits for the job to run. *)
Definition _run_jupyterhub_singleuser (fuel : nat) (cmd : string) (port : N)
    (user : string) : M Env string :=
  sbatch ← load_extra_launch_script;
  '(export_cmd, cmd) ← split_cmd cmd;
  pw ← getpwnam user;
  let gid := pw_gid pw in
  r ← choose_resources;
  c ← get cfg;
  let slurm_script := render c r sbatch export_cmd cmd port user gid in
  write_hash_file user port;;
  submit slurm_script;;
  job_state ← check_slurm_job_state;
  wait_until_running fuel job_state;;
  jid ← get slurm_job_id;
  '(node_ip, node_name) ← get_slurm_job_info jid;
  match node_ip, node_name with
  | Some ip, Some _ =>
      modify (set_server_ip (Some ip));;
      modify (set_server_port (PortInt port));;
      get slurm_job_id
  | _, _ =>
      raise (SlurmException
               ("There appears to be no node info available for job " +:+ jid))
  end.

(** The wrapper that hands the call to the executor. *)
Definition run_jupyterhub_singleuser (fuel : nat) (cmd : string) (port : N)
    (user : string) : M Env string :=
  _run_jupyterhub_singleuser fuel cmd port user.

(** *** The three entry points of the hub *)

(** The end of [start], from [self.user.server.port = random_port()]
    on: no job was found, a new one is submitted. *)
Definition start_new_job (fuel : nat) : M Env unit :=
  c ← get cfg;
  p ← pick_port;
  modify (set_server_port (PortInt p));;
  e ← get_env;
  let cmd := cmd_and_args c in
  get_env;;
  tok ← or_raise (KeyError "JPY_API_TOKEN") (e !! "JPY_API_TOKEN");
  let cmd := ("export JPY_API_TOKEN=" +:+ Py.dq +:+ tok +:+ Py.dq +:+ ";") :: cmd in
  emit DbCommit;;
  run_jupyterhub_singleuser fuel (Py.join " " cmd) p (user_name c);;
  mret tt.

Definition start (fuel : nat) : M Env unit :=
  c ← get cfg;
  '(jobid, port, state, reason) ← query_slurm_by_jobname (user_name c) (job_name c);
  let '(jobid, port) := if String.eqb state "COMPLETING" then ("", "") else (jobid, port) in
  modify (set_slurm_job_id jobid);;
  modify (set_server_port (PortStr port));;
  if reason_has "failed" reason then
    _stop_slurm_job;;
    clear_state;;
    modify (set_spawn_pending false);;
    emit DbCommit;;
    raise (SlurmException "Slurm failed to launch job")
  else if negb (String.eqb jobid "") && negb (String.eqb port "") then
    '(node_ip, node_name) ← get_slurm_job_info jobid;
    modify (set_server_ip node_ip)
  else start_new_job fuel.

(** [None] says the server is alive, a number is its exit status.  The
    test [self.slurm_job_id is not None] holds of every [Unicode] value,
    so the trailing [if not self.slurm_job_id] is never reached. *)
Definition poll : M Env (option Z) :=
  state ← check_slurm_job_state;
  if Py.contains "RUNNING" state || Py.contains "PENDING" state then mret None
  else
    (if String.eqb state "" then mret tt
     else
       _stop_slurm_job;;
       modify (set_spawn_pending false);;
       emit DbCommit);;
    clear_state;;
    mret (Some 127).

(** [stop(now=False)]: cancel, once more when the job did not stop, and
    clear the state. *)
Definition stop (now : bool) : M Env unit :=
  (if negb now then
     is_stopped ← stop_slurm_job;
     if negb is_stopped then stop_slurm_job;; mret tt else mret tt
   else mret tt);;
  clear_state.

End Spawner.

(** ** A concrete hub, for running the methods *)

(** The defaults of the traits in the class body. *)
Definition default_config (user : string) : Config :=
  {| extra_launch_script := "/etc/jupyterhub/extra_launch_script";
     partition := "all"; mem := 400; time := "1-00:00:00"; ntasks := 1;
     cpus_per_task := 1; nodes := 1; qos := "normal";
     job_name := "spawner-jupyterhub-singleuser";
     output := "/.ipython/jupyterhub-slurmspawner.log";
     run_with_sudo := false; user_name := user;
     cmd_and_args := ["run-server"; "--port"; "9123"];
     base_env := {["JPY_API_TOKEN" := "t0k"]} |}.

Definition no_request : Form :=
  {| custom := false; form_memory := 0; form_cpus := 0; form_tasks := 0;
     form_time := ""; form_nodes := 0 |}.

(** A spawner of user [alice] (uid 1000, gid 100) that tracks job [jid],
    on a scheduler that answers with [outs]. *)
Definition alice (jid : string) (outs : list string) : State Script :=
  {| cfg := default_config "alice"; authenticator := no_request;
     slurm_job_id := jid; slurm_port := ""; server_ip := None;
     server_port := PortStr ""; spawn_pending := true;
     env := {| replies := outs; free_port := 9123 |};
     files := ∅; dirs := ∅; unwritable := ∅;
     passwd := {["alice" := {| pw_uid := 1000; pw_gid := 100; pw_dir := "/home/alice" |}]};
     trace := [] |}.

(** How many times a command starting with [name] was run. *)
Definition runs (name : string) (e : Event) : bool :=
  match e with
  | Popen cmd _ => Py.startswith name cmd
  | _ => false
  end.
Definition count_cmd (name : string) (tr : list Event) : nat :=
  length (List.filter (runs name) tr).

Definition cancel_attempts (tr : list Event) : nat := count_cmd "scancel " tr.
Definition submissions (tr : list Event) : nat :=
  (count_cmd "sbatch" tr + count_cmd "sudo sbatch" tr)%nat.
Definition scheduler_calls (tr : list Event) : nat :=
  length (List.filter (fun e => match e with Popen _ _ => true | _ => false end) tr).

(** The sum of the decimal digits of a number, digit by digit; the hash
    file is meant to hold it. *)
Fixpoint digit_sum (d : Decimal.uint) : Z :=
  match d with
  | Decimal.Nil => 0
  | Decimal.D0 d => 0 + digit_sum d
  | Decimal.D1 d => 1 + digit_sum d
  | Decimal.D2 d => 2 + digit_sum d
  | Decimal.D3 d => 3 + digit_sum d
  | Decimal.D4 d => 4 + digit_sum d
  | Decimal.D5 d => 5 + digit_sum d
  | Decimal.D6 d => 6 + digit_sum d
  | Decimal.D7 d => 7 + digit_sum d
  | Decimal.D8 d => 8 + digit_sum d
  | Decimal.D9 d => 9 + digit_sum d
  end.

Definition hash_file_of (pw : Passwd) : string := "/tmp/jupyter/" +:+ Py.str (pw_uid pw).

(** The days of a wall time as the four [int] checks of
    [choose_resources] read them off the text; [None] when one of the
    checks raises. *)
Definition wall_time_days (t : string) : option Z :=
  let tokens := Py.split ":" t in
  t0 ← tokens !! 0%nat;
  d ← Py.split "-" t0 !! 0%nat;
  days ← Py.int d;
  h ← Py.split "-" t0 !! 1%nat;
  _ ← Py.int h;
  t1 ← tokens !! 1%nat;
  _ ← Py.int t1;
  t2 ← tokens !! 2%nat;
  _ ← Py.int t2;
  Some days.

(** The login form of a session that asks for resources of its own. *)
Definition with_request {Env} (form : Form) (st : State Env) : State Env :=
  set_authenticator form st.

(** A string of decimal digits, as [str] prints a natural number. *)
Inductive numeral : string -> Prop :=
| numeral_digit (c : ascii) (k : Z) : Py.digit c = Some k -> numeral (String c "")
| numeral_more (c : ascii) (k : Z) (s : string) :
    Py.digit c = Some k -> numeral s -> numeral (String c s).

(** The number a string of decimal digits stands for. *)
Fixpoint decimal (acc : Z) (s : string) : Z :=
  match s with
  | EmptyString => acc
  | String c s' => decimal (10 * acc + (Z.of_nat (nat_of_ascii c) - 48)) s'
  end.
Definition numeral_value (s : string) : Z := decimal 0 s.

(** A string of decimal digits that [int] converts. *)
Definition int_text (s : string) : Prop :=
  numeral s /\ (N.of_nat (String.length s) <= Py.max_str_digits)%N.

(** The wall time [days-hours:minutes:seconds] of four numbers as they
    are written. *)
Definition wall_time (d h m s : string) : string :=
  d +:+ "-" +:+ h +:+ ":" +:+ m +:+ ":" +:+ s.

(** A call that only adds to the record of what was done. *)
Definition grows {Env A} (m : M Env A) : Prop :=
  forall st r st', m st = (r, st') -> exists tr, trace st' = trace st ++ tr.

(** A call whose new events all satisfy [P]. *)
Definition emits {Env A} (P : Event -> Prop) (m : M Env A) : Prop :=
  forall st r st', m st = (r, st') -> exists tr, trace st' = trace st ++ tr /\ Forall P tr.

(** Between [st] and [st'] only the host and the record of what was done
    have changed. *)
Definition only_talked {Env} (st st' : State Env) : Prop :=
  st' = set_trace (trace st') (set_env (env st') st).

(** The commands that concern the job [jid], and the commit. *)
Definition about_job (jid : string) (e : Event) : Prop :=
  e = Popen ("squeue -h -j " +:+ jid +:+ " -o %T") "" \/
  e = Popen ("squeue -h -j " +:+ jid +:+ " -O reason") "" \/
  e = Popen ("scancel " +:+ jid) "" \/
  e = DbCommit.

(** No [sbatch]. *)
Definition no_submission (e : Event) : Prop :=
  runs "sbatch" e = false /\ runs "sudo sbatch" e = false.

(** A scheduler that gives the same answer to every command. *)
Record Stuck := { answer : string; stuck_port : N }.

#[export] Instance stuck_host : Host Stuck := {|
  popen _ _ s := (answer s, s);
  random_port s := (stuck_port s, s)
|}.

(** No blank character in the string. *)
Fixpoint blank_free (s : string) : bool :=
  match s with
  | EmptyString => true
  | String c s' => negb (Py.isspace c) && blank_free s'
  end.

(** A call that reads the spawner and changes nothing. *)
Definition reads_only {Env A} (m : M Env A) : Prop :=
  forall st o st', m st = (o, st') -> st' = st /\ o ≠ OutOfFuel.

(** How many times the spawner slept. *)
Definition sleeps (tr : list Event) : nat :=
  length (List.filter (fun e => match e with Sleep _ => true | _ => false end) tr).

(** A spawner of user [alice] on a scheduler that answers [a] to every
    command. *)
Definition waiting (jid a : string) : State Stuck :=
  {| cfg := default_config "alice"; authenticator := no_request;
     slurm_job_id := jid; slurm_port := ""; server_ip := None;
     server_port := PortInt 9123; spawn_pending := true;
     env := {| answer := a; stuck_port := 9123 |};
     files := ∅; dirs := ∅; unwritable := ∅;
     passwd := {["alice" := {| pw_uid := 1000; pw_gid := 100; pw_dir := "/home/alice" |}]};
     trace := [] |}.

(** ** Running the code on small inputs *)

Example strip_ex : Py.strip (" PENDING" +:+ Py.nl) = "PENDING".
Proof. reflexivity. Qed.
Example split_ex : Py.split ";" "a;b;c" = ["a"; "b"; "c"] /\ Py.split ";" "" = [""].
Proof. split; reflexivity. Qed.
Example split_ws_ex : Py.split_ws "  12  8888 RUNNING  None " = ["12"; "8888"; "RUNNING"; "None"].
Proof. reflexivity. Qed.
Example int_ex :
  Py.int " 14 " = Some 14 /\ Py.int "-3" = Some (-3) /\ Py.int "1_0" = Some 10 /\
  Py.int "" = None /\ Py.int "1__0" = None /\ Py.int "abc" = None /\ Py.int "_1" = None.
Proof. repeat split; reflexivity. Qed.
Example int_limit_ex :
  is_Some (Py.int (string_of_list_ascii (replicate 4300 "1"%char))) /\
  Py.int (string_of_list_ascii (replicate 4301 "1"%char)) = None /\
  Py.int (string_of_list_ascii ("-"%char :: replicate 4301 "0"%char)) = None.
Proof. split; [|split]; vm_compute; eauto. Qed.
Example str_ex : Py.str 15 = "15" /\ Py.str (-7) = "-7" /\ Py.str 0 = "0" /\ Py.str_N 9123 = "9123".
Proof. repeat split; reflexivity. Qed.
Example contains_ex :
  Py.contains "failed" "launch failed requeued held" = true /\
  Py.contains "PENDING" "" = false /\ Py.contains "" "" = true.
Proof. repeat split; reflexivity. Qed.

(** A fresh submission that comes up on node [cn7]. *)
Example start_fresh_ex :
  let st := alice "" [""; "Submitted batch job 209"; "PENDING"; "Resources"; "RUNNING";
                      "cn7"; "cn7.cluster has address 10.0.0.7"] in
  let '(r, st') := start 5 st in
  r = Return tt /\ slurm_job_id st' = "209" /\ server_ip st' = Some "10.0.0.7" /\
  server_port st' = PortInt 9123 /\ files st' !! "/tmp/jupyter/1000" = Some "15" /\
  submissions (trace st') = 1%nat.
Proof. vm_compute. repeat split. Qed.

(** The scenario of user [alice] with the default resources, the command
    [export X=1;run-server --port 9123] and port 9123: the script that
    [sbatch] reads, and the hash file. *)
Example alice_scenario_ex :
  let st := alice "" ["Submitted batch job 209"; "RUNNING"; "cn7";
                      "cn7.cluster has address 10.0.0.7"] in
  let '(r, st') :=
    _run_jupyterhub_singleuser 5 "export X=1;run-server --port 9123" 9123 "alice" st in
  r = Return "209" /\
  files st' !! "/tmp/jupyter/1000" = Some "15" /\
  trace st' !! 0%nat =
    Some (Popen "sbatch"
            (Py.join Py.nl
               [ "#!/bin/bash";
                 "#SBATCH --cpus-per-task=1";
                 "#SBATCH --job-name=spawner-jupyterhub-singleuser";
                 "#SBATCH --mem=400";
                 "#SBATCH --ntasks=1";
                 "#SBATCH --nodes=1";
                 "#SBATCH --output=/home/alice//.ipython/jupyterhub-slurmspawner.log";
                 "#SBATCH --partition=all";
                 "#SBATCH --qos=normal";
                 "#SBATCH --time=1-00:00:00";
                 "#SBATCH --workdir=/home/alice";
                 "#SBATCH --comment=9123";
                 "#SBATCH --open-mode=append";
                 "#SBATCH --uid=alice";
                 "#SBATCH --gid=100";
                 "#SBATCH --export=none";
                 "#SBATCH --get-user-env=L";
                 "";
                 "##### USER-DEFINED TEMPLATE LOADED HERE #####";
                 "# *** No user template found ***";
                 "##### END USER-DEFINED TEMPLATE #############";
                 "";
                 "echo " +:+ Py.dq +:+ "*** Spawning single-user server ***" +:+ Py.dq;
                 "export X=1";
                 "run-server --port 9123";
                 "";
                 "        " ])).
Proof. vm_compute. repeat split. Qed.

(** ** What the methods do *)

(** Unfolding the monad down to pairs of an outcome and a state. *)
Ltac run :=
  unfold mbind, M_bind, mret, M_ret, get, modify, raise, or_raise, emit in *;
  cbn [fst snd] in *.

(** The same, through every layer, with the redexes reduced. *)
Ltac run_all :=
  repeat (progress (unfold mbind, M_bind, mret, M_ret, get, modify, raise, or_raise,
                      emit, out_of_fuel in * ));
  cbn beta iota zeta in *.

Section Properties.
Context {Env : Type} `{Host Env}.

Lemma eqb_empty (s : string) : String.eqb s "" = bool_decide (s = "").
Proof.
  destruct (String.eqb_spec s ""); [by rewrite bool_decide_eq_true_2|by rewrite bool_decide_eq_false_2].
Qed.

(** *** The state hooks *)

Lemma get_state_returns (super_state : gmap string string) (st : State Env) :
  get_state super_state st =
    (Return
       (let s1 := if String.eqb (slurm_job_id st) "" then super_state
                  else <["slurm_job_id" := slurm_job_id st]> super_state in
        if String.eqb (slurm_port st) "" then s1
        else <["slurm_port" := slurm_port st]> s1), st).
Proof. reflexivity. Qed.

Lemma load_state_fields (state : gmap string string) (st : State Env) :
  exists st', load_state state st = (Return tt, st') /\
    slurm_job_id st' = default "" (state !! "slurm_job_id") /\
    slurm_port st' = default "" (state !! "slurm_port").
Proof. eexists. split; [reflexivity|]. split; reflexivity. Qed.

Lemma clear_state_fields (st : State Env) :
  exists st', clear_state st = (Return tt, st') /\
    slurm_job_id st' = "" /\ slurm_port st' = "".
Proof. eexists. split; [reflexivity|]. split; reflexivity. Qed.

(** C10. [get_state] adds to what the base class saves the key
    [slurm_job_id] when the job id is not empty and the key [slurm_port]
    when the port is not empty, and touches no other key; [load_state]
    of the saved dictionary, into any spawner, gives back both fields as
    they were; a key that is absent loads as the empty string; and
    [clear_state] sets both fields to the empty string. *)
Theorem state_hooks_round_trip (super_state : gmap string string) (st other : State Env) :
  super_state !! "slurm_job_id" = None ->
  super_state !! "slurm_port" = None ->
  exists saved st' cleared,
    get_state super_state st = (Return saved, st) /\
    saved !! "slurm_job_id" =
      (if bool_decide (slurm_job_id st = "") then None else Some (slurm_job_id st)) /\
    saved !! "slurm_port" =
      (if bool_decide (slurm_port st = "") then None else Some (slurm_port st)) /\
    (forall k, k ≠ "slurm_job_id" -> k ≠ "slurm_port" -> saved !! k = super_state !! k) /\
    load_state saved other = (Return tt, st') /\
    slurm_job_id st' = slurm_job_id st /\
    slurm_port st' = slurm_port st /\
    (forall st'', load_state ∅ other = (Return tt, st'') ->
                  slurm_job_id st'' = "" /\ slurm_port st'' = "") /\
    clear_state st = (Return tt, cleared) /\
    slurm_job_id cleared = "" /\ slurm_port cleared = "".
Proof.
  intros Hj Hp.
  destruct (load_state_fields
              (let s1 := if String.eqb (slurm_job_id st) "" then super_state
                         else <["slurm_job_id" := slurm_job_id st]> super_state in
               if String.eqb (slurm_port st) "" then s1
               else <["slurm_port" := slurm_port st]> s1) other) as (st' & Hl & Hlj & Hlp).
  destruct (clear_state_fields st) as (cl & Hc & Hcj & Hcp).
  eexists _, st', cl.
  split; [apply get_state_returns|].
  cbn zeta in *. rewrite !eqb_empty in *.
  assert (Hsj : (if bool_decide (slurm_port st = "")
                 then if bool_decide (slurm_job_id st = "") then super_state
                      else <["slurm_job_id" := slurm_job_id st]> super_state
                 else <["slurm_port" := slurm_port st]>
                        (if bool_decide (slurm_job_id st = "") then super_state
                         else <["slurm_job_id" := slurm_job_id st]> super_state))
                  !! "slurm_job_id"
                = if bool_decide (slurm_job_id st = "") then None else Some (slurm_job_id st)).
  { repeat case_bool_decide; by simplify_map_eq. }
  assert (Hsp : (if bool_decide (slurm_port st = "")
                 then if bool_decide (slurm_job_id st = "") then super_state
                      else <["slurm_job_id" := slurm_job_id st]> super_state
                 else <["slurm_port" := slurm_port st]>
                        (if bool_decide (slurm_job_id st = "") then super_state
                         else <["slurm_job_id" := slurm_job_id st]> super_state))
                  !! "slurm_port"
                = if bool_decide (slurm_port st = "") then None else Some (slurm_port st)).
  { repeat case_bool_decide; by simplify_map_eq. }
  split; [exact Hsj|]. split; [exact Hsp|].
  split. { intros k Hk1 Hk2. repeat case_bool_decide; by simplify_map_eq. }
  split; [exact Hl|].
  split. { rewrite Hlj, Hsj. repeat case_bool_decide; simpl; congruence. }
  split. { rewrite Hlp, Hsp. repeat case_bool_decide; simpl; congruence. }
  split. { intros st'' Hl0. unfold load_state in Hl0. run. by simplify_eq. }
  done.
Qed.

(** *** [poll] *)

Lemma check_state_without_job (st : State Env) :
  slurm_job_id st = "" -> check_slurm_job_state st = (Return "", st).
Proof. intros Hj. unfold check_slurm_job_state. run. by rewrite Hj. Qed.

(** C6. On a spawner that tracks no job id, [poll] returns 127, runs no
    command at all, and changes nothing but through [clear_state] (the
    job id and the port are set to the empty string); a second [poll]
    right after returns 127 again and leaves the spawner as the first
    left it. *)
Theorem poll_without_job_id (st : State Env) :
  slurm_job_id st = "" ->
  exists st',
    poll st = (Return (Some 127), st') /\
    clear_state st = (Return tt, st') /\
    st' = set_slurm_port "" (set_slurm_job_id "" st) /\
    trace st' = trace st /\
    scheduler_calls (trace st') = scheduler_calls (trace st) /\
    env st' = env st /\
    poll st' = (Return (Some 127), st').
Proof.
  intros Hj. exists (set_slurm_port "" (set_slurm_job_id "" st)).
  assert (Hp : forall s : State Env, slurm_job_id s = "" ->
            poll s = (Return (Some 127), set_slurm_port "" (set_slurm_job_id "" s))).
  { intros s Hs. unfold poll. run. rewrite (check_state_without_job s Hs). reflexivity. }
  split; [by apply Hp|].
  split; [reflexivity|].
  split; [reflexivity|].
  split; [reflexivity|].
  split; [reflexivity|].
  split; [reflexivity|].
  by rewrite Hp.
Qed.

(** *** [check_slurm_job_state] *)

Lemma run_command_runs (cmd out : string) (e' : Env) (st : State Env) :
  popen cmd "" (env st) = (out, e') ->
  run_command cmd st =
    (Return (Py.strip out), set_trace (trace st ++ [Popen cmd ""]) (set_env e' st)).
Proof. intros Hp. unfold run_command, communicate. run. by rewrite Hp. Qed.

(** The state as the code derives it, whenever the word [PENDING] occurs
    in what the state query prints. *)
Lemma check_state_pending (st : State Env) (o1 o2 : string) (e1 e2 : Env) :
  slurm_job_id st ≠ "" ->
  popen ("squeue -h -j " +:+ slurm_job_id st +:+ " -o %T") "" (env st) = (o1, e1) ->
  popen ("squeue -h -j " +:+ slurm_job_id st +:+ " -O reason") "" e1 = (o2, e2) ->
  Py.contains "PENDING" (Py.strip o1) = true ->
  check_slurm_job_state st =
    (Return (if Py.contains "failed" (Py.strip o2) then "FAILED" else Py.strip o1),
     set_trace (trace st ++ [Popen ("squeue -h -j " +:+ slurm_job_id st +:+ " -o %T") "";
                             Popen ("squeue -h -j " +:+ slurm_job_id st +:+ " -O reason") ""])
       (set_env e2 st)).
Proof.
  intros Hj H1 H2 Hpend. unfold check_slurm_job_state. run.
  destruct (String.eqb_spec (slurm_job_id st) ""); [done|].
  rewrite (run_command_runs _ _ _ _ H1), Hpend.
  rewrite (run_command_runs _ o2 e2); [|exact H2].
  cbn [trace set_trace set_env]. rewrite <- app_assoc. cbn [app].
  by destruct (Py.contains "failed" (Py.strip o2)).
Qed.

(** Any other answer is passed on as it is, after one query. *)
Lemma check_state_not_pending (st : State Env) (o1 : string) (e1 : Env) :
  slurm_job_id st ≠ "" ->
  popen ("squeue -h -j " +:+ slurm_job_id st +:+ " -o %T") "" (env st) = (o1, e1) ->
  Py.contains "PENDING" (Py.strip o1) = false ->
  check_slurm_job_state st =
    (Return (Py.strip o1),
     set_trace (trace st ++ [Popen ("squeue -h -j " +:+ slurm_job_id st +:+ " -o %T") ""])
       (set_env e1 st)).
Proof.
  intros Hj H1 Hpend. unfold check_slurm_job_state. run.
  destruct (String.eqb_spec (slurm_job_id st) ""); [done|].
  by rewrite (run_command_runs _ _ _ _ H1), Hpend.
Qed.

(** C4. For a tracked job whose state query prints [PENDING], the reason
    query is run next, and nothing else; the derived state is [FAILED]
    when the reason text has the substring [failed] and [PENDING] when
    it has not, so it is [FAILED] exactly in the first case. *)
Theorem pending_reason_decides (st : State Env) (o1 o2 : string) (e1 e2 : Env) :
  slurm_job_id st ≠ "" ->
  popen ("squeue -h -j " +:+ slurm_job_id st +:+ " -o %T") "" (env st) = (o1, e1) ->
  popen ("squeue -h -j " +:+ slurm_job_id st +:+ " -O reason") "" e1 = (o2, e2) ->
  Py.strip o1 = "PENDING" ->
  exists job_state st',
    check_slurm_job_state st = (Return job_state, st') /\
    trace st' = trace st ++ [Popen ("squeue -h -j " +:+ slurm_job_id st +:+ " -o %T") "";
                             Popen ("squeue -h -j " +:+ slurm_job_id st +:+ " -O reason") ""] /\
    (Py.contains "failed" (Py.strip o2) = true -> job_state = "FAILED") /\
    (Py.contains "failed" (Py.strip o2) = false -> job_state = "PENDING") /\
    (job_state = "FAILED" <-> Py.contains "failed" (Py.strip o2) = true).
Proof.
  intros Hj H1 H2 Hp.
  eexists _, _. split.
  { apply (check_state_pending st o1 o2 e1 e2 Hj H1 H2). by rewrite Hp. }
  split; [reflexivity|].
  rewrite Hp. destruct (Py.contains "failed" (Py.strip o2)); repeat split; try done.
Qed.

(** *** [_stop_slurm_job] and [stop] *)

Lemma cancel_attempts_snoc (tr : list Event) (e : Event) :
  cancel_attempts (tr ++ [e]) = (cancel_attempts tr + if runs "scancel " e then 1 else 0)%nat.
Proof.
  unfold cancel_attempts, count_cmd. rewrite List.filter_app, length_app.
  cbn [List.filter]. by destruct (runs "scancel " e).
Qed.

Lemma squeue_is_no_cancel (rest stdin : string) :
  runs "scancel " (Popen ("squeue -h -j " +:+ rest) stdin) = false.
Proof. reflexivity. Qed.

Lemma scancel_is_cancel (jid stdin : string) :
  runs "scancel " (Popen ("scancel " +:+ jid) stdin) = true.
Proof. reflexivity. Qed.

(** [check_slurm_job_state] always returns, cancels nothing, and keeps
    the record. *)
Lemma check_state_total (st : State Env) :
  exists s st', check_slurm_job_state st = (Return s, st') /\
    slurm_job_id st' = slurm_job_id st /\ slurm_port st' = slurm_port st /\
    cancel_attempts (trace st') = cancel_attempts (trace st).
Proof.
  unfold check_slurm_job_state, run_command, communicate. run.
  destruct (String.eqb (slurm_job_id st) ""); [by eexists _, _|].
  destruct (popen _ _ (env st)) as [o1 e1]. cbn [env set_trace set_env trace].
  destruct (Py.contains "PENDING" (Py.strip o1)).
  - match goal with |- context [popen ?c ?i ?e] => destruct (popen c i e) as [o2 e2] end.
    destruct (Py.contains "failed" (Py.strip o2)); eexists _, _;
      (split; [reflexivity|]); cbn [slurm_job_id slurm_port set_trace set_env trace];
      rewrite !cancel_attempts_snoc, !squeue_is_no_cancel; repeat split; lia.
  - eexists _, _. split; [reflexivity|].
    cbn [slurm_job_id slurm_port set_trace set_env trace].
    rewrite !cancel_attempts_snoc, !squeue_is_no_cancel; repeat split; lia.
Qed.

(** One call of [_stop_slurm_job]: nothing to do without a job id;
    otherwise one [scancel], whose output, when not empty, is raised. *)
Lemma stop_job_spec (st : State Env) :
  exists r st1, _stop_slurm_job st = (r, st1) /\
    slurm_job_id st1 = slurm_job_id st /\ slurm_port st1 = slurm_port st /\
    match r with
    | Return b =>
        cancel_attempts (trace st1) =
          (cancel_attempts (trace st) + if String.eqb (slurm_job_id st) "" then 0 else 1)%nat /\
        (b = false -> slurm_job_id st ≠ "")
    | Raise e =>
        slurm_job_id st ≠ "" /\
        cancel_attempts (trace st1) = (cancel_attempts (trace st) + 1)%nat /\
        exists o e1, popen ("scancel " +:+ slurm_job_id st) "" (env st) = (o, e1) /\
          Py.strip o ≠ "" /\
          e = SlurmException ("Failed to cancel job " +:+ slurm_job_id st
                                +:+ ": slurm output: " +:+ Py.strip o)
    | OutOfFuel => False
    end.
Proof.
  unfold _stop_slurm_job. run.
  destruct (String.eqb_spec (slurm_job_id st) "") as [Hj|Hj].
  { eexists _, _. split; [reflexivity|]. repeat split; [lia|done]. }
  unfold run_command, communicate. run.
  destruct (popen _ _ (env st)) as [o e1] eqn:Hp.
  destruct (String.eqb_spec (Py.strip o) "") as [Ho|Ho]; cbn [negb].
  - destruct (check_state_total (set_trace (trace st ++ [Popen ("scancel " +:+ slurm_job_id st) ""])
                                   (set_env e1 st))) as (s & st' & Hc & Hcj & Hcp & Hca).
    rewrite Hc. eexists _, _. split; [reflexivity|].
    rewrite Hcj, Hcp, Hca. cbn [slurm_job_id slurm_port set_trace set_env trace].
    rewrite cancel_attempts_snoc, scancel_is_cancel. repeat split; done.
  - eexists _, _. split; [reflexivity|].
    cbn [slurm_job_id slurm_port set_trace set_env trace].
    rewrite cancel_attempts_snoc, scancel_is_cancel. repeat split; try done.
    by exists o, e1.
Qed.

Lemma stop_unfold (st : State Env) :
  stop false st =
    match _stop_slurm_job st with
    | (Return true, st1) => (Return tt, set_slurm_port "" (set_slurm_job_id "" st1))
    | (Return false, st1) =>
        match _stop_slurm_job st1 with
        | (Return _, st2) => (Return tt, set_slurm_port "" (set_slurm_job_id "" st2))
        | (Raise e, st2) => (Raise e, st2)
        | (OutOfFuel, st2) => (OutOfFuel, st2)
        end
    | (Raise e, st1) => (Raise e, st1)
    | (OutOfFuel, st1) => (OutOfFuel, st1)
    end.
Proof.
  unfold stop, stop_slurm_job, clear_state. run. cbn [negb].
  destruct (_stop_slurm_job st) as [[[|]|e|] st1]; try reflexivity.
  cbn [negb]. by destruct (_stop_slurm_job st1) as [[b|e|] st2].
Qed.

(** C1, as the code has it.  A graceful [stop] makes at most two cancel
    attempts; when the first one returns without confirming that the job
    left the active set, exactly one more is made; when the first one
    confirms, none is.  [stop] returns, with the job id and the port
    cleared, unless a cancel attempt printed something: then it raises the
    [SlurmException] of [_stop_slurm_job], and the job id is kept. *)
Theorem stop_graceful_one_retry (st : State Env) :
  exists r st', stop false st = (r, st') /\
    r ≠ OutOfFuel /\
    (cancel_attempts (trace st') <= cancel_attempts (trace st) + 2)%nat /\
    (forall st1, _stop_slurm_job st = (Return false, st1) ->
       cancel_attempts (trace st1) = (cancel_attempts (trace st) + 1)%nat /\
       cancel_attempts (trace st') = (cancel_attempts (trace st) + 2)%nat) /\
    (forall st1, _stop_slurm_job st = (Return true, st1) ->
       r = Return tt /\ trace st' = trace st1) /\
    (r = Return tt -> slurm_job_id st' = "" /\ slurm_port st' = "") /\
    (forall e, r = Raise e ->
       slurm_job_id st' = slurm_job_id st /\ slurm_job_id st ≠ "" /\
       exists st0 o e1,
         (st0 = st \/ _stop_slurm_job st = (Return false, st0)) /\
         popen ("scancel " +:+ slurm_job_id st) "" (env st0) = (o, e1) /\
         Py.strip o ≠ "" /\
         e = SlurmException ("Failed to cancel job " +:+ slurm_job_id st
                               +:+ ": slurm output: " +:+ Py.strip o)) /\
    (forall e st1, _stop_slurm_job st = (Raise e, st1) ->
       r = Raise e /\ st' = st1 /\
       cancel_attempts (trace st') = (cancel_attempts (trace st) + 1)%nat).
Proof.
  destruct (stop_job_spec st) as (r1 & st1 & H1 & Hj1 & Hp1 & Hr1).
  rewrite stop_unfold, H1.
  destruct r1 as [[|]|e|]; [ | | | done].
  - (* confirmed at once *)
    destruct Hr1 as [Hn _]. eexists _, _. split; [reflexivity|].
    cbn [slurm_job_id slurm_port set_slurm_job_id set_slurm_port trace].
    destruct (String.eqb (slurm_job_id st) "");
      split_and!; intros; simplify_eq; try done; lia.
  - (* not confirmed: the second attempt *)
    destruct Hr1 as [Hn Hne]. specialize (Hne eq_refl).
    destruct (String.eqb_spec (slurm_job_id st) "") as [|_]; [done|].
    destruct (stop_job_spec st1) as (r2 & st2 & H2 & Hj2 & Hp2 & Hr2).
    rewrite H2. rewrite Hj1 in Hr2.
    destruct (String.eqb_spec (slurm_job_id st) "") as [|_]; [done|].
    destruct r2 as [b|e|]; [| | done].
    + destruct Hr2 as [Hn2 _]. eexists _, _. split; [reflexivity|].
      cbn [slurm_job_id slurm_port set_slurm_job_id set_slurm_port trace].
      split_and!; intros; simplify_eq; try done; lia.
    + destruct Hr2 as (_ & Hn2 & o & e1 & Hpo & Ho & He).
      eexists _, _. split; [reflexivity|].
      split_and!; intros; simplify_eq; try done; try lia.
      split_and!; [congruence|done|].
      exists st1, o, e1. split_and!; try done. by right.
  - (* the first attempt raised *)
    destruct Hr1 as (Hne & Hn & o & e1 & Hpo & Ho & He).
    eexists _, _. split; [reflexivity|].
    split_and!; intros; simplify_eq; try done; try lia.
    split_and!; [done|done|].
    exists st, o, e1. split_and!; try done. by left.
Qed.

(** *** The launch lines of the script *)

Lemma contains_char_cons (sep c : ascii) (s : string) :
  Py.contains (String sep "") (String c s) = Ascii.eqb sep c || Py.contains (String sep "") s.
Proof. cbn [Py.contains Py.startswith]. by rewrite andb_true_r. Qed.

Lemma split_at_sep (sep : ascii) (a s : string) :
  Py.contains (String sep "") a = false ->
  Py.split sep (a +:+ String sep s) = a :: Py.split sep s.
Proof.
  induction a as [|c a IH]; intros Hc.
  - change ("" +:+ String sep s) with (String sep s).
    cbn [Py.split]. by rewrite Ascii.eqb_refl.
  - rewrite contains_char_cons in Hc. apply orb_false_elim in Hc as [Hne Hc].
    change (String c a +:+ String sep s) with (String c (a +:+ String sep s)).
    cbn [Py.split]. rewrite Ascii.eqb_sym, Hne. by rewrite (IH Hc).
Qed.

Lemma split_without_sep (sep : ascii) (b : string) :
  Py.contains (String sep "") b = false -> Py.split sep b = [b].
Proof.
  induction b as [|c b IH]; intros Hc; [done|].
  rewrite contains_char_cons in Hc. apply orb_false_elim in Hc as [Hne Hc].
  cbn [Py.split]. rewrite Ascii.eqb_sym, Hne. by rewrite (IH Hc).
Qed.

Lemma append_assoc (a b c : string) : (a +:+ b) +:+ c = a +:+ (b +:+ c).
Proof.
  induction a as [|x a IH]; [done|].
  change (String x (a +:+ b +:+ c)) with (String x (a +:+ (b +:+ c))).
  change ((String x a +:+ b) +:+ c) with (String x ((a +:+ b) +:+ c)). by rewrite IH.
Qed.

Lemma join_snoc (sep : string) (l : list string) (x y : string) :
  Py.join sep (l ++ [x; y]) = Py.join sep (l ++ [x]) +:+ sep +:+ y.
Proof.
  induction l as [|a l IH]; [done|].
  cbn [app]. destruct l as [|b l].
  - cbn [app Py.join]. by rewrite !append_assoc.
  - cbn [app Py.join] in *. rewrite IH. by rewrite !append_assoc.
Qed.

Lemma join_app (sep : string) (l : list string) (x : string) (l' : list string) :
  l ≠ [] ->
  Py.join sep (l ++ x :: l') = Py.join sep l +:+ sep +:+ Py.join sep (x :: l').
Proof.
  induction l as [|a l IH]; [done|]. intros _.
  destruct l as [|b l]; [done|].
  change (Py.join sep ((a :: b :: l) ++ x :: l'))
    with (a +:+ sep +:+ Py.join sep ((b :: l) ++ x :: l')).
  rewrite IH by done.
  change (Py.join sep (a :: b :: l)) with (a +:+ sep +:+ Py.join sep (b :: l)).
  by rewrite !append_assoc.
Qed.

(** The script ends with the banner, the two launch lines, an empty line
    and the indentation of the closing quotes. *)
Lemma render_tail (c : Config) (r : Resources) (sbatch export_cmd cmd : string)
    (port : N) (user : string) (gid : Z) :
  exists head,
    render c r sbatch export_cmd cmd port user gid =
      head +:+ Py.nl +:+ "echo " +:+ Py.dq +:+ "*** Spawning single-user server ***" +:+ Py.dq
        +:+ Py.nl +:+ export_cmd
        +:+ Py.nl +:+ cmd
        +:+ Py.nl +:+ Py.nl +:+ "        ".
Proof.
  unfold render, slurm_script.
  match goal with |- context [Py.join Py.nl ?L] =>
    exists (Py.join Py.nl (take 22 L)); rewrite <- (take_drop 22 L) at 1
  end.
  cbn [take drop]. rewrite join_app by done.
  cbn [Py.join]. by rewrite !append_assoc.
Qed.

(** C7, as the code has it.  The command is split at every [;]: the
    first piece is the export line, the second piece the launch line.
    With exactly one [;] the launch line is everything after it; what
    follows a second [;] is left out; a command without [;] raises
    [IndexError].  The two pieces are the last two lines of text of the
    script, and [export X=1;run-server --port 9123] gives the lines
    [export X=1] and [run-server --port 9123]. *)
Theorem launch_lines_from_split (st : State Env) :
  (forall a b rest,
     Py.contains ";" a = false -> Py.contains ";" b = false ->
     rest = "" \/ Py.startswith ";" rest = true ->
     split_cmd (a +:+ ";" +:+ b +:+ rest) st = (Return (a, b), st)) /\
  (forall cmd, Py.contains ";" cmd = false -> split_cmd cmd st = (Raise IndexError, st)) /\
  split_cmd "export X=1;run-server --port 9123" st
    = (Return ("export X=1", "run-server --port 9123"), st) /\
  (forall c r sbatch export_cmd cmd port user gid,
     exists head,
       render c r sbatch export_cmd cmd port user gid =
         head +:+ Py.nl +:+ "echo " +:+ Py.dq +:+ "*** Spawning single-user server ***" +:+ Py.dq
           +:+ Py.nl +:+ export_cmd
           +:+ Py.nl +:+ cmd
           +:+ Py.nl +:+ Py.nl +:+ "        ").
Proof.
  split_and!.
  - intros a b rest Ha Hb Hrest. unfold split_cmd. run.
    change (a +:+ ";" +:+ b +:+ rest) with (a +:+ String ";" (b +:+ rest)).
    rewrite (split_at_sep ";" a _ Ha).
    destruct Hrest as [->|Hs].
    + replace (b +:+ "") with b by (clear; induction b as [|x b IH]; [done|];
        change (String x b +:+ "") with (String x (b +:+ "")); by rewrite <- IH).
      by rewrite (split_without_sep ";" b Hb).
    + destruct rest as [|x rest]; [done|].
      cbn [Py.startswith] in Hs. apply andb_prop in Hs as [Hx _].
      apply Ascii.eqb_eq in Hx as <-.
      by rewrite (split_at_sep ";" b _ Hb).
  - intros cmd Hc. unfold split_cmd. run. by rewrite (split_without_sep ";" cmd Hc).
  - reflexivity.
  - apply render_tail.
Qed.

(** *** The hash file *)

Lemma add_digit_some (acc d : Z) (c : ascii) :
  Py.int (String c "") = Some d -> add_digit (Some acc) c = Some (acc + d).
Proof. intros Hd. unfold add_digit. cbn. by rewrite Hd. Qed.

Lemma digits_fold (d : Decimal.uint) (acc : Z) :
  foldl add_digit (Some acc) (list_ascii_of_string (NilEmpty.string_of_uint d))
    = Some (acc + digit_sum d).
Proof.
  revert acc.
  induction d as [|d IH|d IH|d IH|d IH|d IH|d IH|d IH|d IH|d IH|d IH]; intros acc;
    cbn [NilEmpty.string_of_uint list_ascii_of_string foldl digit_sum];
    [f_equal; lia|..];
    (erewrite add_digit_some by reflexivity); rewrite IH; f_equal;
    match goal with |- context [10 * ?a + ?b] =>
      let v := eval vm_compute in (10 * a + b) in change (10 * a + b) with v
    end; lia.
Qed.

Lemma port_hash_digit_sum (port : N) :
  port_hash port = Some (Py.str (digit_sum (N.to_uint port))).
Proof.
  unfold port_hash, Py.str_N, NilZero.string_of_uint.
  destruct (N.to_uint port) eqn:E; try (rewrite digits_fold; cbn; do 2 f_equal; lia).
  reflexivity.
Qed.

Lemma write_hash_file_runs (s : State Env) (user : string) (pw : Passwd) (port : N) :
  passwd s !! user = Some pw -> hash_file_of pw ∉ unwritable s ->
  exists s', write_hash_file user port s = (Return tt, s') /\
    files s' !! hash_file_of pw = Some (Py.str (digit_sum (N.to_uint port))) /\
    (forall f, f ≠ hash_file_of pw -> files s' !! f = files s !! f) /\
    passwd s' = passwd s /\ unwritable s' = unwritable s /\
    s' = set_files (files s') (set_dirs (dirs s') s).
Proof.
  intros Hpw Hro. unfold write_hash_file, getpwnam. run_all. rewrite Hpw. run_all.
  fold (hash_file_of pw). rewrite port_hash_digit_sum.
  destruct (bool_decide ("/tmp/jupyter" ∈ dirs s) || bool_decide (is_Some (files s !! "/tmp/jupyter")));
    run_all; cbn [unwritable set_dirs]; rewrite (bool_decide_eq_false_2 _ Hro); run_all;
    eexists; (split; [reflexivity|]);
    cbn [files set_files set_dirs passwd unwritable];
    rewrite !lookup_insert_eq; cbn [default from_option id];
    (split_and!; [done| |done|done|by destruct s]);
    intros f Hf; by rewrite !lookup_insert_ne.
Qed.

(** C8. For every port, the hash is the decimal text of the sum of the
    decimal digits of the port; [write_hash_file] leaves exactly this
    text in [/tmp/jupyter/<uid>], whatever the file held before, and
    touches no other file; it depends on the port alone, so a second call
    with the same port leaves the same bytes; port 9123 gives [15]. *)
Theorem hash_file_holds_digit_sum (st : State Env) (user : string) (pw : Passwd) (port : N) :
  passwd st !! user = Some pw ->
  hash_file_of pw ∉ unwritable st ->
  exists st',
    write_hash_file user port st = (Return tt, st') /\
    port_hash port = Some (Py.str (digit_sum (N.to_uint port))) /\
    files st' !! hash_file_of pw = Some (Py.str (digit_sum (N.to_uint port))) /\
    (forall f, f ≠ hash_file_of pw -> files st' !! f = files st !! f) /\
    (exists st'', write_hash_file user port st' = (Return tt, st'') /\
                  files st'' !! hash_file_of pw = files st' !! hash_file_of pw) /\
    port_hash 9123 = Some "15".
Proof.
  intros Hpw Hro.
  destruct (write_hash_file_runs st user pw port Hpw Hro)
    as (st' & Hrun & Hf & Hother & Hpw' & Hro' & _).
  destruct (write_hash_file_runs st' user pw port) as (st'' & Hrun' & Hf' & _);
    [congruence|congruence|].
  exists st'. split_and!; try done.
  - apply port_hash_digit_sum.
  - exists st''. split; [done|congruence].
Qed.

(** *** The resources of a session *)

Lemma choose_resources_default (st : State Env) :
  custom (authenticator st) = false ->
  choose_resources st =
    (Return {| r_memory := mem (cfg st); r_cpus := cpus_per_task (cfg st);
               r_ntasks := ntasks (cfg st); r_stime := time (cfg st);
               r_nodes := nodes (cfg st) |}, st).
Proof. intros Hc. unfold choose_resources. run_all. by rewrite Hc. Qed.

(** What the time checks do to the call: they let it through, with the
    override when the days are at most 14, or they raise. *)
Lemma checked_time_cases (t stime : string) (st : State Env) :
  match wall_time_days t with
  | Some days =>
      checked_time t stime st = (Return (if bool_decide (days <= 14) then t else stime), st)
  | None =>
      exists e, checked_time t stime st = (Raise e, st) /\ (e = ValueError \/ e = IndexError)
  end.
Proof.
  unfold wall_time_days, checked_time. run_all.
  destruct (Py.split ":" t !! 0%nat) as [t0|]; cbn; [|by eauto].
  destruct (Py.split "-" t0 !! 0%nat) as [d|]; cbn; [|by eauto].
  destruct (Py.int d) as [days|]; cbn; [|by eauto].
  destruct (Py.split "-" t0 !! 1%nat) as [h|]; cbn; [|by eauto].
  destruct (Py.int h) as [hours|]; cbn; [|by eauto].
  destruct (Py.split ":" t !! 1%nat) as [t1|]; cbn; [|by eauto].
  destruct (Py.int t1) as [minutes|]; cbn; [|by eauto].
  destruct (Py.split ":" t !! 2%nat) as [t2|]; cbn; [|by eauto].
  destruct (Py.int t2) as [seconds|]; cbn; [|by eauto].
  by destruct (bool_decide (days <= 14)).
Qed.

Lemma choose_resources_custom (st : State Env) (stime : string) :
  custom (authenticator st) = true ->
  (form_time (authenticator st) = "" /\ stime = time (cfg st)) \/
  (form_time (authenticator st) ≠ "" /\
   exists days, wall_time_days (form_time (authenticator st)) = Some days /\
     stime = if bool_decide (days <= 14) then form_time (authenticator st) else time (cfg st)) ->
  choose_resources st =
    (Return
       {| r_memory := if bool_decide (form_memory (authenticator st) > 0)
                      then form_memory (authenticator st) else mem (cfg st);
          r_cpus := if bool_decide (form_cpus (authenticator st) > 0)
                       && bool_decide (form_cpus (authenticator st) <= 32)
                    then form_cpus (authenticator st) else cpus_per_task (cfg st);
          r_ntasks := if bool_decide (form_tasks (authenticator st) > 0)
                         && bool_decide (form_tasks (authenticator st) <= 128)
                      then form_tasks (authenticator st) else ntasks (cfg st);
          r_stime := stime;
          r_nodes := if bool_decide (form_nodes (authenticator st) > 0)
                        && bool_decide (form_nodes (authenticator st) <= 32)
                     then form_nodes (authenticator st) else nodes (cfg st) |},
     set_authenticator (served (authenticator st)) st).
Proof.
  intros Hc Ht. unfold choose_resources. run_all. rewrite Hc.
  destruct Ht as [[Ht ->]|(Ht & days & Hd & ->)].
  - rewrite Ht. reflexivity.
  - destruct (String.eqb_spec (form_time (authenticator st)) ""); [done|].
    pose proof (checked_time_cases (form_time (authenticator st)) (time (cfg st)) st) as Hck.
    rewrite Hd in Hck. by rewrite Hck.
Qed.

Lemma choose_resources_raises (st : State Env) :
  custom (authenticator st) = true ->
  form_time (authenticator st) ≠ "" ->
  wall_time_days (form_time (authenticator st)) = None ->
  exists e, choose_resources st = (Raise e, st) /\ (e = ValueError \/ e = IndexError).
Proof.
  intros Hc Ht Hd. unfold choose_resources. run_all. rewrite Hc.
  destruct (String.eqb_spec (form_time (authenticator st)) ""); [done|].
  pose proof (checked_time_cases (form_time (authenticator st)) (time (cfg st)) st) as Hck.
  rewrite Hd in Hck. destruct Hck as (e & -> & He). by exists e.
Qed.

(** **** Wall times in the format of the help text are let through *)

Ltac eval_digit :=
  match goal with
  | |- context [Py.digit ?c] =>
      let v := eval vm_compute in (Py.digit c) in change (Py.digit c) with v
  end; cbn beta iota.

Lemma digits_of_uint_acc (d : Decimal.uint) (p : positive) (z : Z) :
  z = Z.pos p ->
  Py.digits (Some z) false (NilEmpty.string_of_uint d) = Some (Z.pos (Pos.of_uint_acc d p)).
Proof.
  revert p z.
  induction d as [|d IH|d IH|d IH|d IH|d IH|d IH|d IH|d IH|d IH|d IH]; intros p z ->;
    cbn [NilEmpty.string_of_uint Py.digits Pos.of_uint_acc]; [done|..];
    eval_digit; apply IH; cbn [default from_option id]; lia.
Qed.

Lemma digits_of_uint (d : Decimal.uint) :
  Py.digits (Some 0) false (NilEmpty.string_of_uint d) = Some (Z.of_N (Pos.of_uint d)).
Proof.
  induction d as [|d IH|d IH|d IH|d IH|d IH|d IH|d IH|d IH|d IH|d IH];
    cbn [NilEmpty.string_of_uint Py.digits Pos.of_uint]; [done|..];
    eval_digit; [exact IH|..]; cbn [Z.of_N]; apply digits_of_uint_acc;
    cbn [default from_option id]; lia.
Qed.

Lemma str_N_numeral (n : N) : numeral (Py.str_N n).
Proof.
  unfold Py.str_N, NilZero.string_of_uint.
  assert (Hd : forall d, d ≠ Decimal.Nil -> numeral (NilEmpty.string_of_uint d)).
  { induction d as [|d IH|d IH|d IH|d IH|d IH|d IH|d IH|d IH|d IH|d IH]; intros Hne;
      [done|..]; cbn [NilEmpty.string_of_uint];
      (destruct d; [by eapply numeral_digit|..]);
      (eapply numeral_more; [reflexivity|by apply IH]). }
  destruct (N.to_uint n) eqn:E; try (apply Hd; discriminate).
  by eapply numeral_digit.
Qed.

Lemma digit_no_space (c : ascii) (k : Z) : Py.digit c = Some k -> Py.isspace c = false.
Proof.
  unfold Py.digit, Py.isspace. cbn zeta.
  destruct (48 <=? nat_of_ascii c)%nat eqn:E1; [|done].
  destruct (nat_of_ascii c <=? 57)%nat eqn:E2; [|done]. intros _.
  apply Nat.leb_le in E1. apply Nat.leb_le in E2.
  apply orb_false_intro; apply andb_false_intro2; apply Nat.leb_gt; lia.
Qed.

Lemma numeral_strip (s : string) : numeral s -> Py.strip s = s.
Proof.
  intros Hs. unfold Py.strip.
  assert (Hr : Py.rstrip Py.isspace s = s).
  { induction Hs as [c k Hc|c k s Hc Hs IH]; cbn [Py.rstrip].
    - by rewrite (digit_no_space c k Hc).
    - rewrite IH. by destruct Hs. }
  rewrite Hr. destruct Hs as [c k Hc|c k s Hc Hs]; cbn [Py.lstrip];
    by rewrite (digit_no_space c k Hc).
Qed.

Lemma numeral_count (s : string) :
  numeral s -> Py.count_digits s = N.of_nat (String.length s).
Proof.
  assert (Hc : forall c k, Py.digit c = Some k -> Ascii.eqb c "_"%char = false).
  { intros c k Hk. destruct (Ascii.eqb_spec c "_"%char) as [->|]; [|done].
    vm_compute in Hk. discriminate. }
  induction 1 as [c k Hk|c k s Hk Hs IH]; cbn [Py.count_digits String.length];
    rewrite (Hc c k Hk); [done|]. rewrite IH. lia.
Qed.

Lemma int_numeral (s : string) :
  numeral s -> (N.of_nat (String.length s) <= Py.max_str_digits)%N ->
  Py.int s = Py.digits (Some 0) false s.
Proof.
  intros Hs Hlen. unfold Py.int. rewrite (numeral_strip s Hs).
  assert (Hlit : Py.literal s = Py.digits None false s).
  { unfold Py.literal. rewrite (numeral_count s Hs).
    by destruct (N.leb_spec (N.of_nat (String.length s)) Py.max_str_digits); [|lia]. }
  assert (Hc : exists c k s', s = String c s' /\ Py.digit c = Some k)
    by (destruct Hs; eauto).
  destruct Hc as (c & k & s' & -> & Hk).
  assert (c ≠ "+"%char /\ c ≠ "-"%char) as [Hp Hm]
    by (split; intros ->; vm_compute in Hk; discriminate).
  transitivity (Py.literal (String c s')).
  - destruct c as [[] [] [] [] [] [] [] []]; try reflexivity; done.
  - rewrite Hlit. cbn [Py.digits]. by rewrite Hk.
Qed.

Lemma int_str_N (n : N) :
  (N.of_nat (String.length (Py.str_N n)) <= Py.max_str_digits)%N ->
  Py.int (Py.str_N n) = Some (Z.of_N n).
Proof.
  intros Hn. rewrite (int_numeral _ (str_N_numeral n) Hn).
  rewrite <- (DecimalN.Unsigned.of_to n) at 2.
  unfold Py.str_N, NilZero.string_of_uint, N.of_uint.
  destruct (N.to_uint n) eqn:E; try apply digits_of_uint.
  destruct n as [|p]; [done|]. cbn in E.
  by destruct (DecimalPos.Unsigned.to_uint_nonnil p).
Qed.

Lemma contains_char_app (sep : ascii) (a b : string) :
  Py.contains (String sep "") (a +:+ b)
    = Py.contains (String sep "") a || Py.contains (String sep "") b.
Proof.
  induction a as [|c a IH]; [done|].
  change (String c a +:+ b) with (String c (a +:+ b)).
  rewrite !contains_char_cons, IH. by rewrite orb_assoc.
Qed.

Lemma numeral_no_sep (sep : ascii) (s : string) :
  Py.digit sep = None -> numeral s -> Py.contains (String sep "") s = false.
Proof.
  intros Hsep Hs.
  induction Hs as [c k Hc|c k s Hc Hs IH]; rewrite contains_char_cons;
    (destruct (Ascii.eqb_spec sep c) as [->|_]; [congruence|]); [done|by rewrite IH].
Qed.

Lemma digits_numeral (s : string) :
  numeral s -> forall acc, Py.digits (Some acc) false s = Some (decimal acc s).
Proof.
  assert (Hk : forall c k, Py.digit c = Some k -> k = Z.of_nat (nat_of_ascii c) - 48).
  { intros c k. unfold Py.digit. cbn zeta.
    destruct (_ && _)%nat; [|done]. by intros [= <-]. }
  induction 1 as [c k Hc|c k s Hc Hs IH]; intros acc; cbn [Py.digits decimal];
    rewrite Hc; cbn [default from_option id]; rewrite (Hk c k Hc); [done|apply IH].
Qed.

Lemma int_int_text (s : string) : int_text s -> Py.int s = Some (numeral_value s).
Proof.
  intros [Hs Hlen]. rewrite (int_numeral s Hs Hlen). apply (digits_numeral s Hs).
Qed.

(** Every wall time written as four numbers that [int] converts is read
    back with its days. *)
Lemma wall_time_days_format (d h m s : string) :
  int_text d -> int_text h -> int_text m -> int_text s ->
  wall_time_days (wall_time d h m s) = Some (numeral_value d).
Proof.
  intros Ld Lh Lm Ls.
  unfold wall_time_days, wall_time.
  pose proof (proj1 Ld) as Hd. pose proof (proj1 Lh) as Hh.
  pose proof (proj1 Lm) as Hm. pose proof (proj1 Ls) as Hs.
  assert (Hsplit : Py.split ":" (d +:+ "-" +:+ h +:+ ":" +:+ m +:+ ":" +:+ s)
                   = [d +:+ "-" +:+ h; m; s]).
  { rewrite <- (append_assoc d "-").
    rewrite <- (append_assoc (d +:+ "-") h).
    change (":" +:+ m +:+ ":" +:+ s) with (String ":" (m +:+ String ":" s)).
    rewrite split_at_sep.
    - rewrite split_at_sep by (by apply numeral_no_sep).
      rewrite split_without_sep by (by apply numeral_no_sep).
      by rewrite append_assoc.
    - rewrite !contains_char_app.
      rewrite (numeral_no_sep ":" _ eq_refl Hd), (numeral_no_sep ":" _ eq_refl Hh).
      reflexivity. }
  rewrite Hsplit. cbn [lookup list_lookup mbind option_bind].
  change (d +:+ "-" +:+ h) with (d +:+ String "-" h).
  rewrite split_at_sep by (by apply numeral_no_sep).
  rewrite split_without_sep by (by apply numeral_no_sep).
  cbn [lookup list_lookup mbind option_bind].
  by rewrite (int_int_text d Ld), (int_int_text h Lh), (int_int_text m Lm),
    (int_int_text s Ls).
Qed.

(** *** The script that is submitted *)

Lemma grows_mret {A} (a : A) : grows (mret a : M Env A).
Proof. intros st r st' [= <- <-]. exists []. by rewrite app_nil_r. Qed.

Lemma grows_raise {A} (e : Exn) : grows (raise e : M Env A).
Proof. intros st r st' [= <- <-]. exists []. by rewrite app_nil_r. Qed.

Lemma grows_out_of_fuel {A} : grows (out_of_fuel : M Env A).
Proof. intros st r st' [= <- <-]. exists []. by rewrite app_nil_r. Qed.

Lemma grows_or_raise {A} (e : Exn) (o : option A) : grows (or_raise e o : M Env A).
Proof. destruct o; [apply grows_mret|apply grows_raise]. Qed.

Lemma grows_get {A} (f : State Env -> A) : grows (get f).
Proof. intros st r st' [= <- <-]. exists []. by rewrite app_nil_r. Qed.

Lemma grows_modify (f : State Env -> State Env) :
  (forall st, trace (f st) = trace st) -> grows (modify f).
Proof. intros Hf st r st' [= <- <-]. exists []. by rewrite Hf, app_nil_r. Qed.

Lemma grows_emit (e : Event) : grows (emit e : M Env unit).
Proof. intros st r st' [= <- <-]. by exists [e]. Qed.

Lemma grows_communicate (cmd stdin : string) : grows (communicate cmd stdin).
Proof.
  intros st r st'. unfold communicate. destruct (popen _ _ _) as [o e1].
  intros [= <- <-]. by exists [Popen cmd stdin].
Qed.

Lemma grows_bind {A B} (m : M Env A) (k : A -> M Env B) :
  grows m -> (forall a, grows (k a)) -> grows (m ≫= k).
Proof.
  intros Hm Hk st r st'. unfold mbind, M_bind.
  destruct (m st) as [[a|e|] st1] eqn:E; destruct (Hm _ _ _ E) as [tr1 Htr1].
  - intros Hka. destruct (Hk a _ _ _ Hka) as [tr2 Htr2].
    exists (tr1 ++ tr2). by rewrite Htr2, Htr1, app_assoc.
  - intros [= <- <-]. by exists tr1.
  - intros [= <- <-]. by exists tr1.
Qed.

Create HintDb grows.
#[local] Hint Resolve grows_mret grows_raise grows_out_of_fuel grows_or_raise grows_get
  grows_emit grows_communicate : grows.

Ltac grows_step :=
  first [ apply grows_bind; [|intros ?]
        | apply grows_modify; intros ?; reflexivity
        | solve [auto with grows]
        | match goal with
          | |- grows (if ?b then _ else _) => destruct b
          | |- grows (match ?o with _ => _ end) => destruct o
          end ].

Lemma grows_run_command (cmd : string) : grows (run_command cmd).
Proof. unfold run_command. repeat grows_step. Qed.

Lemma grows_check_slurm_job_state : grows check_slurm_job_state.
Proof.
  unfold check_slurm_job_state.
  repeat first [apply grows_run_command | grows_step].
Qed.

Lemma grows_wait_until_running (fuel : nat) (job_state : string) :
  grows (wait_until_running fuel job_state).
Proof.
  revert job_state. induction fuel as [|fuel IH]; intros job_state; cbn [wait_until_running].
  - apply grows_out_of_fuel.
  - repeat first [apply grows_check_slurm_job_state | apply IH | grows_step].
Qed.

Lemma grows_get_slurm_job_info (jobid : string) : grows (get_slurm_job_info jobid).
Proof. unfold get_slurm_job_info. repeat grows_step. Qed.

Lemma bind_return {A B} (m : M Env A) (k : A -> M Env B) (st st1 : State Env) (a : A) :
  m st = (Return a, st1) -> (m ≫= k) st = k a st1.
Proof. intros Hm. unfold mbind, M_bind. by rewrite Hm. Qed.

Lemma bind_raise {A B} (m : M Env A) (k : A -> M Env B) (st st1 : State Env) (e : Exn) :
  m st = (Raise e, st1) -> (m ≫= k) st = (Raise e, st1).
Proof. intros Hm. unfold mbind, M_bind. by rewrite Hm. Qed.

Lemma bind_assoc {A B C} (m : M Env A) (k1 : A -> M Env B) (k2 : B -> M Env C)
    (st : State Env) :
  ((m ≫= k1) ≫= k2) st = (m ≫= (fun a => k1 a ≫= k2)) st.
Proof. unfold mbind, M_bind. by destruct (m st) as [[a|e|] st1]. Qed.

Lemma grows_runs {A} (m : M Env A) (st : State Env) :
  grows m -> exists r st' tr, m st = (r, st') /\ trace st' = trace st ++ tr.
Proof.
  intros Hm. destruct (m st) as [r st'] eqn:E.
  destruct (Hm _ _ _ E) as [tr Htr]. by exists r, st', tr.
Qed.

Lemma choose_resources_state (st st1 : State Env) (o : Outcome Resources) :
  choose_resources st = (o, st1) -> st1 = set_authenticator (authenticator st1) st.
Proof.
  unfold choose_resources. run_all.
  destruct (custom (authenticator st)); [|intros [= <- <-]; by destruct st].
  destruct (String.eqb (form_time (authenticator st)) "").
  - intros [= <- <-]. reflexivity.
  - pose proof (checked_time_cases (form_time (authenticator st)) (time (cfg st)) st) as Hck.
    destruct (wall_time_days (form_time (authenticator st))) as [days|].
    + rewrite Hck. intros [= <- <-]. reflexivity.
    + destruct Hck as (e & -> & _). intros [= <- <-]. by destruct st.
Qed.

(** Once the command splits, the user is known, the request is
    accepted and the hash file can be written, the script that [sbatch]
    reads is the template filled with the chosen resources. *)
Lemma run_submits_rendered_script (fuel : nat) (cmd : string) (port : N) (user : string)
    (st st1 : State Env) (export_cmd launch_cmd : string) (pw : Passwd) (r : Resources) :
  Py.split ";" cmd !! 0%nat = Some export_cmd ->
  Py.split ";" cmd !! 1%nat = Some launch_cmd ->
  passwd st !! user = Some pw ->
  choose_resources st = (Return r, st1) ->
  hash_file_of pw ∉ unwritable st ->
  exists out st' tr,
    _run_jupyterhub_singleuser fuel cmd port user st = (out, st') /\
    trace st' =
      trace st ++
      Popen (if run_with_sudo (cfg st) then "sudo sbatch" else "sbatch")
        (render (cfg st) r
           (default "# *** No user template found ***"
              (files st !! extra_launch_script (cfg st)))
           export_cmd launch_cmd port user (pw_gid pw)) :: tr.
Proof.
  intros He Hl Hpw Hr Hro.
  pose proof (choose_resources_state _ _ _ Hr) as Hst1.
  destruct (write_hash_file_runs st1 user pw port) as (st2 & Hw & _ & _ & _ & _ & Hst2).
  { rewrite Hst1. exact Hpw. }
  { rewrite Hst1. exact Hro. }
  unfold _run_jupyterhub_singleuser.
  rewrite (bind_return _ _ st st
             (default "# *** No user template found ***"
                (files st !! extra_launch_script (cfg st)))).
  2:{ unfold load_extra_launch_script. run_all.
      by destruct (files st !! extra_launch_script (cfg st)). }
  rewrite (bind_return _ _ st st (export_cmd, launch_cmd)).
  2:{ unfold split_cmd. run_all. by rewrite He, Hl. }
  rewrite (bind_return _ _ st st pw).
  2:{ unfold getpwnam. run_all. by rewrite Hpw. }
  rewrite (bind_return _ _ st st1 r Hr).
  rewrite (bind_return _ _ st1 st1 (cfg st)).
  2:{ rewrite Hst1. reflexivity. }
  rewrite (bind_return _ _ st1 st2 tt Hw).
  unfold submit. rewrite bind_assoc.
  rewrite (bind_return _ _ st2 st2 (cfg st)).
  2:{ rewrite Hst2, Hst1. reflexivity. }
  rewrite bind_assoc.
  destruct (popen (if run_with_sudo (cfg st) then "sudo sbatch" else "sbatch")
              (render (cfg st) r
                 (default "# *** No user template found ***"
                    (files st !! extra_launch_script (cfg st)))
                 export_cmd launch_cmd port user (pw_gid pw)) (env st2)) as [o e1] eqn:Hp.
  erewrite bind_return by (unfold communicate; rewrite Hp; reflexivity).
  match goal with |- exists _ _ _, ?m ?s = _ /\ _ =>
    destruct (grows_runs m s) as (out & st' & tr & Hrun & Htr)
  end.
  { repeat first [ apply grows_check_slurm_job_state | apply grows_wait_until_running
                 | apply grows_get_slurm_job_info | grows_step ]. }
  exists out, st', tr. split; [exact Hrun|].
  rewrite Htr. cbn [trace set_trace set_env].
  rewrite Hst2, Hst1. cbn [trace set_files set_dirs set_authenticator].
  by rewrite <- app_assoc.
Qed.

(** What a returning [choose_resources] has chosen, the wall time apart. *)
Lemma choose_resources_numbers (st st' : State Env) (r : Resources) :
  choose_resources st = (Return r, st') ->
  let form := authenticator st in
  let c := cfg st in
  let asked (ok : bool) (z z0 : Z) := if custom form && ok then z else z0 in
  r_memory r = asked (bool_decide (form_memory form > 0)) (form_memory form) (mem c) /\
  r_cpus r = asked (bool_decide (form_cpus form > 0) && bool_decide (form_cpus form <= 32))
               (form_cpus form) (cpus_per_task c) /\
  r_ntasks r = asked (bool_decide (form_tasks form > 0) && bool_decide (form_tasks form <= 128))
                 (form_tasks form) (ntasks c) /\
  r_nodes r = asked (bool_decide (form_nodes form > 0) && bool_decide (form_nodes form <= 32))
                (form_nodes form) (nodes c).
Proof.
  cbn zeta. unfold choose_resources. run_all.
  destruct (custom (authenticator st)) eqn:Hc; [|by intros [= <- <-]].
  cbn [andb].
  destruct (String.eqb (form_time (authenticator st)) "").
  - by intros [= <- <-].
  - pose proof (checked_time_cases (form_time (authenticator st)) (time (cfg st)) st) as Hck.
    destruct (wall_time_days (form_time (authenticator st))) as [days|].
    + rewrite Hck. by intros [= <- <-].
    + destruct Hck as (e & -> & _). discriminate.
Qed.

(** C2, as the code has it.  Whenever the resources are chosen, memory,
    cpus, tasks and nodes are the requested value when a custom request
    has it within its bounds and the configured default otherwise, and
    the values chosen are the ones written into the script that [sbatch]
    reads.  The wall time is the configured default when there is no
    custom request or the request has no wall time; of a request written
    [days-hours:minutes:seconds] with four numbers it is the requested
    text when the days are at most 14 and the configured default when
    they are more.  A requested wall time from which the four [int]
    checks cannot read days, hours, minutes and seconds (a part is
    missing, or is no integer) is not discarded: the call raises
    [ValueError] or [IndexError] and nothing is submitted. *)
Theorem resources_override_or_default (st : State Env) :
  let form := authenticator st in
  let c := cfg st in
  (forall r st',
     choose_resources st = (Return r, st') ->
     (custom form = true /\ 0 < form_memory form -> r_memory r = form_memory form) /\
     (~ (custom form = true /\ 0 < form_memory form) -> r_memory r = mem c) /\
     (custom form = true /\ 0 < form_cpus form <= 32 -> r_cpus r = form_cpus form) /\
     (~ (custom form = true /\ 0 < form_cpus form <= 32) -> r_cpus r = cpus_per_task c) /\
     (custom form = true /\ 0 < form_tasks form <= 128 -> r_ntasks r = form_tasks form) /\
     (~ (custom form = true /\ 0 < form_tasks form <= 128) -> r_ntasks r = ntasks c) /\
     (custom form = true /\ 0 < form_nodes form <= 32 -> r_nodes r = form_nodes form) /\
     (~ (custom form = true /\ 0 < form_nodes form <= 32) -> r_nodes r = nodes c) /\
     (forall sbatch export_cmd cmd port user gid,
        render c r sbatch export_cmd cmd port user gid =
          slurm_script (Py.str (r_cpus r)) (job_name c) (Py.str (r_memory r))
            (Py.str (r_ntasks r)) (Py.str (r_nodes r)) user (output c) (partition c)
            (qos c) (r_stime r) (Py.str_N port) (Py.str gid) sbatch export_cmd cmd) /\
     (forall fuel cmd port user export_cmd launch_cmd pw,
        Py.split ";" cmd !! 0%nat = Some export_cmd ->
        Py.split ";" cmd !! 1%nat = Some launch_cmd ->
        passwd st !! user = Some pw ->
        hash_file_of pw ∉ unwritable st ->
        exists out st'' tr,
          _run_jupyterhub_singleuser fuel cmd port user st = (out, st'') /\
          trace st'' =
            trace st ++
            Popen (if run_with_sudo c then "sudo sbatch" else "sbatch")
              (render c r
                 (default "# *** No user template found ***"
                    (files st !! extra_launch_script c))
                 export_cmd launch_cmd port user (pw_gid pw)) :: tr)) /\
  (custom form = false \/ form_time form = "" ->
     exists r st', choose_resources st = (Return r, st') /\ r_stime r = time c) /\
  (forall d h m s : string,
     custom form = true ->
     form_time form = wall_time d h m s ->
     int_text d -> int_text h -> int_text m -> int_text s ->
     exists r st',
       choose_resources st = (Return r, st') /\
       (numeral_value d <= 14 -> r_stime r = form_time form) /\
       (14 < numeral_value d -> r_stime r = time c)) /\
  (custom form = true -> form_time form ≠ "" -> wall_time_days (form_time form) = None ->
     (exists e, choose_resources st = (Raise e, st) /\ (e = ValueError \/ e = IndexError)) /\
     (forall fuel cmd port user export_cmd launch_cmd pw,
        Py.split ";" cmd !! 0%nat = Some export_cmd ->
        Py.split ";" cmd !! 1%nat = Some launch_cmd ->
        passwd st !! user = Some pw ->
        exists e, _run_jupyterhub_singleuser fuel cmd port user st = (Raise e, st) /\
                  (e = ValueError \/ e = IndexError))).
Proof.
  cbn zeta. split_and!.
  - intros r st' Hr.
    destruct (choose_resources_numbers st st' r Hr) as (Hm & Hc & Ht & Hn).
    cbn zeta in Hm, Hc, Ht, Hn.
    split_and!;
      try (intros; first [rewrite Hm|rewrite Hc|rewrite Ht|rewrite Hn];
           destruct (custom (authenticator st)); cbn [andb];
           repeat case_bool_decide; cbn [andb]; (lia || tauto || (exfalso; intuition lia)
             || (exfalso; intuition congruence))).
    + reflexivity.
    + intros fuel cmd port user export_cmd launch_cmd pw Hx Hl Hpw Hro.
      exact (run_submits_rendered_script fuel cmd port user st _ export_cmd launch_cmd
               pw _ Hx Hl Hpw Hr Hro).
  - intros Hno.
    destruct (custom (authenticator st)) eqn:Hc.
    + destruct Hno as [|Ht]; [done|].
      eexists _, _. split; [apply (choose_resources_custom st (time (cfg st)) Hc); by left|].
      reflexivity.
    + eexists _, _. split; [apply (choose_resources_default st Hc)|]. reflexivity.
  - intros d h m s Hc Ht Ld Lh Lm Ls.
    pose proof (wall_time_days_format d h m s Ld Lh Lm Ls) as Hd. rewrite <- Ht in Hd.
    assert (Hne : form_time (authenticator st) ≠ "").
    { intros He. rewrite He in Hd. vm_compute in Hd. discriminate. }
    eexists _, _. split.
    + apply (choose_resources_custom st
               (if bool_decide (numeral_value d <= 14)
                then form_time (authenticator st) else time (cfg st)) Hc).
      right. split; [exact Hne|].
      exists (numeral_value d). split; [exact Hd|reflexivity].
    + cbn [r_stime]. split; intros Hle.
      * rewrite bool_decide_eq_true_2 by lia. reflexivity.
      * rewrite bool_decide_eq_false_2 by lia. reflexivity.
  - intros Hc Ht Hd.
    destruct (choose_resources_raises st Hc Ht Hd) as (e & Hraise & He).
    split; [by exists e|].
    intros fuel cmd port user export_cmd launch_cmd pw Hx Hl Hpw.
    exists e. split; [|exact He].
    unfold _run_jupyterhub_singleuser.
    rewrite (bind_return _ _ st st
               (default "# *** No user template found ***"
                  (files st !! extra_launch_script (cfg st)))).
    2:{ unfold load_extra_launch_script. run_all.
        by destruct (files st !! extra_launch_script (cfg st)). }
    rewrite (bind_return _ _ st st (export_cmd, launch_cmd)).
    2:{ unfold split_cmd. run_all. by rewrite Hx, Hl. }
    rewrite (bind_return _ _ st st pw).
    2:{ unfold getpwnam. run_all. by rewrite Hpw. }
    by rewrite (bind_raise _ _ st st e Hraise).
Qed.

(** *** [start] *)

Lemma split_last (sep : ascii) (s : string) : is_Some (Py.last_item (Py.split sep s)).
Proof.
  unfold Py.last_item. induction s as [|c s IH]; cbn [Py.split]; [by eexists|].
  destruct (Ascii.eqb c sep).
  - destruct (Py.split sep s) as [|p ps]; [by destruct IH|]. exact IH.
  - destruct (Py.split sep s) as [|p ps]; [by eexists|].
    destruct ps as [|q ps]; [by eexists|]. exact IH.
Qed.

(** The node of a job and its address: one [squeue], and one [host] when
    a node is named. *)
Lemma get_slurm_job_info_spec (jobid n : string) (e2 : Env) (st : State Env) :
  popen ("squeue -h -j " +:+ jobid +:+ " -o %N") "" (env st) = (n, e2) ->
  (Py.bytes_strip n = "" ->
   get_slurm_job_info jobid st =
     (Return (None, None),
      set_trace (trace st ++ [Popen ("squeue -h -j " +:+ jobid +:+ " -o %N") ""])
        (set_env e2 st))) /\
  (Py.bytes_strip n ≠ "" ->
   forall h e3, popen ("host " +:+ Py.bytes_strip n) "" e2 = (h, e3) ->
   exists ip,
     Py.last_item (Py.split " " (Py.bytes_strip h)) = Some ip /\
     get_slurm_job_info jobid st =
       (Return (Some ip, Some (Py.bytes_strip n)),
        set_trace (trace st ++ [Popen ("squeue -h -j " +:+ jobid +:+ " -o %N") "";
                                Popen ("host " +:+ Py.bytes_strip n) ""])
          (set_env e3 st))).
Proof.
  intros Hn. unfold get_slurm_job_info.
  rewrite (bind_return _ _ st
             (set_trace (trace st ++ [Popen ("squeue -h -j " +:+ jobid +:+ " -o %N") ""])
                (set_env e2 st)) n)
    by (unfold communicate; by rewrite Hn).
  split.
  - intros ->. reflexivity.
  - intros Hne h e3 Hh.
    destruct (String.eqb_spec (Py.bytes_strip n) "") as [|_]; [done|].
    destruct (split_last " " (Py.bytes_strip h)) as [ip Hip]. exists ip. split; [done|].
    erewrite bind_return by (unfold communicate; cbn [env set_trace set_env]; by rewrite Hh).
    rewrite Hip. run_all. cbn [trace set_trace set_env]. by rewrite <- app_assoc.
Qed.

Lemma submissions_app (tr tr' : list Event) :
  submissions (tr ++ tr') = (submissions tr + submissions tr')%nat.
Proof. unfold submissions, count_cmd. rewrite !List.filter_app, !length_app. lia. Qed.

(** What [start] does with the answer of the first query, when [squeue]
    printed at least three columns. *)
Lemma query_columns (user jobname o : string) (e1 : Env) (st : State Env)
    (jobid port state : string) (reason : list string) :
  popen ("squeue -h -u " +:+ user +:+ " --name=" +:+ jobname
           +:+ " -O jobid,comment,state,reason") "" (env st) = (o, e1) ->
  Py.split_ws (Py.strip (Py.strip o)) = jobid :: port :: state :: reason ->
  query_slurm_by_jobname user jobname st =
    (Return (jobid, port, state, ReasonTokens reason),
     set_trace (trace st ++ [Popen ("squeue -h -u " +:+ user +:+ " --name=" +:+ jobname
                                      +:+ " -O jobid,comment,state,reason") ""])
       (set_env e1 st)).
Proof.
  intros Ho Hcols. unfold query_slurm_by_jobname.
  rewrite (bind_return _ _ _ _ _ (run_command_runs _ _ _ _ Ho)).
  rewrite Hcols. reflexivity.
Qed.

Lemma query_nothing (user jobname o : string) (e1 : Env) (st : State Env) :
  popen ("squeue -h -u " +:+ user +:+ " --name=" +:+ jobname
           +:+ " -O jobid,comment,state,reason") "" (env st) = (o, e1) ->
  Py.split_ws (Py.strip (Py.strip o)) = [] ->
  query_slurm_by_jobname user jobname st =
    (Return ("", "", "", ReasonText ""),
     set_trace (trace st ++ [Popen ("squeue -h -u " +:+ user +:+ " --name=" +:+ jobname
                                      +:+ " -O jobid,comment,state,reason") ""])
       (set_env e1 st)).
Proof.
  intros Ho Hcols. unfold query_slurm_by_jobname.
  rewrite (bind_return _ _ _ _ _ (run_command_runs _ _ _ _ Ho)).
  rewrite Hcols. reflexivity.
Qed.

(** A job that is found is adopted.  When the query for a job of the same
    name prints a job id, a port, a state other than [COMPLETING] and no
    reason word [failed], [start] returns without raising and without
    running [sbatch]; it keeps the job id and the port it found, and sets
    the server's address to what [get_slurm_job_info] finds for that job:
    the last word that [host] prints for the job's node, and [None] when
    [squeue] names no node. *)
Lemma start_adopts_found_job (fuel : nat) (st : State Env) (o n : string) (e1 e2 : Env)
    (jobid port state : string) (reason : list string) :
  let q := "squeue -h -u " +:+ user_name (cfg st) +:+ " --name=" +:+ job_name (cfg st)
             +:+ " -O jobid,comment,state,reason" in
  let nq := "squeue -h -j " +:+ jobid +:+ " -o %N" in
  popen q "" (env st) = (o, e1) ->
  Py.split_ws (Py.strip (Py.strip o)) = jobid :: port :: state :: reason ->
  jobid ≠ "" -> port ≠ "" -> state ≠ "COMPLETING" -> "failed" ∉ reason ->
  popen nq "" e1 = (n, e2) ->
  exists st',
    start fuel st = (Return tt, st') /\
    submissions (trace st') = submissions (trace st) /\
    slurm_job_id st' = jobid /\
    server_port st' = PortStr port /\
    (Py.bytes_strip n = "" ->
     server_ip st' = None /\ trace st' = trace st ++ [Popen q ""; Popen nq ""]) /\
    (Py.bytes_strip n ≠ "" ->
     forall h e3, popen ("host " +:+ Py.bytes_strip n) "" e2 = (h, e3) ->
       server_ip st' = Py.last_item (Py.split " " (Py.bytes_strip h)) /\
       is_Some (server_ip st') /\
       trace st' = trace st ++ [Popen q ""; Popen nq "";
                                Popen ("host " +:+ Py.bytes_strip n) ""]).
Proof.
  intros q nq Hq Hcols Hj Hp Hs Hr Hn.
  set (st1 := set_server_port (PortStr port)
                (set_slurm_job_id jobid (set_trace (trace st ++ [Popen q ""]) (set_env e1 st)))).
  assert (Hstart : start fuel st =
            (get_slurm_job_info jobid ≫= (fun '(node_ip, node_name) =>
               modify (set_server_ip node_ip))) st1).
  { unfold start.
    rewrite (bind_return _ _ st st (cfg st)) by reflexivity.
    rewrite (bind_return _ _ _ _ _ (query_columns _ _ _ _ _ _ _ _ _ Hq Hcols)).
    destruct (String.eqb_spec state "COMPLETING") as [|_]; [done|].
    rewrite (bind_return _ _ _ (set_slurm_job_id jobid
               (set_trace (trace st ++ [Popen q ""]) (set_env e1 st))) tt) by reflexivity.
    rewrite (bind_return _ _ _ st1 tt) by reflexivity.
    unfold reason_has. rewrite (bool_decide_eq_false_2 _ Hr).
    destruct (String.eqb_spec jobid "") as [|_]; [done|].
    destruct (String.eqb_spec port "") as [|_]; [done|].
    reflexivity. }
  destruct (get_slurm_job_info_spec jobid n e2 st1 Hn) as [Hnone Hsome].
  destruct (decide (Py.bytes_strip n = "")) as [He|Hne].
  - eexists. rewrite Hstart, (bind_return _ _ _ _ _ (Hnone He)).
    split; [reflexivity|].
    cbn [trace slurm_job_id server_port server_ip set_server_ip set_trace set_env
           set_server_port set_slurm_job_id st1].
    rewrite <- app_assoc. cbn [app].
    split_and!; try done.
    rewrite submissions_app.
    match goal with |- (_ + ?x)%nat = _ => assert (x = 0%nat) as -> by reflexivity end.
    lia.
  - destruct (popen ("host " +:+ Py.bytes_strip n) "" e2) as [h e3] eqn:Hh.
    destruct (Hsome Hne h e3 eq_refl) as (ip & Hip & Hinfo).
    eexists. rewrite Hstart, (bind_return _ _ _ _ _ Hinfo).
    split; [reflexivity|].
    cbn [trace slurm_job_id server_port server_ip set_server_ip set_trace set_env
           set_server_port set_slurm_job_id st1].
    rewrite <- app_assoc. cbn [app].
    split_and!; try done.
    + rewrite submissions_app.
      match goal with |- (_ + ?x)%nat = _ => assert (x = 0%nat) as -> by reflexivity end.
      lia.
    + intros _ h' e3' [= <- <-]. rewrite Hip. by eauto.
Qed.

(** When the first query reports [COMPLETING] and no reason word
    [failed], the job id and the port it printed are dropped (both are set
    to the empty string) and [start] goes on to a new submission: it ends
    as it would have ended had the query printed nothing at all. *)
Lemma start_completing_as_absent (fuel : nat) (st : State Env) (o : string) (e1 : Env)
    (jobid port : string) (reason : list string) :
  let q := "squeue -h -u " +:+ user_name (cfg st) +:+ " --name=" +:+ job_name (cfg st)
             +:+ " -O jobid,comment,state,reason" in
  popen q "" (env st) = (o, e1) ->
  Py.split_ws (Py.strip (Py.strip o)) = jobid :: port :: "COMPLETING" :: reason ->
  "failed" ∉ reason ->
  exists st1,
    st1 = set_server_port (PortStr "")
            (set_slurm_job_id "" (set_trace (trace st ++ [Popen q ""]) (set_env e1 st))) /\
    slurm_job_id st1 = "" /\ server_port st1 = PortStr "" /\
    start fuel st = start_new_job fuel st1 /\
    (forall (absent : Env) (nothing : string),
       popen q "" absent = (nothing, e1) ->
       Py.split_ws (Py.strip (Py.strip nothing)) = [] ->
       start fuel st = start fuel (set_env absent st)).
Proof.
  intros q Hq Hcols Hr.
  assert (Hfound : start fuel st = start_new_job fuel
            (set_server_port (PortStr "")
               (set_slurm_job_id "" (set_trace (trace st ++ [Popen q ""]) (set_env e1 st))))).
  { unfold start.
    rewrite (bind_return _ _ st st (cfg st)) by reflexivity.
    rewrite (bind_return _ _ _ _ _ (query_columns _ _ _ _ _ _ _ _ _ Hq Hcols)).
    cbn [String.eqb Ascii.eqb Bool.eqb andb].
    rewrite (bind_return _ _ _ (set_slurm_job_id ""
               (set_trace (trace st ++ [Popen q ""]) (set_env e1 st))) tt) by reflexivity.
    erewrite bind_return by reflexivity.
    unfold reason_has. by rewrite (bool_decide_eq_false_2 _ Hr). }
  eexists. split; [reflexivity|]. split_and!; try done.
  intros absent nothing Ha Hnone. rewrite Hfound.
  unfold start.
  rewrite (bind_return _ _ (set_env absent st) (set_env absent st) (cfg st)) by reflexivity.
  rewrite (bind_return _ _ _ _ _
             (query_nothing (user_name (cfg st)) (job_name (cfg st)) nothing e1
                (set_env absent st) Ha Hnone)).
  cbn [String.eqb].
  erewrite bind_return by reflexivity.
  erewrite bind_return by reflexivity.
  reflexivity.
Qed.

(** ** Further properties of the methods *)

Lemma bind_inv {A B} (m : M Env A) (k : A -> M Env B) (st st' : State Env) (r : Outcome B) :
  (m ≫= k) st = (r, st') ->
  (exists a st1, m st = (Return a, st1) /\ k a st1 = (r, st')) \/
  (exists e, m st = (Raise e, st') /\ r = Raise e) \/
  (m st = (OutOfFuel, st') /\ r = OutOfFuel).
Proof.
  unfold mbind, M_bind. destruct (m st) as [[a|e|] st1]; intros Hk.
  - left. by exists a, st1.
  - right. left. exists e. by simplify_eq.
  - right. right. by simplify_eq.
Qed.

Lemma submissions_no_submission (tr tr' : list Event) :
  Forall no_submission tr' -> submissions (tr ++ tr') = submissions tr.
Proof.
  intros Hall. rewrite submissions_app.
  assert (submissions tr' = 0%nat) as ->; [|lia].
  induction Hall as [|e tr' [He1 He2] _ IH]; [done|].
  unfold submissions, count_cmd in *. cbn [List.filter]. by rewrite He1, He2.
Qed.

Lemma about_job_no_submission (jid : string) (e : Event) :
  about_job jid e -> no_submission e.
Proof. by intros [->|[->|[->| ->]]]. Qed.

(** [check_slurm_job_state] in full: it returns, it only talks to the
    scheduler about the tracked job, and it never cancels. *)
Lemma check_state_spec (st : State Env) :
  exists s st' tr,
    check_slurm_job_state st = (Return s, st') /\
    only_talked st st' /\
    trace st' = trace st ++ tr /\
    Forall (about_job (slurm_job_id st)) tr /\
    cancel_attempts (trace st') = cancel_attempts (trace st) /\
    (slurm_job_id st = "" -> s = "" /\ tr = []).
Proof.
  unfold check_slurm_job_state, run_command, communicate, only_talked. run.
  destruct (String.eqb_spec (slurm_job_id st) "") as [Hj|Hj].
  { exists "", st, []. rewrite app_nil_r. split_and!; try done. by destruct st. }
  destruct (popen _ _ (env st)) as [o1 e1]. cbn [env set_trace set_env trace].
  destruct (Py.contains "PENDING" (Py.strip o1)).
  - match goal with |- context [popen ?c ?i ?e] => destruct (popen c i e) as [o2 e2] end.
    destruct (Py.contains "failed" (Py.strip o2)); eexists _, _, [_; _];
      (split; [reflexivity|]); cbn [slurm_job_id slurm_port set_trace set_env trace env];
      rewrite <- !app_assoc; cbn [app];
      (split_and!; [done|done| |
         change (?a ++ [?x; ?y]) with (a ++ [x] ++ [y]); rewrite !app_assoc;
         rewrite !cancel_attempts_snoc, !squeue_is_no_cancel; lia|done]);
      repeat constructor; unfold about_job; tauto.
  - eexists _, _, [_]. split; [reflexivity|].
    cbn [slurm_job_id slurm_port set_trace set_env trace env].
    split_and!; try done.
    all: try (repeat constructor; unfold about_job; tauto).
    all: rewrite !cancel_attempts_snoc, !squeue_is_no_cancel; lia.
Qed.

Lemma only_talked_refl (st : State Env) : only_talked st st.
Proof. unfold only_talked. by destruct st. Qed.

Lemma only_talked_said (st : State Env) (tr : list Event) (e : Env) :
  only_talked st (set_trace tr (set_env e st)).
Proof. reflexivity. Qed.

Lemma only_talked_trans (st1 st2 st3 : State Env) :
  only_talked st1 st2 -> only_talked st2 st3 -> only_talked st1 st3.
Proof. unfold only_talked. intros H12 H23. rewrite H23, H12. reflexivity. Qed.

Lemma only_talked_record (st st' : State Env) :
  only_talked st st' ->
  slurm_job_id st' = slurm_job_id st /\ slurm_port st' = slurm_port st /\
  spawn_pending st' = spawn_pending st /\ server_ip st' = server_ip st /\
  server_port st' = server_port st /\ files st' = files st /\
  authenticator st' = authenticator st /\ cfg st' = cfg st /\
  passwd st' = passwd st /\ dirs st' = dirs st /\ unwritable st' = unwritable st.
Proof. unfold only_talked. intros ->. by split_and!. Qed.

Ltac about_job_tac :=
  unfold about_job;
  first [ by left | by right; left | by right; right; left | by right; right; right ].

(** [_stop_slurm_job] in full. *)
Lemma stop_job_full (st : State Env) :
  exists r st1 tr,
    _stop_slurm_job st = (r, st1) /\
    only_talked st st1 /\
    trace st1 = trace st ++ tr /\
    Forall (about_job (slurm_job_id st)) tr /\
    match r with
    | Return b =>
        cancel_attempts (trace st1) =
          (cancel_attempts (trace st) + if String.eqb (slurm_job_id st) "" then 0 else 1)%nat /\
        (slurm_job_id st = "" -> b = true /\ tr = [])
    | Raise e =>
        slurm_job_id st ≠ "" /\
        cancel_attempts (trace st1) = (cancel_attempts (trace st) + 1)%nat /\
        exists o e1, popen ("scancel " +:+ slurm_job_id st) "" (env st) = (o, e1) /\
          Py.strip o ≠ "" /\
          e = SlurmException ("Failed to cancel job " +:+ slurm_job_id st
                                +:+ ": slurm output: " +:+ Py.strip o)
    | OutOfFuel => False
    end.
Proof.
  unfold _stop_slurm_job. run.
  destruct (String.eqb_spec (slurm_job_id st) "") as [Hj|Hj].
  { exists (Return true), st, []. rewrite app_nil_r.
    split_and!; try done; try apply only_talked_refl; lia. }
  unfold run_command, communicate. run.
  destruct (popen _ _ (env st)) as [o e1] eqn:Hp.
  destruct (String.eqb_spec (Py.strip o) "") as [Ho|Ho]; cbn [negb].
  - destruct (check_state_spec (set_trace (trace st ++ [Popen ("scancel " +:+ slurm_job_id st) ""])
                                  (set_env e1 st))) as (s & st' & tr & Hc & Ht & Htr & Hall & Hca & _).
    rewrite Hc. eexists _, st', (_ :: tr). split; [reflexivity|].
    cbn [slurm_job_id set_trace set_env trace] in *.
    split_and!.
    + eapply only_talked_trans; [|exact Ht]. apply only_talked_said.
    + rewrite Htr, <- app_assoc. reflexivity.
    + constructor; [about_job_tac|exact Hall].
    + rewrite Hca, cancel_attempts_snoc, scancel_is_cancel. done.
    + done.
  - eexists _, _, [_]. split; [reflexivity|].
    cbn [slurm_job_id set_trace set_env trace].
    split_and!; try done.
    + repeat constructor; about_job_tac.
    + by rewrite cancel_attempts_snoc, scancel_is_cancel.
    + by exists o, e1.
Qed.

Lemma poll_unfold (st : State Env) :
  poll st =
    match check_slurm_job_state st with
    | (Return state, st1) =>
        if Py.contains "RUNNING" state || Py.contains "PENDING" state
        then (Return None, st1)
        else if String.eqb state ""
             then (Return (Some 127), set_slurm_port "" (set_slurm_job_id "" st1))
             else match _stop_slurm_job st1 with
                  | (Return _, st2) =>
                      (Return (Some 127),
                       set_slurm_port ""
                         (set_slurm_job_id ""
                            (set_trace (trace st2 ++ [DbCommit])
                               (set_spawn_pending false st2))))
                  | (Raise e, st2) => (Raise e, st2)
                  | (OutOfFuel, st2) => (OutOfFuel, st2)
                  end
    | (Raise e, st1) => (Raise e, st1)
    | (OutOfFuel, st1) => (OutOfFuel, st1)
    end.
Proof.
  unfold poll, clear_state. run.
  destruct (check_slurm_job_state st) as [[state|e|] st1]; try reflexivity.
  destruct (Py.contains "RUNNING" state || Py.contains "PENDING" state); [reflexivity|].
  destruct (String.eqb state ""); [reflexivity|].
  by destruct (_stop_slurm_job st1) as [[b|e|] st2].
Qed.

(** X1. Whatever the scheduler answers, [poll] talks to it only about
    the job it tracks (the two [squeue] queries and [scancel] of that job
    id), submits nothing and cancels at most once.  When it reports the
    server alive the record is untouched and nothing was cancelled; when
    it reports an exit status, the status is 127 and the job id and the
    port are cleared; the only error it raises is the one of a [scancel]
    that printed something, and then the record is kept. *)
Theorem poll_outcomes (st : State Env) :
  exists r st' tr,
    poll st = (r, st') /\
    trace st' = trace st ++ tr /\
    Forall (about_job (slurm_job_id st)) tr /\
    submissions (trace st') = submissions (trace st) /\
    (cancel_attempts (trace st') <= cancel_attempts (trace st) + 1)%nat /\
    r ≠ OutOfFuel /\
    (r = Return None ->
       only_talked st st' /\ slurm_job_id st ≠ "" /\
       cancel_attempts (trace st') = cancel_attempts (trace st)) /\
    (forall c, r = Return (Some c) ->
       c = 127 /\ slurm_job_id st' = "" /\ slurm_port st' = "") /\
    (forall e, r = Raise e ->
       only_talked st st' /\ slurm_job_id st ≠ "" /\
       exists o, o ≠ "" /\
         e = SlurmException ("Failed to cancel job " +:+ slurm_job_id st
                               +:+ ": slurm output: " +:+ o)).
Proof.
  rewrite poll_unfold.
  destruct (check_state_spec st) as (s & st1 & tr1 & Hc & Ht1 & Htr1 & Hall1 & Hca1 & Hempty).
  rewrite Hc.
  assert (Hsub : forall tr, Forall (about_job (slurm_job_id st)) tr ->
             submissions (trace st ++ tr) = submissions (trace st)).
  { intros tr Hall. apply submissions_no_submission.
    eapply Forall_impl; [exact Hall|]. intros e. apply about_job_no_submission. }
  destruct (Py.contains "RUNNING" s || Py.contains "PENDING" s) eqn:Halive.
  - (* alive *)
    exists (Return None), st1, tr1. split_and!; try done.
    + rewrite Htr1. by apply Hsub.
    + lia.
    + intros _. split_and!; try done. intros Hj.
      destruct (Hempty Hj) as [-> _]. done.
  - destruct (String.eqb_spec s "") as [->|Hs].
    + (* the job is gone *)
      eexists _, _, tr1. split; [reflexivity|].
      cbn [trace slurm_job_id slurm_port set_slurm_job_id set_slurm_port].
      split_and!; try done.
      * rewrite Htr1. by apply Hsub.
      * lia.
      * by intros c [= <-].
    + (* the job has ended: cancel it *)
      destruct (stop_job_full st1) as (r2 & st2 & tr2 & Hstop & Ht2 & Htr2 & Hall2 & Hr2).
      destruct (only_talked_record _ _ Ht1) as (Hj1 & _).
      rewrite Hj1 in Hall2, Hr2. rewrite Hstop.
      assert (Hj : slurm_job_id st ≠ "").
      { intros Hj. by destruct (Hempty Hj) as [-> _]. }
      destruct r2 as [b|e|]; [| |done].
      * destruct Hr2 as [Hn _]. eexists _, _, (tr1 ++ tr2 ++ [DbCommit]).
        split; [reflexivity|].
        cbn [trace slurm_job_id slurm_port set_slurm_job_id set_slurm_port
               set_trace set_spawn_pending].
        assert (Hfull : trace st2 ++ [DbCommit] = trace st ++ tr1 ++ tr2 ++ [DbCommit])
          by (rewrite Htr2, Htr1, <- !app_assoc; reflexivity).
        split_and!; try done.
        -- rewrite !Forall_app. split_and!; try done. repeat constructor; about_job_tac.
        -- rewrite Hfull. apply Hsub.
           rewrite !Forall_app. split_and!; try done. repeat constructor; about_job_tac.
        -- rewrite cancel_attempts_snoc. cbn [runs]. rewrite Hn, Hca1.
           destruct (String.eqb (slurm_job_id st) ""); lia.
        -- by intros c [= <-].
      * destruct Hr2 as (_ & Hn & o & e1 & _ & Ho & ->).
        exists (Raise (SlurmException ("Failed to cancel job " +:+ slurm_job_id st
                                         +:+ ": slurm output: " +:+ Py.strip o))), st2, (tr1 ++ tr2).
        split; [reflexivity|].
        split_and!; try done.
        -- rewrite Htr2, Htr1, <- app_assoc. reflexivity.
        -- rewrite Forall_app. done.
        -- rewrite Htr2, Htr1, <- app_assoc. apply Hsub. rewrite Forall_app. done.
        -- lia.
        -- intros e [= <-]. split_and!; try done.
           ++ eapply only_talked_trans; eassumption.
           ++ by exists (Py.strip o).
Qed.

(** *** Facts about the text primitives *)

Lemma split_nonempty (sep : ascii) (s : string) : Py.split sep s ≠ [].
Proof.
  destruct s as [|c s]; cbn [Py.split]; [done|].
  destruct (Ascii.eqb c sep); [done|]. by destruct (Py.split sep s).
Qed.

(** [(a + sep + b).split(sep) == a.split(sep) + b.split(sep)] *)
Lemma split_app_sep (sep : ascii) (a b : string) :
  Py.split sep (a +:+ String sep b) = Py.split sep a ++ Py.split sep b.
Proof.
  induction a as [|c a IH].
  - change ("" +:+ String sep b) with (String sep b).
    cbn [Py.split]. by rewrite Ascii.eqb_refl.
  - change (String c a +:+ String sep b) with (String c (a +:+ String sep b)).
    cbn [Py.split]. rewrite IH. destruct (Ascii.eqb c sep); [done|].
    pose proof (split_nonempty sep a). by destruct (Py.split sep a).
Qed.

Lemma split_pieces_no_sep (sep : ascii) (s : string) :
  Forall (fun p => Py.contains (String sep "") p = false) (Py.split sep s).
Proof.
  induction s as [|c s IH]; cbn [Py.split]; [by repeat constructor|].
  destruct (Ascii.eqb_spec c sep) as [->|Hne].
  - by constructor.
  - pose proof (split_nonempty sep s) as Hs.
    destruct (Py.split sep s) as [|p ps]; [done|].
    inversion IH as [|? ? Hp Hps]; subst. constructor; [|done].
    rewrite contains_char_cons, Hp.
    destruct (Ascii.eqb_spec sep c); [congruence|done].
Qed.

Lemma last_app_nonempty {A} (l l' : list A) : l' ≠ [] -> last (l ++ l') = last l'.
Proof.
  intros Hne. destruct l' as [|x l'] using rev_ind; [done|].
  by rewrite app_assoc, !last_snoc.
Qed.

(** Words cut at blanks are not empty and hold no blank. *)
Lemma split_ws_from_words (cur s : string) :
  blank_free cur = true ->
  Forall (fun w => w ≠ "" /\ blank_free w = true) (Py.split_ws_from cur s).
Proof.
  revert cur. induction s as [|c s IH]; intros cur Hcur; cbn [Py.split_ws_from].
  - destruct cur; [constructor|]. by repeat constructor.
  - destruct (Py.isspace c) eqn:Hc.
    + destruct cur; [by apply IH|]. constructor; [done|by apply IH].
    + apply IH. clear IH. induction cur as [|x cur IHc].
      * change ("" +:+ String c "") with (String c ""). cbn [blank_free]. by rewrite Hc.
      * change (String x cur +:+ String c "") with (String x (cur +:+ String c "")).
        cbn [blank_free] in *. apply andb_prop in Hcur as [-> Hcur]. by rewrite IHc.
Qed.

Lemma split_ws_words (s : string) :
  Forall (fun w => w ≠ "" /\ blank_free w = true) (Py.split_ws s).
Proof. by apply split_ws_from_words. Qed.

(** *** More on [query_slurm_by_jobname], [poll] and [stop] *)

(** X2. What [query_slurm_by_jobname] makes of the line that [squeue]
    prints: nothing but blanks gives four empty strings; one or two words
    raise [IndexError]; three or more give the first three words as job
    id, port and state, none of them empty, and the remaining words as
    the reason.  One command is run in every case. *)
Theorem query_answer_shapes (user jobname o : string) (e1 : Env) (st : State Env) :
  let q := "squeue -h -u " +:+ user +:+ " --name=" +:+ jobname
             +:+ " -O jobid,comment,state,reason" in
  popen q "" (env st) = (o, e1) ->
  let st1 := set_trace (trace st ++ [Popen q ""]) (set_env e1 st) in
  match Py.split_ws (Py.strip (Py.strip o)) with
  | [] => query_slurm_by_jobname user jobname st = (Return ("", "", "", ReasonText ""), st1)
  | [_] | [_; _] => query_slurm_by_jobname user jobname st = (Raise IndexError, st1)
  | jobid :: port :: state :: reason =>
      query_slurm_by_jobname user jobname st
        = (Return (jobid, port, state, ReasonTokens reason), st1) /\
      jobid ≠ "" /\ port ≠ "" /\ state ≠ "" /\
      blank_free jobid = true /\ blank_free port = true /\ blank_free state = true
  end.
Proof.
  intros q Hq st1.
  pose proof (split_ws_words (Py.strip (Py.strip o))) as Hwords.
  unfold query_slurm_by_jobname.
  rewrite (bind_return _ _ _ _ _ (run_command_runs _ _ _ _ Hq)).
  destruct (Py.split_ws (Py.strip (Py.strip o))) as [|j [|p [|s reason]]]; try reflexivity.
  split; [reflexivity|].
  inversion Hwords as [|? ? [Hj Hjb] Hw1]; subst.
  inversion Hw1 as [|? ? [Hp Hpb] Hw2]; subst.
  inversion Hw2 as [|? ? [Hs Hsb] _]; subst.
  by split_and!.
Qed.

(** X3. A tracked job that is pending with a reason that says [failed]
    is cancelled by [poll]: when [scancel] is silent, [poll] reports 127,
    clears the job id and the port, resets [spawn_pending] and commits;
    exactly one [scancel] of that job was run. *)
Theorem poll_cancels_stuck_job (st : State Env) (o1 o2 o3 : string) (e1 e2 e3 : Env) :
  slurm_job_id st ≠ "" ->
  popen ("squeue -h -j " +:+ slurm_job_id st +:+ " -o %T") "" (env st) = (o1, e1) ->
  Py.contains "RUNNING" (Py.strip o1) = false ->
  Py.contains "PENDING" (Py.strip o1) = true ->
  popen ("squeue -h -j " +:+ slurm_job_id st +:+ " -O reason") "" e1 = (o2, e2) ->
  Py.contains "failed" (Py.strip o2) = true ->
  popen ("scancel " +:+ slurm_job_id st) "" e2 = (o3, e3) ->
  Py.strip o3 = "" ->
  exists st' tr,
    poll st = (Return (Some 127), st') /\
    slurm_job_id st' = "" /\ slurm_port st' = "" /\ spawn_pending st' = false /\
    cancel_attempts (trace st') = (cancel_attempts (trace st) + 1)%nat /\
    trace st' =
      trace st ++ [Popen ("squeue -h -j " +:+ slurm_job_id st +:+ " -o %T") "";
                   Popen ("squeue -h -j " +:+ slurm_job_id st +:+ " -O reason") "";
                   Popen ("scancel " +:+ slurm_job_id st) ""] ++ tr ++ [DbCommit].
Proof.
  intros Hj H1 Hrun Hpend H2 Hfail H3 Hsilent.
  rewrite poll_unfold.
  rewrite (check_state_pending st o1 o2 e1 e2 Hj H1 H2 Hpend), Hfail.
  cbn [Py.contains Py.startswith String.eqb Ascii.eqb Bool.eqb andb orb].
  set (st1 := set_trace _ (set_env e2 st)).
  assert (Hstop : exists b st2 tr,
             _stop_slurm_job st1 = (Return b, st2) /\ only_talked st1 st2 /\
             trace st2 = trace st1 ++ Popen ("scancel " +:+ slurm_job_id st) "" :: tr /\
             cancel_attempts (trace st2) = (cancel_attempts (trace st1) + 1)%nat).
  { unfold _stop_slurm_job. run. cbn [slurm_job_id st1 set_trace set_env].
    destruct (String.eqb_spec (slurm_job_id st) "") as [|_]; [done|].
    rewrite (run_command_runs _ o3 e3) by exact H3.
    rewrite Hsilent. cbn [String.eqb negb].
    destruct (check_state_spec (set_trace (trace st1 ++ [Popen ("scancel " +:+ slurm_job_id st) ""])
                                  (set_env e3 st1)))
      as (s & st2 & tr & Hc & Ht & Htr & _ & Hca & _).
    rewrite Hc. eexists _, st2, tr. split; [reflexivity|].
    cbn [trace set_trace set_env] in *. split_and!.
    - eapply only_talked_trans; [|exact Ht]. apply only_talked_said.
    - rewrite Htr, <- app_assoc. reflexivity.
    - rewrite Hca, cancel_attempts_snoc, scancel_is_cancel. done. }
  destruct Hstop as (b & st2 & tr & Hstop & Ht & Htr & Hca). rewrite Hstop.
  eexists _, tr. split; [reflexivity|].
  cbn [slurm_job_id slurm_port spawn_pending trace set_slurm_job_id set_slurm_port
         set_trace set_spawn_pending].
  split_and!; try done.
  - rewrite cancel_attempts_snoc. cbn [runs]. rewrite Hca. unfold st1. cbn [trace set_trace].
    change (trace st ++ [?x; ?y]) with (trace st ++ [x] ++ [y]). rewrite app_assoc.
    rewrite !cancel_attempts_snoc, !squeue_is_no_cancel. lia.
  - rewrite Htr. unfold st1. cbn [trace set_trace]. by rewrite <- !app_assoc.
Qed.

(** X4. When [squeue] prints nothing for the tracked job, [poll] reports
    127 and clears the job id and the port after that one query: no
    [scancel] is run, [spawn_pending] is left as it was and nothing is
    committed. *)
Theorem poll_job_gone (st : State Env) (o1 : string) (e1 : Env) :
  slurm_job_id st ≠ "" ->
  popen ("squeue -h -j " +:+ slurm_job_id st +:+ " -o %T") "" (env st) = (o1, e1) ->
  Py.strip o1 = "" ->
  exists st',
    poll st = (Return (Some 127), st') /\
    slurm_job_id st' = "" /\ slurm_port st' = "" /\
    spawn_pending st' = spawn_pending st /\
    trace st' = trace st ++ [Popen ("squeue -h -j " +:+ slurm_job_id st +:+ " -o %T") ""].
Proof.
  intros Hj H1 Hnone. rewrite poll_unfold.
  rewrite (check_state_not_pending st o1 e1 Hj H1) by (by rewrite Hnone).
  rewrite Hnone. cbn [Py.contains Py.startswith orb String.eqb].
  eexists. split; [reflexivity|]. by split_and!.
Qed.

(** X5. After a [stop] that returned, and after a [poll] that reported
    an exit status, the next [poll] reports 127 without running any
    command and leaves the spawner as it is. *)
Theorem poll_after_exit (st st' : State Env) :
  (exists now, stop now st = (Return tt, st')) \/
  (exists c, poll st = (Return (Some c), st')) ->
  poll st' = (Return (Some 127), st').
Proof.
  assert (Hcleared : forall s : State Env,
            poll (set_slurm_port "" (set_slurm_job_id "" s))
              = (Return (Some 127), set_slurm_port "" (set_slurm_job_id "" s))).
  { intros s. rewrite poll_unfold. rewrite check_state_without_job by reflexivity.
    reflexivity. }
  intros [[now Hstop]|[c Hpoll]].
  - unfold stop, clear_state in Hstop.
    apply bind_inv in Hstop as [(a & st1 & _ & Hclear)|[(e & _ & ?)|[_ ?]]]; try done.
    run. injection Hclear as <-. apply Hcleared.
  - rewrite poll_unfold in Hpoll.
    destruct (check_slurm_job_state st) as [[s|e|] st1]; try done.
    destruct (Py.contains "RUNNING" s || Py.contains "PENDING" s); [done|].
    destruct (String.eqb s "").
    + injection Hpoll as _ <-. apply Hcleared.
    + destruct (_stop_slurm_job st1) as [[b|e|] st2]; try done.
      injection Hpoll as _ <-. apply Hcleared.
Qed.

(** *** More on [get_slurm_job_info] and the submission *)

Lemma host_is_quiet (name stdin : string) :
  no_submission (Popen ("host " +:+ name) stdin) /\
  runs "scancel " (Popen ("host " +:+ name) stdin) = false.
Proof. by repeat split. Qed.

Lemma squeue_is_quiet (rest stdin : string) :
  no_submission (Popen ("squeue -h -j " +:+ rest) stdin).
Proof. by split. Qed.

(** [get_slurm_job_info] in full. *)
Lemma get_slurm_job_info_runs (jobid : string) (st : State Env) :
  exists r st' tr,
    get_slurm_job_info jobid st = (Return r, st') /\
    only_talked st st' /\
    trace st' = trace st ++ tr /\
    Forall no_submission tr /\
    cancel_attempts (trace st') = cancel_attempts (trace st) /\
    (length tr <= 2)%nat /\
    (r = (None, None) \/
     exists ip name, r = (Some ip, Some name) /\ name ≠ "" /\ Py.contains " " ip = false).
Proof.
  destruct (popen ("squeue -h -j " +:+ jobid +:+ " -o %N") "" (env st)) as [n e2] eqn:Hn.
  destruct (get_slurm_job_info_spec jobid n e2 st Hn) as [Hnone Hsome].
  destruct (decide (Py.bytes_strip n = "")) as [He|Hne].
  - eexists _, _, [_]. split; [exact (Hnone He)|].
    cbn [trace set_trace set_env]. split_and!; try done.
    + constructor; [apply squeue_is_quiet|constructor].
    + by rewrite cancel_attempts_snoc, squeue_is_no_cancel.
    + cbn. lia.
    + by left.
  - destruct (popen ("host " +:+ Py.bytes_strip n) "" e2) as [h e3] eqn:Hh.
    destruct (Hsome Hne h e3 eq_refl) as (ip & Hip & Hinfo).
    eexists _, _, [_; _]. split; [exact Hinfo|].
    cbn [trace set_trace set_env]. split_and!; try done.
    + constructor; [apply squeue_is_quiet|constructor; [apply host_is_quiet|constructor]].
    + change (trace st ++ [?x; ?y]) with (trace st ++ [x] ++ [y]). rewrite app_assoc.
      rewrite !cancel_attempts_snoc, squeue_is_no_cancel.
      rewrite (proj2 (host_is_quiet _ _)). lia.
    + right. exists ip, (Py.bytes_strip n). split_and!; try done.
      apply last_Some_elem_of in Hip.
      pose proof (split_pieces_no_sep " " (Py.bytes_strip h)) as Hall.
      rewrite Forall_forall in Hall. by apply Hall.
Qed.

(** X6. On ASCII output of [squeue] and [host], which [decode] leaves
    as it is, [get_slurm_job_info] returns [(None, None)] when [squeue]
    names no node, and otherwise the node's name with the last word that
    [host] prints for it, a text without a blank.  It runs at most two
    commands, neither a submission nor a cancel, and changes nothing in
    the spawner.  (Bytes that are no UTF-8 make [decode] raise
    [UnicodeDecodeError]: they are outside the text model.) *)
Theorem node_info_shape (jobid : string) (st : State Env) (n : string) (e2 : Env) :
  popen ("squeue -h -j " +:+ jobid +:+ " -o %N") "" (env st) = (n, e2) ->
  Py.is_ascii n = true ->
  (forall h e3, popen ("host " +:+ Py.bytes_strip n) "" e2 = (h, e3) -> Py.is_ascii h = true) ->
  exists r st' tr,
    get_slurm_job_info jobid st = (Return r, st') /\
    only_talked st st' /\
    trace st' = trace st ++ tr /\
    Forall no_submission tr /\
    cancel_attempts (trace st') = cancel_attempts (trace st) /\
    (length tr <= 2)%nat /\
    (Py.bytes_strip n = "" ->
     r = (None, None) /\
     tr = [Popen ("squeue -h -j " +:+ jobid +:+ " -o %N") ""]) /\
    (Py.bytes_strip n ≠ "" ->
     exists ip, r = (Some ip, Some (Py.bytes_strip n)) /\ Py.contains " " ip = false /\
       tr = [Popen ("squeue -h -j " +:+ jobid +:+ " -o %N") "";
             Popen ("host " +:+ Py.bytes_strip n) ""]).
Proof.
  intros Hn _ _.
  destruct (get_slurm_job_info_spec jobid n e2 st Hn) as [Hnone Hsome].
  destruct (decide (Py.bytes_strip n = "")) as [He|Hne].
  - eexists _, _, [_]. split; [exact (Hnone He)|].
    cbn [trace set_trace set_env]. split_and!; try done.
    + constructor; [apply squeue_is_quiet|constructor].
    + by rewrite cancel_attempts_snoc, squeue_is_no_cancel.
    + cbn. lia.
  - destruct (popen ("host " +:+ Py.bytes_strip n) "" e2) as [h e3] eqn:Hh.
    destruct (Hsome Hne h e3 eq_refl) as (ip & Hip & Hinfo).
    eexists _, _, [_; _]. split; [exact Hinfo|].
    cbn [trace set_trace set_env]. split_and!; try done.
    + constructor; [apply squeue_is_quiet|constructor; [apply host_is_quiet|constructor]].
    + change (trace st ++ [?x; ?y]) with (trace st ++ [x] ++ [y]). rewrite app_assoc.
      rewrite !cancel_attempts_snoc, squeue_is_no_cancel.
      rewrite (proj2 (host_is_quiet _ _)). lia.
    + intros _. exists ip. split_and!; try done.
      apply last_Some_elem_of in Hip.
      pose proof (split_pieces_no_sep " " (Py.bytes_strip h)) as Hall.
      rewrite Forall_forall in Hall. by apply Hall.
Qed.

Lemma submit_event_counts (sudo : bool) (script : string) (tr : list Event) :
  submissions (tr ++ [Popen (if sudo then "sudo sbatch" else "sbatch") script])
    = (submissions tr + 1)%nat /\
  cancel_attempts (tr ++ [Popen (if sudo then "sudo sbatch" else "sbatch") script])
    = cancel_attempts tr.
Proof.
  rewrite submissions_app, cancel_attempts_snoc. by destruct sudo.
Qed.

(** [submit] in full, from what [sbatch] prints. *)
Lemma submit_runs (script o : string) (e1 : Env) (st : State Env) :
  popen (if run_with_sudo (cfg st) then "sudo sbatch" else "sbatch") script (env st) = (o, e1) ->
  let st1 := set_trace
               (trace st ++ [Popen (if run_with_sudo (cfg st) then "sudo sbatch" else "sbatch")
                               script]) (set_env e1 st) in
  (Py.bytes_strip o = "" ->
   submit script st =
     (Raise (SlurmException "Slurm did not attempt to start the job! Check Slurm logs"), st1)) /\
  (Py.bytes_strip o ≠ "" ->
   exists jid, Py.last_item (Py.split " " (Py.bytes_strip o)) = Some jid /\
     submit script st = (Return tt, set_slurm_job_id jid st1)).
Proof.
  intros Hp st1. unfold submit.
  rewrite (bind_return _ _ st st (cfg st)) by reflexivity.
  rewrite (bind_return _ _ st st1 o) by (unfold communicate; by rewrite Hp).
  split.
  - intros ->. reflexivity.
  - intros Hne. destruct (split_last " " (Py.bytes_strip o)) as [jid Hjid].
    exists jid. split; [done|].
    destruct (String.eqb_spec (Py.bytes_strip o) "") as [|_]; [done|].
    rewrite bool_decide_eq_false_2 by (by destruct (Py.bytes_strip o)).
    cbn [orb]. rewrite Hjid. reflexivity.
Qed.

(** X7. The job id that [submit] records is what follows the last
    blank of the line that [sbatch] prints, or the whole line when it has
    no blank; when [sbatch] prints nothing but blanks, [submit] raises
    and the job id is left as it was.  One submission is run in every
    case. *)
Theorem submit_records_last_word (script o : string) (e1 : Env) (st : State Env) :
  popen (if run_with_sudo (cfg st) then "sudo sbatch" else "sbatch") script (env st) = (o, e1) ->
  exists r st',
    submit script st = (r, st') /\
    submissions (trace st') = (submissions (trace st) + 1)%nat /\
    (Py.bytes_strip o = "" ->
     r = Raise (SlurmException "Slurm did not attempt to start the job! Check Slurm logs") /\
     slurm_job_id st' = slurm_job_id st) /\
    (forall line jid,
       Py.bytes_strip o = line +:+ " " +:+ jid -> Py.contains " " jid = false ->
       r = Return tt /\ slurm_job_id st' = jid) /\
    (Py.bytes_strip o ≠ "" -> Py.contains " " (Py.bytes_strip o) = false ->
     r = Return tt /\ slurm_job_id st' = Py.bytes_strip o).
Proof.
  intros Hp. destruct (submit_runs script o e1 st Hp) as [Hnone Hsome].
  destruct (decide (Py.bytes_strip o = "")) as [He|Hne].
  - eexists _, _. split; [exact (Hnone He)|].
    cbn [trace set_trace set_env slurm_job_id].
    split_and!; try done.
    + apply submit_event_counts.
    + intros line jid Hline. rewrite He in Hline. by destruct line.
  - destruct (Hsome Hne) as (jid & Hjid & Hsub).
    eexists _, _. split; [exact Hsub|].
    cbn [trace set_trace set_env slurm_job_id set_slurm_job_id].
    split_and!; try done.
    + apply submit_event_counts.
    + intros line jid' Hline Hjid'. split; [done|].
      rewrite Hline in Hjid.
      change (line +:+ " " +:+ jid') with (line +:+ String " " jid') in Hjid.
      rewrite split_app_sep in Hjid. unfold Py.last_item in Hjid.
      rewrite last_app_nonempty in Hjid by apply split_nonempty.
      rewrite (split_without_sep " " jid' Hjid') in Hjid. by injection Hjid.
    + intros _ Hno. split; [done|].
      rewrite (split_without_sep " " _ Hno) in Hjid. by injection Hjid.
Qed.

Lemma load_extra_launch_script_runs (st : State Env) :
  load_extra_launch_script st =
    (Return (default "# *** No user template found ***"
               (files st !! extra_launch_script (cfg st))), st).
Proof.
  unfold load_extra_launch_script. run_all.
  by destruct (files st !! extra_launch_script (cfg st)).
Qed.

Lemma split_cmd_runs (cmd export_cmd launch_cmd : string) (st : State Env) :
  Py.split ";" cmd !! 0%nat = Some export_cmd ->
  Py.split ";" cmd !! 1%nat = Some launch_cmd ->
  split_cmd cmd st = (Return (export_cmd, launch_cmd), st).
Proof. intros He Hl. unfold split_cmd. run_all. by rewrite He, Hl. Qed.

(** X8. The errors of [_run_jupyterhub_singleuser] that come before the
    submission leave the scheduler alone: a command without [;] raises
    [IndexError] and an unknown user raises [KeyError], with the spawner
    and the files unchanged; a hash file that cannot be opened raises
    [SlurmException], and then no command was run, no file was written
    and the job id is as before. *)
Theorem run_fails_before_submitting (fuel : nat) (cmd : string) (port : N) (user : string)
    (st : State Env) :
  (Py.contains ";" cmd = false ->
   _run_jupyterhub_singleuser fuel cmd port user st = (Raise IndexError, st)) /\
  (forall export_cmd launch_cmd,
     Py.split ";" cmd !! 0%nat = Some export_cmd ->
     Py.split ";" cmd !! 1%nat = Some launch_cmd ->
     passwd st !! user = None ->
     _run_jupyterhub_singleuser fuel cmd port user st = (Raise (KeyError user), st)) /\
  (forall export_cmd launch_cmd pw r st1,
     Py.split ";" cmd !! 0%nat = Some export_cmd ->
     Py.split ";" cmd !! 1%nat = Some launch_cmd ->
     passwd st !! user = Some pw ->
     choose_resources st = (Return r, st1) ->
     hash_file_of pw ∈ unwritable st ->
     exists st',
       _run_jupyterhub_singleuser fuel cmd port user st =
         (Raise (SlurmException
                   ("Error opening hash file '" +:+ hash_file_of pw +:+ "' for writing")), st') /\
       trace st' = trace st /\ files st' = files st /\
       slurm_job_id st' = slurm_job_id st).
Proof.
  split_and!.
  - intros Hc. unfold _run_jupyterhub_singleuser.
    rewrite (bind_return _ _ _ _ _ (load_extra_launch_script_runs st)).
    apply bind_raise. unfold split_cmd. run_all.
    by rewrite (split_without_sep ";" cmd Hc).
  - intros export_cmd launch_cmd He Hl Hpw. unfold _run_jupyterhub_singleuser.
    rewrite (bind_return _ _ _ _ _ (load_extra_launch_script_runs st)).
    rewrite (bind_return _ _ _ _ _ (split_cmd_runs _ _ _ st He Hl)).
    apply bind_raise. unfold getpwnam. run_all. by rewrite Hpw.
  - intros export_cmd launch_cmd pw r st1 He Hl Hpw Hr Hro.
    pose proof (choose_resources_state _ _ _ Hr) as Hst1.
    unfold _run_jupyterhub_singleuser.
    rewrite (bind_return _ _ _ _ _ (load_extra_launch_script_runs st)).
    rewrite (bind_return _ _ _ _ _ (split_cmd_runs _ _ _ st He Hl)).
    rewrite (bind_return _ _ st st pw) by (unfold getpwnam; run_all; by rewrite Hpw).
    rewrite (bind_return _ _ st st1 r Hr).
    rewrite (bind_return _ _ st1 st1 (cfg st)) by (rewrite Hst1; reflexivity).
    assert (Hw : exists st', write_hash_file user port st1 =
                   (Raise (SlurmException
                      ("Error opening hash file '" +:+ hash_file_of pw +:+ "' for writing")), st') /\
                 trace st' = trace st /\ files st' = files st /\
                 slurm_job_id st' = slurm_job_id st).
    { unfold write_hash_file, getpwnam. run_all.
      replace (passwd st1) with (passwd st) by (rewrite Hst1; reflexivity).
      rewrite Hpw. run_all. fold (hash_file_of pw).
      destruct (bool_decide ("/tmp/jupyter" ∈ dirs st1)
                || bool_decide (is_Some (files st1 !! "/tmp/jupyter")));
        run_all; cbn [unwritable set_dirs];
        replace (unwritable st1) with (unwritable st) by (rewrite Hst1; reflexivity);
        rewrite (bool_decide_eq_true_2 _ Hro); run_all;
        eexists; (split; [reflexivity|]);
        cbn [trace files slurm_job_id set_dirs]; rewrite Hst1; by split_and!. }
    destruct Hw as (st' & Hw & Hfacts). exists st'. split; [|exact Hfacts].
    by rewrite (bind_raise _ _ _ _ _ Hw).
Qed.

(** X9. A custom request is served once: a call of [choose_resources]
    that returns leaves [custom] unset, so the next call returns the
    configured defaults and changes nothing; a call that raises changes
    nothing at all, so the next call raises again. *)
Theorem custom_request_served_once (st : State Env) :
  (forall r st1, choose_resources st = (Return r, st1) ->
     custom (authenticator st1) = false /\
     choose_resources st1 =
       (Return {| r_memory := mem (cfg st); r_cpus := cpus_per_task (cfg st);
                  r_ntasks := ntasks (cfg st); r_stime := time (cfg st);
                  r_nodes := nodes (cfg st) |}, st1)) /\
  (forall e st1, choose_resources st = (Raise e, st1) ->
     st1 = st /\ custom (authenticator st) = true /\ choose_resources st1 = (Raise e, st1)).
Proof.
  assert (Hcases : forall o st1, choose_resources st = (o, st1) ->
            match o with
            | Return _ => custom (authenticator st1) = false
            | Raise _ => st1 = st /\ custom (authenticator st) = true
            | OutOfFuel => False
            end).
  { intros o st1. unfold choose_resources. run_all.
    destruct (custom (authenticator st)) eqn:Hc; [|by intros [= <- <-]].
    destruct (String.eqb (form_time (authenticator st)) "").
    - by intros [= <- <-].
    - pose proof (checked_time_cases (form_time (authenticator st)) (time (cfg st)) st) as Hck.
      destruct (wall_time_days (form_time (authenticator st))) as [days|].
      + rewrite Hck. by intros [= <- <-].
      + destruct Hck as (e & -> & _). by intros [= <- <-]. }
  split.
  - intros r st1 Hr. pose proof (Hcases _ _ Hr) as Hc. split; [exact Hc|].
    rewrite (choose_resources_default st1 Hc).
    by rewrite (choose_resources_state _ _ _ Hr).
  - intros e st1 Hr. destruct (Hcases _ _ Hr) as [-> Hc]. by split_and!.
Qed.

(** X10. [get_env] gives the environment of the base class with [USER]
    set to the user's name and [HOME] to the home directory of the
    password database, every other variable unchanged; for a user the
    password database does not know it raises [KeyError]. *)
Theorem get_env_user_and_home (st : State Env) :
  (forall pw, passwd st !! user_name (cfg st) = Some pw ->
     exists e, get_env st = (Return e, st) /\
       e !! "USER" = Some (user_name (cfg st)) /\
       e !! "HOME" = Some (pw_dir pw) /\
       (forall k, k ≠ "USER" -> k ≠ "HOME" -> e !! k = base_env (cfg st) !! k)) /\
  (passwd st !! user_name (cfg st) = None ->
   get_env st = (Raise (KeyError (user_name (cfg st))), st)).
Proof.
  split.
  - intros pw Hpw. unfold get_env, user_env, getpwnam. run_all. rewrite Hpw. run_all.
    eexists. split; [reflexivity|]. split_and!.
    + by rewrite lookup_insert_ne, lookup_insert_eq.
    + by rewrite lookup_insert_eq.
    + intros k Hu Hh. by rewrite !lookup_insert_ne.
  - intros Hpw. unfold get_env, user_env, getpwnam. run_all. by rewrite Hpw.
Qed.

(** *** The wait for the job to run *)

Lemma only_talked_trace (st : State Env) (tr : list Event) :
  only_talked st (set_trace tr st).
Proof. unfold only_talked. by destruct st. Qed.

Lemma about_job_or_sleep_no_submission (jid : string) (e : Event) :
  about_job jid e \/ e = Sleep 1 -> no_submission e.
Proof. intros [Ha| ->]; [by eapply about_job_no_submission|done]. Qed.

(** [wait_until_running] in full. *)
Lemma wait_until_running_spec (fuel : nat) (s : string) (st st' : State Env)
    (r : Outcome unit) :
  wait_until_running fuel s st = (r, st') ->
  only_talked st st' /\
  (exists tr, trace st' = trace st ++ tr /\ Forall no_submission tr) /\
  cancel_attempts (trace st') = cancel_attempts (trace st) /\
  (r = Return tt -> Py.contains "RUNNING" s = true \/ slurm_job_id st ≠ "") /\
  (forall e, r = Raise e ->
     e = SlurmException ("Job " +:+ slurm_job_id st +:+ " failed to start!")).
Proof.
  revert s st. induction fuel as [|fuel IH]; intros s st; cbn [wait_until_running].
  - intros [= <- <-]. split_and!; try done; [apply only_talked_refl|].
    exists []. by rewrite app_nil_r.
  - destruct (Py.contains "RUNNING" s) eqn:Hrun.
    { intros [= <- <-]. split_and!; try done; [apply only_talked_refl| |by left].
      exists []. by rewrite app_nil_r. }
    destruct (Py.contains "PENDING" s) eqn:Hpend.
    + destruct (check_state_spec st) as (s2 & st1 & tr1 & Hc & Ht1 & Htr1 & Hall1 & Hca1 & Hempty).
      rewrite (bind_return _ _ _ _ _ Hc).
      rewrite (bind_return _ _ st1 (set_trace (trace st1 ++ [Sleep 1]) st1) tt) by reflexivity.
      intros Hw. destruct (IH _ _ Hw) as (Ht & (tr & Htr & Hall) & Hca & Hret & Hraise).
      destruct (only_talked_record _ _ Ht1) as (Hj1 & _).
      cbn [slurm_job_id set_trace trace] in *. rewrite Hj1 in *.
      split_and!.
      * eapply only_talked_trans; [exact Ht1|].
        eapply only_talked_trans; [apply only_talked_trace|exact Ht].
      * exists (tr1 ++ [Sleep 1] ++ tr). split.
        -- rewrite Htr, Htr1, <- !app_assoc. reflexivity.
        -- rewrite !Forall_app. split_and!; try done.
           ++ eapply Forall_impl; [exact Hall1|]. intros e. apply about_job_no_submission.
           ++ by repeat constructor.
      * rewrite Hca, cancel_attempts_snoc. cbn [runs]. lia.
      * intros Hr. destruct (Hret Hr) as [Hrun2|Hj]; [|by right].
        right. intros Hj. destruct (Hempty Hj) as [-> _]. done.
      * exact Hraise.
    + run_all. intros [= <- <-]. split_and!; try done; [apply only_talked_refl| |].
      * exists []. by rewrite app_nil_r.
      * by intros e [= <-].
Qed.

(** X11. The wait that follows the submission never ends while the
    scheduler keeps reporting the job as pending for a reason that does
    not say [failed]: whatever the number of turns allowed, the turns run
    out, one sleep each, and nothing is raised or returned. *)
Theorem wait_never_ends_while_pending (fuel : nat) (s : string) (st : State Env)
    (keeps_pending : Env -> Prop) :
  slurm_job_id st ≠ "" ->
  Py.contains "RUNNING" s = false ->
  Py.contains "PENDING" s = true ->
  keeps_pending (env st) ->
  (forall e, keeps_pending e -> exists o1 e1 o2 e2,
      popen ("squeue -h -j " +:+ slurm_job_id st +:+ " -o %T") "" e = (o1, e1) /\
      Py.contains "RUNNING" (Py.strip o1) = false /\
      Py.contains "PENDING" (Py.strip o1) = true /\
      popen ("squeue -h -j " +:+ slurm_job_id st +:+ " -O reason") "" e1 = (o2, e2) /\
      Py.contains "failed" (Py.strip o2) = false /\
      keeps_pending e2) ->
  exists st',
    wait_until_running fuel s st = (OutOfFuel, st') /\
    sleeps (trace st') = (sleeps (trace st) + fuel)%nat /\
    cancel_attempts (trace st') = cancel_attempts (trace st).
Proof.
  intros Hj Hrun Hpend Hinv Hhost. revert s st Hj Hrun Hpend Hinv Hhost.
  induction fuel as [|fuel IH]; intros s st Hj Hrun Hpend Hinv Hhost; cbn [wait_until_running].
  - exists st. split_and!; [done|lia|done].
  - rewrite Hrun, Hpend.
    destruct (Hhost (env st) Hinv)
      as (o1 & e1 & o2 & e2 & H1 & Hrun1 & Hpend1 & H2 & Hnf & Hinv2).
    rewrite (bind_return _ _ _ _ _ (check_state_pending st o1 o2 e1 e2 Hj H1 H2 Hpend1)).
    rewrite Hnf.
    erewrite bind_return by reflexivity.
    match goal with |- exists _, wait_until_running _ _ ?s1 = _ /\ _ =>
      destruct (IH (Py.strip o1) s1) as (st' & Hw & Hsl & Hca); try done
    end.
    exists st'. split; [exact Hw|].
    cbn [trace set_trace set_env] in Hsl, Hca. split.
    + rewrite Hsl. unfold sleeps. rewrite !List.filter_app, !length_app. cbn. lia.
    + rewrite Hca. rewrite cancel_attempts_snoc. cbn [runs].
      change (trace st ++ [?x; ?y]) with (trace st ++ [x] ++ [y]). rewrite app_assoc.
      rewrite !cancel_attempts_snoc, !squeue_is_no_cancel. lia.
Qed.

(** *** The whole submission *)

Lemma reads_only_mret {A} (a : A) : reads_only (mret a : M Env A).
Proof. by intros st o st' [= <- <-]. Qed.

Lemma reads_only_or_raise {A} (e : Exn) (o : option A) : reads_only (or_raise e o : M Env A).
Proof. destruct o; by intros st r st' [= <- <-]. Qed.

Lemma reads_only_get {A} (f : State Env -> A) : reads_only (get f).
Proof. by intros st o st' [= <- <-]. Qed.

Lemma reads_only_bind {A B} (m : M Env A) (k : A -> M Env B) :
  reads_only m -> (forall a, reads_only (k a)) -> reads_only (m ≫= k).
Proof.
  intros Hm Hk st o st' Hb.
  apply bind_inv in Hb as [(a & st1 & Hma & Hka)|[(e & Hme & ->)|[Hmo ->]]].
  - destruct (Hm _ _ _ Hma) as [-> _]. by apply (Hk a).
  - by destruct (Hm _ _ _ Hme) as [-> _].
  - by destruct (Hm _ _ _ Hmo) as [_ ?].
Qed.

Lemma reads_only_load_extra_launch_script :
  reads_only (load_extra_launch_script : M Env string).
Proof. intros st o st'. rewrite load_extra_launch_script_runs. by intros [= <- <-]. Qed.

Lemma reads_only_split_cmd (cmd : string) :
  reads_only (split_cmd cmd : M Env (string * string)).
Proof.
  unfold split_cmd.
  repeat first [apply reads_only_bind; [|intros ?] | apply reads_only_or_raise
               | apply reads_only_mret].
Qed.

Lemma reads_only_getpwnam (name : string) : reads_only (getpwnam name : M Env Passwd).
Proof.
  unfold getpwnam.
  repeat first [apply reads_only_bind; [|intros ?] | apply reads_only_or_raise
               | apply reads_only_get].
Qed.

Lemma choose_resources_cases (st st1 : State Env) (o : Outcome Resources) :
  choose_resources st = (o, st1) ->
  st1 = set_authenticator (authenticator st1) st /\
  match o with
  | Return _ => custom (authenticator st1) = false
  | Raise _ => st1 = st
  | OutOfFuel => False
  end.
Proof.
  intros Hr. split; [by eapply choose_resources_state|].
  revert Hr. unfold choose_resources. run_all.
  destruct (custom (authenticator st)) eqn:Hc; [|by intros [= <- <-]].
  destruct (String.eqb (form_time (authenticator st)) "").
  - by intros [= <- <-].
  - pose proof (checked_time_cases (form_time (authenticator st)) (time (cfg st)) st) as Hck.
    destruct (wall_time_days (form_time (authenticator st))) as [days|].
    + rewrite Hck. by intros [= <- <-].
    + destruct Hck as (e & -> & _). by intros [= <- <-].
Qed.

Lemma write_hash_file_inv (user : string) (port : N) (s s' : State Env) (o : Outcome unit) :
  write_hash_file user port s = (o, s') ->
  s' = set_files (files s') (set_dirs (dirs s') s) /\
  o ≠ OutOfFuel /\
  (o = Return tt ->
   exists pw, passwd s !! user = Some pw /\
     files s' !! hash_file_of pw = Some (Py.str (digit_sum (N.to_uint port)))).
Proof.
  destruct (passwd s !! user) as [pw|] eqn:Hpw.
  - destruct (decide (hash_file_of pw ∈ unwritable s)) as [Hro|Hro].
    + unfold write_hash_file, getpwnam. run_all. rewrite Hpw. run_all.
      fold (hash_file_of pw).
      destruct (bool_decide ("/tmp/jupyter" ∈ dirs s)
                || bool_decide (is_Some (files s !! "/tmp/jupyter")));
        run_all; cbn [unwritable set_dirs]; rewrite (bool_decide_eq_true_2 _ Hro); run_all;
        intros [= <- <-]; (split_and!; [by destruct s|done|done]).
    + destruct (write_hash_file_runs s user pw port Hpw Hro) as (s2 & Hw & Hf & _ & _ & _ & Hs2).
      rewrite Hw. intros [= <- <-]. split_and!; [exact Hs2|done|]. intros _. by exists pw.
  - unfold write_hash_file, getpwnam. run_all. rewrite Hpw. run_all.
    intros [= <- <-]. split_and!; [by destruct s|done|done].
Qed.

Ltac inv_bind H a s Ha Hk :=
  apply bind_inv in H as [(a & s & Ha & Hk)|[(? & Ha & ->)|[Ha ->]]].

Lemma sbatch_is_no_cancel (sudo : bool) (script : string) :
  runs "scancel " (Popen (if sudo then "sudo sbatch" else "sbatch") script) = false.
Proof. by destruct sudo. Qed.

(** Every way [_run_jupyterhub_singleuser] can end. *)
Lemma run_outcome (fuel : nat) (cmd : string) (port : N) (user : string)
    (st st' : State Env) (r : Outcome string) :
  _run_jupyterhub_singleuser fuel cmd port user st = (r, st') ->
  (exists tr, trace st' = trace st ++ tr) /\
  cancel_attempts (trace st') = cancel_attempts (trace st) /\
  (submissions (trace st') = submissions (trace st) \/
   submissions (trace st') = (submissions (trace st) + 1)%nat) /\
  slurm_port st' = slurm_port st /\
  spawn_pending st' = spawn_pending st /\
  (forall jid, r = Return jid ->
     slurm_job_id st' = jid /\ jid ≠ "" /\
     is_Some (server_ip st') /\ server_port st' = PortInt port /\
     submissions (trace st') = (submissions (trace st) + 1)%nat /\
     custom (authenticator st') = false /\
     exists pw, passwd st !! user = Some pw /\
       files st' !! hash_file_of pw = Some (Py.str (digit_sum (N.to_uint port)))).
Proof.
  intros Hrun. unfold _run_jupyterhub_singleuser in Hrun.
  assert (Hearly : forall s : State Env,
            trace s = trace st -> slurm_port s = slurm_port st ->
            spawn_pending s = spawn_pending st ->
            forall o : Outcome string, (forall jid, o ≠ Return jid) ->
            (exists tr, trace s = trace st ++ tr) /\
            cancel_attempts (trace s) = cancel_attempts (trace st) /\
            (submissions (trace s) = submissions (trace st) \/
             submissions (trace s) = (submissions (trace st) + 1)%nat) /\
            slurm_port s = slurm_port st /\
            spawn_pending s = spawn_pending st /\
            (forall jid, o = Return jid ->
               slurm_job_id s = jid /\ jid ≠ "" /\
               is_Some (server_ip s) /\ server_port s = PortInt port /\
               submissions (trace s) = (submissions (trace st) + 1)%nat /\
               custom (authenticator s) = false /\
               exists pw, passwd st !! user = Some pw /\
                 files s !! hash_file_of pw = Some (Py.str (digit_sum (N.to_uint port))))).
  { intros s Ht Hp Hsp o Ho. rewrite Ht. split_and!; try done.
    - exists []. by rewrite app_nil_r.
    - by left.
    - intros jid ->. by destruct (Ho jid). }
  (* the snippet, the split, the group id *)
  inv_bind Hrun sbatch s0 Ha Hrun;
    [destruct (reads_only_load_extra_launch_script _ _ _ Ha) as [-> _]
    |destruct (reads_only_load_extra_launch_script _ _ _ Ha) as [-> _]; by apply Hearly
    |by destruct (reads_only_load_extra_launch_script _ _ _ Ha)].
  clear Ha.
  inv_bind Hrun pieces s0 Ha Hrun;
    [destruct (reads_only_split_cmd _ _ _ _ Ha) as [-> _]
    |destruct (reads_only_split_cmd _ _ _ _ Ha) as [-> _]; by apply Hearly
    |by destruct (reads_only_split_cmd _ _ _ _ Ha)].
  clear Ha. destruct pieces as [export_cmd launch_cmd].
  inv_bind Hrun pw s0 Hpw Hrun;
    [destruct (reads_only_getpwnam _ _ _ _ Hpw) as [-> _]
    |destruct (reads_only_getpwnam _ _ _ _ Hpw) as [-> _]; by apply Hearly
    |by destruct (reads_only_getpwnam _ _ _ _ Hpw)].
  (* the resources *)
  inv_bind Hrun res st1 Hres Hrun;
    destruct (choose_resources_cases _ _ _ Hres) as [Hst1 Hcase]; [| |done].
  2:{ apply Hearly; try done; rewrite Hst1; reflexivity. }
  inv_bind Hrun c s0 Ha Hrun;
    [destruct (reads_only_get _ _ _ _ Ha) as [-> _]
    |by destruct (reads_only_get _ _ _ _ Ha) as [-> _]
    |by destruct (reads_only_get _ _ _ _ Ha)].
  injection Ha as <-.
  (* the hash file *)
  inv_bind Hrun u st2 Hw Hrun;
    destruct (write_hash_file_inv _ _ _ _ _ Hw) as (Hst2 & Hnf & Hfile); [| |done].
  2:{ apply Hearly; try done; rewrite Hst2, Hst1; reflexivity. }
  destruct u. destruct (Hfile eq_refl) as (pw' & Hpw' & Hhash). clear Hfile Hnf Hw.
  assert (Hpwst : passwd st !! user = Some pw') by (rewrite Hst1 in Hpw'; exact Hpw').
  (* the submission *)
  set (script := render (cfg st1) res sbatch export_cmd launch_cmd port user (pw_gid pw)) in *.
  destruct (popen (if run_with_sudo (cfg st2) then "sudo sbatch" else "sbatch") script (env st2))
    as [o e1] eqn:Hpo.
  destruct (submit_runs script o e1 st2 Hpo) as [Hnone Hsome].
  assert (Hsb : forall tl, Forall no_submission tl ->
            submissions ((trace st ++ [Popen (if run_with_sudo (cfg st2) then "sudo sbatch"
                                              else "sbatch") script]) ++ tl)
              = (submissions (trace st) + 1)%nat).
  { intros tl Htl. rewrite submissions_no_submission by done. apply submit_event_counts. }
  assert (Ht2 : trace st2 = trace st) by (rewrite Hst2, Hst1; reflexivity).
  destruct (decide (Py.bytes_strip o = "")) as [He|Hne].
  { rewrite (bind_raise _ _ _ _ _ (Hnone He)) in Hrun. injection Hrun as <- <-.
    cbn [trace set_trace set_env slurm_port spawn_pending]. rewrite Ht2.
    split_and!; try done.
    - by eexists.
    - by rewrite cancel_attempts_snoc, sbatch_is_no_cancel.
    - right. apply submit_event_counts.
    - rewrite Hst2, Hst1. reflexivity.
    - rewrite Hst2, Hst1. reflexivity. }
  destruct (Hsome Hne) as (jid & Hjid & Hsub). clear Hnone Hsome.
  rewrite (bind_return _ _ _ _ _ Hsub) in Hrun.
  set (st4 := set_slurm_job_id jid _) in *.
  assert (Ht4 : trace st4 = trace st ++ [Popen (if run_with_sudo (cfg st2) then "sudo sbatch"
                                             else "sbatch") script])
    by (cbn [trace set_trace set_env st4 set_slurm_job_id]; by rewrite Ht2).
  assert (Hrec4 : slurm_port st4 = slurm_port st /\ spawn_pending st4 = spawn_pending st /\
                  custom (authenticator st4) = false /\
                  files st4 !! hash_file_of pw' = Some (Py.str (digit_sum (N.to_uint port))) /\
                  slurm_job_id st4 = jid).
  { cbn [slurm_port spawn_pending authenticator files slurm_job_id st4 set_slurm_job_id
           set_trace set_env].
    split_and!; try done.
    - rewrite Hst2, Hst1. reflexivity.
    - rewrite Hst2, Hst1. reflexivity.
    - rewrite Hst2. exact Hcase. }
  destruct Hrec4 as (Hp4 & Hsp4 & Hcu4 & Hf4 & Hj4).
  assert (Hlate : forall (s : State Env) (tl : list Event),
            only_talked st4 s -> trace s = trace st4 ++ tl -> Forall no_submission tl ->
            cancel_attempts (trace s) = cancel_attempts (trace st4) ->
            (exists tr, trace s = trace st ++ tr) /\
            cancel_attempts (trace s) = cancel_attempts (trace st) /\
            submissions (trace s) = (submissions (trace st) + 1)%nat /\
            slurm_port s = slurm_port st /\
            spawn_pending s = spawn_pending st /\
            slurm_job_id s = jid /\
            custom (authenticator s) = false /\
            files s !! hash_file_of pw' = Some (Py.str (digit_sum (N.to_uint port)))).
  { intros s tl Hts Htl Hall Hca.
    destruct (only_talked_record _ _ Hts) as (Hj & Hp & Hsp & _ & _ & Hf & Ha & _).
    rewrite Hj, Hp, Hsp, Hf, Ha, Hca, Htl, Ht4.
    split_and!; try done.
    - rewrite <- app_assoc. by eexists.
    - by rewrite cancel_attempts_snoc, sbatch_is_no_cancel.
    - by apply Hsb. }
  (* the wait *)
  destruct (check_state_spec st4) as (s & st5 & tr5 & Hc & Ht5 & Htr5 & Hall5 & Hca5 & Hempty).
  rewrite (bind_return _ _ _ _ _ Hc) in Hrun.
  assert (Hno5 : Forall no_submission tr5)
    by (eapply Forall_impl; [exact Hall5|]; intros e; apply about_job_no_submission).
  assert (Hwaited : forall (ow : Outcome unit) (s6 : State Env),
            wait_until_running fuel s st5 = (ow, s6) ->
            only_talked st4 s6 /\
            (exists tl, trace s6 = trace st4 ++ tl /\ Forall no_submission tl) /\
            cancel_attempts (trace s6) = cancel_attempts (trace st4) /\
            (ow = Return tt -> jid ≠ "")).
  { intros ow s6 Hwait.
    destruct (wait_until_running_spec _ _ _ _ _ Hwait)
      as (Ht6 & (tr6 & Htr6 & Hall6) & Hca6 & Hret & _).
    destruct (only_talked_record _ _ Ht5) as (Hj5 & _).
    split_and!.
    - eapply only_talked_trans; eassumption.
    - exists (tr5 ++ tr6). rewrite Htr6, Htr5, <- app_assoc. split; [done|].
      by rewrite Forall_app.
    - by rewrite Hca6, Hca5.
    - intros Ho Hje. destruct (Hret Ho) as [Hr|Hr].
      + rewrite <- Hj4 in Hje. destruct (Hempty Hje) as [-> _]. done.
      + apply Hr. by rewrite Hj5, Hj4. }
  inv_bind Hrun u st6 Hwait Hrun;
    destruct (Hwaited _ _ Hwait) as (Ht6 & (tl6 & Htl6 & Hall6) & Hca6 & Hne6).
  2,3: destruct (Hlate _ _ Ht6 Htl6 Hall6 Hca6) as (? & ? & ? & ? & ? & _);
       split_and!; try done; by right.
  (* the node *)
  destruct u. specialize (Hne6 eq_refl).
  rewrite (bind_return _ _ st6 st6 (slurm_job_id st6)) in Hrun by reflexivity.
  destruct (get_slurm_job_info_runs (slurm_job_id st6) st6)
    as (info & st7 & tr7 & Hinfo & Ht7 & Htr7 & Hall7 & Hca7 & _ & Hshape).
  rewrite (bind_return _ _ _ _ _ Hinfo) in Hrun.
  destruct (Hlate st7 (tl6 ++ tr7)) as (Htr & Hcan & Hsubm & Hport & Hsp & Hjob & Hcus & Hfil).
  { eapply only_talked_trans; eassumption. }
  { by rewrite Htr7, Htl6, <- app_assoc. }
  { by rewrite Forall_app. }
  { by rewrite Hca7, Hca6. }
  destruct Hshape as [->|(ip & name & -> & _ & _)]; run_all; injection Hrun as <- <-.
  - split_and!; try done; by right.
  - cbn [trace slurm_port spawn_pending slurm_job_id server_ip server_port authenticator
           files set_server_ip set_server_port].
    split_and!; try done; [by right|].
    intros jid' [= <-]. split_and!; try done; [by rewrite Hjob|by exists pw'].
Qed.

(** X12. When [_run_jupyterhub_singleuser] returns a job id, that id is
    not empty and is the one in the record, the server has an address and
    the port that was passed in, exactly one [sbatch] and no [scancel]
    was run, the custom request is marked as served, and the hash file of
    the user holds the digit sum of the port. *)
Theorem run_success_postcondition (fuel : nat) (cmd : string) (port : N) (user : string)
    (st st' : State Env) (jid : string) :
  _run_jupyterhub_singleuser fuel cmd port user st = (Return jid, st') ->
  slurm_job_id st' = jid /\ jid ≠ "" /\
  is_Some (server_ip st') /\ server_port st' = PortInt port /\
  submissions (trace st') = (submissions (trace st) + 1)%nat /\
  cancel_attempts (trace st') = cancel_attempts (trace st) /\
  custom (authenticator st') = false /\
  exists pw, passwd st !! user = Some pw /\
    files st' !! hash_file_of pw = Some (Py.str (digit_sum (N.to_uint port))).
Proof.
  intros Hrun.
  destruct (run_outcome _ _ _ _ _ _ _ Hrun) as (_ & Hca & _ & _ & _ & Hret).
  destruct (Hret jid eq_refl) as (Hj & Hne & Hip & Hport & Hsub & Hcus & Hfile).
  by split_and!.
Qed.

(** X13. However [_run_jupyterhub_singleuser] ends (it returns, it
    raises, or the wait goes on), it has run [sbatch] at most once and no
    [scancel], it has only added to the record of commands, and it has
    left [slurm_port] and [spawn_pending] as they were. *)
Theorem run_submits_at_most_once (fuel : nat) (cmd : string) (port : N) (user : string)
    (st st' : State Env) (r : Outcome string) :
  _run_jupyterhub_singleuser fuel cmd port user st = (r, st') ->
  (exists tr, trace st' = trace st ++ tr) /\
  (submissions (trace st') <= submissions (trace st) + 1)%nat /\
  cancel_attempts (trace st') = cancel_attempts (trace st) /\
  slurm_port st' = slurm_port st /\
  spawn_pending st' = spawn_pending st.
Proof.
  intros Hrun.
  destruct (run_outcome _ _ _ _ _ _ _ Hrun) as (Htr & Hca & Hsub & Hp & Hsp & _).
  split_and!; try done. lia.
Qed.

(** *** [start] as a whole *)

Lemma query_is_quiet (user jobname stdin : string) :
  no_submission (Popen ("squeue -h -u " +:+ user +:+ " --name=" +:+ jobname
                          +:+ " -O jobid,comment,state,reason") stdin) /\
  runs "scancel " (Popen ("squeue -h -u " +:+ user +:+ " --name=" +:+ jobname
                            +:+ " -O jobid,comment,state,reason") stdin) = false.
Proof. by repeat split. Qed.

(** Every way [query_slurm_by_jobname] can end. *)
Lemma query_inv (user jobname : string) (st s : State Env)
    (o : Outcome (string * string * string * Reason)) :
  query_slurm_by_jobname user jobname st = (o, s) ->
  only_talked st s /\
  trace s = trace st ++ [Popen ("squeue -h -u " +:+ user +:+ " --name=" +:+ jobname
                                  +:+ " -O jobid,comment,state,reason") ""] /\
  match o with
  | Return (j, p, state, reason) =>
      (j = "" /\ p = "" /\ state = "" /\ reason = ReasonText "") \/
      (j ≠ "" /\ p ≠ "" /\ state ≠ "" /\ exists l, reason = ReasonTokens l)
  | Raise e => e = IndexError
  | OutOfFuel => False
  end.
Proof.
  destruct (popen ("squeue -h -u " +:+ user +:+ " --name=" +:+ jobname
                     +:+ " -O jobid,comment,state,reason") "" (env st)) as [out e1] eqn:Hq.
  pose proof (split_ws_words (Py.strip (Py.strip out))) as Hwords.
  unfold query_slurm_by_jobname.
  rewrite (bind_return _ _ _ _ _ (run_command_runs _ _ _ _ Hq)).
  destruct (Py.split_ws (Py.strip (Py.strip out))) as [|j [|p [|state reason]]];
    run_all; cbn [bool_decide decide_rel length]; intros [= <- <-];
    (split; [apply only_talked_said|]); (split; [reflexivity|]); try done.
  - left. done.
  - right.
    inversion Hwords as [|? ? [Hj _] Hw1]; subst.
    inversion Hw1 as [|? ? [Hp _] Hw2]; subst.
    inversion Hw2 as [|? ? [Hs _] _]; subst.
    split_and!; try done. by eexists.
Qed.

Lemma reads_only_get_env : reads_only (get_env : M Env (gmap string string)).
Proof.
  unfold get_env, user_env.
  repeat first [apply reads_only_getpwnam
               | apply reads_only_bind; [|intros ?; cbn beta zeta]
               | apply reads_only_or_raise
               | apply reads_only_get | apply reads_only_mret].
Qed.

(** Every way the new submission of [start] can end. *)
Lemma start_new_job_outcome (fuel : nat) (st st' : State Env) (r : Outcome unit) :
  start_new_job fuel st = (r, st') ->
  (exists tr, trace st' = trace st ++ tr) /\
  cancel_attempts (trace st') = cancel_attempts (trace st) /\
  (submissions (trace st') <= submissions (trace st) + 1)%nat /\
  slurm_port st' = slurm_port st /\
  (r = Return tt ->
     slurm_job_id st' ≠ "" /\ is_Some (server_ip st') /\
     submissions (trace st') = (submissions (trace st) + 1)%nat /\
     exists p, server_port st' = PortInt p).
Proof.
  intros Hrun. unfold start_new_job in Hrun.
  rewrite (bind_return _ _ st st (cfg st)) in Hrun by reflexivity.
  destruct (random_port (env st)) as [p e1] eqn:Hport.
  rewrite (bind_return _ _ st (set_env e1 st) p) in Hrun
    by (unfold pick_port; by rewrite Hport).
  rewrite (bind_return _ _ _ (set_server_port (PortInt p) (set_env e1 st)) tt) in Hrun
    by reflexivity.
  set (st2 := set_server_port (PortInt p) (set_env e1 st)) in *.
  assert (Hquiet : forall o : Outcome unit, o ≠ Return tt ->
            (exists tr, trace st2 = trace st ++ tr) /\
            cancel_attempts (trace st2) = cancel_attempts (trace st) /\
            (submissions (trace st2) <= submissions (trace st) + 1)%nat /\
            slurm_port st2 = slurm_port st /\
            (o = Return tt ->
               slurm_job_id st2 ≠ "" /\ is_Some (server_ip st2) /\
               submissions (trace st2) = (submissions (trace st) + 1)%nat /\
               exists p, server_port st2 = PortInt p)).
  { intros o Ho. cbn [trace slurm_port st2 set_server_port set_env].
    split_and!; try done; [exists []; by rewrite app_nil_r|lia]. }
  inv_bind Hrun e s0 Ha Hrun;
    [destruct (reads_only_get_env _ _ _ Ha) as [-> _]
    |destruct (reads_only_get_env _ _ _ Ha) as [-> _]; by apply Hquiet
    |by destruct (reads_only_get_env _ _ _ Ha)].
  clear Ha.
  inv_bind Hrun e' s0 Ha Hrun;
    [destruct (reads_only_get_env _ _ _ Ha) as [-> _]
    |destruct (reads_only_get_env _ _ _ Ha) as [-> _]; by apply Hquiet
    |by destruct (reads_only_get_env _ _ _ Ha)].
  clear Ha.
  inv_bind Hrun tok s0 Ha Hrun;
    [destruct (reads_only_or_raise _ _ _ _ _ Ha) as [-> _]
    |destruct (reads_only_or_raise _ _ _ _ _ Ha) as [-> _]; by apply Hquiet
    |by destruct (reads_only_or_raise _ _ _ _ _ Ha)].
  clear Ha.
  rewrite (bind_return _ _ st2 (set_trace (trace st2 ++ [DbCommit]) st2) tt) in Hrun
    by reflexivity.
  set (st3 := set_trace (trace st2 ++ [DbCommit]) st2) in *.
  assert (Ht3 : trace st3 = trace st ++ [DbCommit]) by reflexivity.
  assert (Hsub3 : submissions (trace st3) = submissions (trace st))
    by (rewrite Ht3, submissions_app; cbn; lia).
  assert (Hca3 : cancel_attempts (trace st3) = cancel_attempts (trace st))
    by (rewrite Ht3, cancel_attempts_snoc; cbn; lia).
  inv_bind Hrun jid s4 Ha Hrun; unfold run_jupyterhub_singleuser in Ha;
    destruct (run_outcome _ _ _ _ _ _ _ Ha) as ((tr & Htr) & Hca & Hsub & Hp & _ & Hret);
    rewrite Hsub3 in Hsub; rewrite Hca3 in Hca;
    match type of Htr with
    | trace ?s = _ =>
        assert (Hext : exists tr0, trace s = trace st ++ tr0)
          by (rewrite Htr, Ht3, <- app_assoc; by eexists)
    end.
  - run_all. injection Hrun as <- <-.
    destruct (Hret jid eq_refl) as (Hj & Hne & Hip & Hsp & Hsub1 & _).
    rewrite Hsub3 in Hsub1.
    split_and!; try done; [lia|].
    intros _. split_and!; try done; [by rewrite Hj|by eexists].
  - split_and!; try done. lia.
  - split_and!; try done. lia.
Qed.

(** X14. However [start] ends, it has run [sbatch] at most once and
    [scancel] at most once, and it has only added to the record of
    commands.  When it returns, a job is tracked (the job id is not
    empty) and nothing was cancelled. *)
Theorem start_submits_at_most_once (fuel : nat) (st st' : State Env) (r : Outcome unit) :
  start fuel st = (r, st') ->
  (exists tr, trace st' = trace st ++ tr) /\
  (submissions (trace st') <= submissions (trace st) + 1)%nat /\
  (cancel_attempts (trace st') <= cancel_attempts (trace st) + 1)%nat /\
  (r = Return tt ->
     slurm_job_id st' ≠ "" /\ cancel_attempts (trace st') = cancel_attempts (trace st)).
Proof.
  intros Hrun. unfold start in Hrun.
  rewrite (bind_return _ _ st st (cfg st)) in Hrun by reflexivity.
  set (q := Popen ("squeue -h -u " +:+ user_name (cfg st) +:+ " --name=" +:+ job_name (cfg st)
                     +:+ " -O jobid,comment,state,reason") "").
  assert (Hq : submissions (trace st ++ [q]) = submissions (trace st) /\
               cancel_attempts (trace st ++ [q]) = cancel_attempts (trace st)).
  { assert (Hqs : submissions [q] = 0%nat) by reflexivity.
    rewrite submissions_app, Hqs, cancel_attempts_snoc.
    assert (runs "scancel " q = false) as -> by reflexivity. lia. }
  destruct Hq as [Hs0 Hc0].
  inv_bind Hrun found s1 Hquery Hrun; destruct (query_inv _ _ _ _ _ Hquery) as (Ht1 & Htr1 & Hshape).
  2,3: fold q in Htr1; rewrite Htr1, Hs0, Hc0; split_and!; try done; try lia; by eexists.
  fold q in Htr1. clear Hquery Hshape.
  destruct found as [[[j p] state] reason].
  destruct (if String.eqb state "COMPLETING" then ("", "") else (j, p)) as [j' p'].
  rewrite (bind_return _ _ s1 (set_slurm_job_id j' s1) tt) in Hrun by reflexivity.
  rewrite (bind_return _ _ _ (set_server_port (PortStr p') (set_slurm_job_id j' s1)) tt) in Hrun
    by reflexivity.
  set (st2 := set_server_port (PortStr p') (set_slurm_job_id j' s1)) in *.
  assert (Ht2 : trace st2 = trace st ++ [q]) by exact Htr1.
  assert (Hfrom2 : forall (s : State Env) (tr : list Event) (n : nat),
            trace s = trace st2 ++ tr ->
            (submissions (trace s) <= submissions (trace st2) + 1)%nat ->
            cancel_attempts (trace s) = (cancel_attempts (trace st2) + n)%nat ->
            (n <= 1)%nat ->
            (exists tr, trace s = trace st ++ tr) /\
            (submissions (trace s) <= submissions (trace st) + 1)%nat /\
            (cancel_attempts (trace s) <= cancel_attempts (trace st) + 1)%nat /\
            (n = 0%nat -> cancel_attempts (trace s) = cancel_attempts (trace st))).
  { intros s tr n Htr Hs Hc Hn.
    rewrite Ht2 in *. rewrite Hs0 in Hs. rewrite Hc0 in Hc.
    split_and!; try lia. rewrite Htr, <- app_assoc. by eexists. }
  destruct (reason_has "failed" reason).
  - (* a stuck job *)
    destruct (stop_job_full st2) as (r2 & st3 & tr2 & Hstop & Ht3 & Htr3 & Hall3 & Hr2).
    assert (Hno3 : Forall no_submission tr2)
      by (eapply Forall_impl; [exact Hall3|]; intros e; apply about_job_no_submission).
    destruct r2 as [b|e|]; [| |done].
    + rewrite (bind_return _ _ _ _ _ Hstop) in Hrun. unfold clear_state in Hrun. run_all.
      injection Hrun as <- <-. cbn [trace slurm_job_id set_slurm_job_id set_slurm_port
                                     set_spawn_pending set_trace].
      destruct Hr2 as [Hn _].
      destruct (Hfrom2 (set_trace (trace st3 ++ [DbCommit]) st3) (tr2 ++ [DbCommit])
                  (if String.eqb (slurm_job_id st2) "" then 0 else 1)%nat)
        as (Hext & Hsub & Hca & _).
      * cbn [trace set_trace]. by rewrite Htr3, <- app_assoc.
      * cbn [trace set_trace]. rewrite Htr3, <- app_assoc.
        rewrite submissions_no_submission; [lia|].
        rewrite Forall_app. split; [done|by repeat constructor].
      * cbn [trace set_trace]. rewrite cancel_attempts_snoc. cbn [runs]. lia.
      * destruct (String.eqb (slurm_job_id st2) ""); lia.
      * cbn [trace set_trace] in *. by split_and!.
    + rewrite (bind_raise _ _ _ _ _ Hstop) in Hrun. injection Hrun as <- <-.
      destruct Hr2 as (_ & Hn & _).
      destruct (Hfrom2 st3 tr2 1%nat) as (Hext & Hsub & Hca & _); try done.
      rewrite Htr3. rewrite submissions_no_submission by done. lia.
  - destruct (negb (String.eqb j' "") && negb (String.eqb p' "")) eqn:Hfound.
    + (* an adopted job *)
      destruct (get_slurm_job_info_runs j' st2)
        as (info & st3 & tr3 & Hinfo & Ht3 & Htr3 & Hall3 & Hca3 & _).
      rewrite (bind_return _ _ _ _ _ Hinfo) in Hrun. destruct info as [ip name].
      run_all. injection Hrun as <- <-.
      destruct (Hfrom2 (set_server_ip ip st3) tr3 0%nat) as (Hext & Hsub & Hca & Hsame);
        try done; try lia.
      * cbn [trace set_server_ip]. rewrite Htr3.
        rewrite submissions_no_submission by done. lia.
      * cbn [trace set_server_ip]. lia.
      * split_and!; try done. intros _. split; [|by apply Hsame].
        cbn [slurm_job_id set_server_ip].
        destruct (only_talked_record _ _ Ht3) as (-> & _).
        cbn [slurm_job_id st2 set_server_port set_slurm_job_id].
        apply andb_prop in Hfound as [Hj _].
        intros ->. done.
    + (* a new job *)
      destruct (start_new_job_outcome _ _ _ _ Hrun) as ((tr & Htr) & Hca & Hsub & _ & Hret).
      destruct (Hfrom2 st' tr 0%nat) as (Hext & Hsub' & Hca' & Hsame); try done; try lia.
      split_and!; try done. intros Hr. split; [|by apply Hsame].
      by destruct (Hret Hr).
Qed.

(** What is left of [start] once the query has printed a job that is
    not [COMPLETING]. *)
Lemma start_found (fuel : nat) (st : State Env) (o : string) (e1 : Env)
    (jobid port state : string) (reason : list string) :
  let q := "squeue -h -u " +:+ user_name (cfg st) +:+ " --name=" +:+ job_name (cfg st)
             +:+ " -O jobid,comment,state,reason" in
  popen q "" (env st) = (o, e1) ->
  Py.split_ws (Py.strip (Py.strip o)) = jobid :: port :: state :: reason ->
  state ≠ "COMPLETING" ->
  let st2 := set_server_port (PortStr port)
               (set_slurm_job_id jobid (set_trace (trace st ++ [Popen q ""]) (set_env e1 st))) in
  jobid ≠ "" /\ port ≠ "" /\
  start fuel st =
    (if bool_decide ("failed" ∈ reason)
     then _stop_slurm_job;; clear_state;; modify (set_spawn_pending false);; emit DbCommit;;
          raise (SlurmException "Slurm failed to launch job")
     else '(node_ip, node_name) ← get_slurm_job_info jobid; modify (set_server_ip node_ip)) st2.
Proof.
  intros q Hq Hcols Hs st2.
  pose proof (split_ws_words (Py.strip (Py.strip o))) as Hwords. rewrite Hcols in Hwords.
  inversion Hwords as [|? ? [Hj _] Hw1]; subst.
  inversion Hw1 as [|? ? [Hp _] _]; subst.
  split_and!; try done.
  unfold start.
  rewrite (bind_return _ _ st st (cfg st)) by reflexivity.
  rewrite (bind_return _ _ _ _ _ (query_columns _ _ _ _ _ _ _ _ _ Hq Hcols)).
  destruct (String.eqb_spec state "COMPLETING") as [|_]; [done|].
  rewrite (bind_return _ _ _ (set_slurm_job_id jobid
             (set_trace (trace st ++ [Popen q ""]) (set_env e1 st))) tt) by reflexivity.
  rewrite (bind_return _ _ _ st2 tt) by reflexivity.
  unfold reason_has. destruct (bool_decide ("failed" ∈ reason)); [reflexivity|].
  destruct (String.eqb_spec jobid "") as [|_]; [done|].
  destruct (String.eqb_spec port "") as [|_]; [done|].
  reflexivity.
Qed.

(** X15. When the first query of [start] prints a job that is not
    [COMPLETING], no job is submitted, however [start] ends.  [start]
    returns exactly when no reason word is [failed], and then it tracks
    the job and the port that were printed; otherwise it raises a
    [SlurmException]. *)
Theorem start_found_job_never_submits (fuel : nat) (st : State Env) (o : string) (e1 : Env)
    (jobid port state : string) (reason : list string) :
  popen ("squeue -h -u " +:+ user_name (cfg st) +:+ " --name=" +:+ job_name (cfg st)
           +:+ " -O jobid,comment,state,reason") "" (env st) = (o, e1) ->
  Py.split_ws (Py.strip (Py.strip o)) = jobid :: port :: state :: reason ->
  state ≠ "COMPLETING" ->
  exists r st',
    start fuel st = (r, st') /\
    submissions (trace st') = submissions (trace st) /\
    (r = Return tt <-> "failed" ∉ reason) /\
    (r = Return tt -> slurm_job_id st' = jobid /\ server_port st' = PortStr port) /\
    (r ≠ Return tt -> exists msg, r = Raise (SlurmException msg)).
Proof.
  intros Hq Hcols Hs.
  destruct (start_found fuel st o e1 jobid port state reason Hq Hcols Hs) as (Hj & Hp & Hstart).
  rewrite Hstart. clear Hstart.
  set (q := Popen _ "") in *. set (st2 := set_server_port _ _) in *.
  assert (Hsub2 : submissions (trace st2) = submissions (trace st)).
  { cbn [trace st2 set_server_port set_slurm_job_id set_trace set_env].
    apply submissions_no_submission. constructor; [apply query_is_quiet|constructor]. }
  destruct (decide ("failed" ∈ reason)) as [Hf|Hf].
  - rewrite (bool_decide_eq_true_2 _ Hf).
    destruct (stop_job_full st2) as (r2 & st3 & tr2 & Hstop & Ht3 & Htr3 & Hall3 & Hr2).
    assert (Hno3 : Forall no_submission tr2)
      by (eapply Forall_impl; [exact Hall3|]; intros e; apply about_job_no_submission).
    destruct r2 as [b|e|]; [| |done].
    + rewrite (bind_return _ _ _ _ _ Hstop). unfold clear_state. run_all.
      eexists _, _. split; [reflexivity|].
      cbn [trace set_slurm_job_id set_slurm_port set_spawn_pending set_trace].
      split_and!; try done.
      * rewrite Htr3, <- app_assoc, submissions_no_submission; [done|].
        rewrite Forall_app. split; [done|by repeat constructor].
      * intros _. by eexists.
    + rewrite (bind_raise _ _ _ _ _ Hstop).
      destruct Hr2 as (_ & _ & o2 & e2 & _ & _ & ->).
      eexists _, _. split; [reflexivity|]. split_and!; try done.
      * by rewrite Htr3, submissions_no_submission.
      * intros _. by eexists.
  - rewrite (bool_decide_eq_false_2 _ Hf).
    destruct (get_slurm_job_info_runs jobid st2)
      as (info & st3 & tr3 & Hinfo & Ht3 & Htr3 & Hall3 & _).
    rewrite (bind_return _ _ _ _ _ Hinfo). destruct info as [ip name]. run_all.
    eexists _, _. split; [reflexivity|].
    cbn [trace slurm_job_id server_port set_server_ip].
    destruct (only_talked_record _ _ Ht3) as (-> & _ & _ & _ & -> & _).
    split_and!; try done.
    by rewrite Htr3, submissions_no_submission.
Qed.

(** X16. A job found with the reason word [failed] (and not
    [COMPLETING]) is cancelled by [start], with one [scancel] of its job
    id.  When [scancel] is silent, [start] raises "Slurm failed to launch
    job" with the job id and the port cleared, [spawn_pending] reset and
    the change committed; when [scancel] prints something, [start] raises
    the error of the cancel and the job id stays in the record. *)
Theorem start_cancels_stuck_job (fuel : nat) (st : State Env) (o o2 : string) (e1 e2 : Env)
    (jobid port state : string) (reason : list string) :
  popen ("squeue -h -u " +:+ user_name (cfg st) +:+ " --name=" +:+ job_name (cfg st)
           +:+ " -O jobid,comment,state,reason") "" (env st) = (o, e1) ->
  Py.split_ws (Py.strip (Py.strip o)) = jobid :: port :: state :: reason ->
  state ≠ "COMPLETING" ->
  "failed" ∈ reason ->
  popen ("scancel " +:+ jobid) "" e1 = (o2, e2) ->
  exists r st',
    start fuel st = (r, st') /\
    cancel_attempts (trace st') = (cancel_attempts (trace st) + 1)%nat /\
    (Py.strip o2 = "" ->
     r = Raise (SlurmException "Slurm failed to launch job") /\
     slurm_job_id st' = "" /\ slurm_port st' = "" /\ spawn_pending st' = false /\
     last (trace st') = Some DbCommit) /\
    (Py.strip o2 ≠ "" ->
     r = Raise (SlurmException ("Failed to cancel job " +:+ jobid
                                  +:+ ": slurm output: " +:+ Py.strip o2)) /\
     slurm_job_id st' = jobid /\ spawn_pending st' = spawn_pending st).
Proof.
  intros Hq Hcols Hs Hf Hcancel.
  destruct (start_found fuel st o e1 jobid port state reason Hq Hcols Hs) as (Hj & Hp & Hstart).
  rewrite Hstart, (bool_decide_eq_true_2 _ Hf). clear Hstart.
  set (st2 := set_server_port _ _) in *.
  assert (Hca2 : cancel_attempts (trace st2) = cancel_attempts (trace st)).
  { cbn [trace st2 set_server_port set_slurm_job_id set_trace set_env].
    rewrite cancel_attempts_snoc. by rewrite (proj2 (query_is_quiet _ _ _)). }
  destruct (stop_job_full st2) as (r2 & st3 & tr2 & Hstop & Ht3 & Htr3 & Hall3 & Hr2).
  destruct (only_talked_record _ _ Ht3) as (Hj3 & _ & Hsp3 & _).
  cbn [slurm_job_id env st2 set_server_port set_slurm_job_id set_trace set_env] in Hr2.
  destruct (String.eqb_spec jobid "") as [|_]; [done|].
  destruct r2 as [b|e|]; [| |done].
  - destruct Hr2 as [Hn _].
    rewrite (bind_return _ _ _ _ _ Hstop). unfold clear_state. run_all.
    eexists _, _. split; [reflexivity|].
    cbn [trace slurm_job_id slurm_port spawn_pending set_slurm_job_id set_slurm_port
           set_spawn_pending set_trace].
    split_and!.
    + rewrite cancel_attempts_snoc. cbn [runs]. lia.
    + intros _. split_and!; try done. by rewrite last_snoc.
    + intros Hne. exfalso.
      (* a cancel that prints raises: the attempt cannot have returned *)
      revert Hstop. unfold _stop_slurm_job. run.
      cbn [slurm_job_id st2 set_server_port set_slurm_job_id].
      destruct (String.eqb_spec jobid "") as [|_]; [done|].
      rewrite (run_command_runs _ o2 e2) by exact Hcancel.
      destruct (String.eqb_spec (Py.strip o2) "") as [|_]; [done|]. done.
  - destruct Hr2 as (_ & Hn & o3 & e3 & Hp3 & Ho3 & ->).
    rewrite Hcancel in Hp3. injection Hp3 as <- <-.
    rewrite (bind_raise _ _ _ _ _ Hstop).
    eexists _, _. split; [reflexivity|].
    split_and!.
    + lia.
    + intros He. by destruct Ho3.
    + intros _. split_and!; try done.
Qed.

Lemma join_cons (sep x : string) (l : list string) :
  Py.join sep (x :: l) = match l with [] => x | _ => x +:+ sep +:+ Py.join sep l end.
Proof. by destruct l. Qed.

Lemma join_no_semicolon (l : list string) :
  Forall (fun a => Py.contains ";" a = false) l -> Py.contains ";" (Py.join " " l) = false.
Proof.
  induction 1 as [|a l Ha Hl IH]; [done|].
  rewrite join_cons. destruct l as [|b l]; [done|].
  rewrite !contains_char_app, Ha, IH. reflexivity.
Qed.

(** X17. The command that [start] builds, the export of the API token
    followed by [;] and the words of the server command, always splits:
    [split_cmd] never raises on it.  When neither the token nor the words
    hold a [;], the export line is the export of the token and the
    launch line is a blank followed by the words joined by blanks (it is
    empty when there are no words). *)
Theorem start_command_splits (tok : string) (args : list string) (st : State Env) :
  let export := "export JPY_API_TOKEN=" +:+ Py.dq +:+ tok +:+ Py.dq in
  let cmd := Py.join " " ((export +:+ ";") :: args) in
  (exists export_cmd launch_cmd, split_cmd cmd st = (Return (export_cmd, launch_cmd), st)) /\
  (Py.contains ";" tok = false ->
   Forall (fun a => Py.contains ";" a = false) args ->
   split_cmd cmd st =
     (Return (export, match args with [] => "" | _ => " " +:+ Py.join " " args end), st)).
Proof.
  intros export cmd.
  set (rest := match args with [] => "" | _ => " " +:+ Py.join " " args end).
  assert (Hcmd : cmd = export +:+ String ";" rest).
  { unfold cmd, rest. rewrite join_cons. destruct args as [|a l]; [done|].
    by rewrite append_assoc. }
  assert (Hsplit : Py.split ";" cmd = Py.split ";" export ++ Py.split ";" rest)
    by (rewrite Hcmd; apply split_app_sep).
  split.
  - pose proof (split_nonempty ";" export) as Hne1.
    pose proof (split_nonempty ";" rest) as Hne2.
    unfold split_cmd. rewrite Hsplit. run_all.
    destruct (Py.split ";" export) as [|x [|y t]]; [done| |by eexists _, _].
    destruct (Py.split ";" rest) as [|z t]; [done|]. by eexists _, _.
  - intros Htok Hargs.
    assert (He : Py.contains ";" export = false).
    { unfold export. rewrite !contains_char_app, Htok. reflexivity. }
    assert (Hr : Py.contains ";" rest = false).
    { unfold rest. destruct args as [|a l]; [done|].
      rewrite contains_char_app, (join_no_semicolon _ Hargs). reflexivity. }
    unfold split_cmd. rewrite Hsplit.
    rewrite (split_without_sep ";" export He), (split_without_sep ";" rest Hr).
    reflexivity.
Qed.

(** *** A job that is found without a node, or while it completes *)

(** Had the query printed nothing, [start] would go on to a new job. *)
Lemma start_nothing_found (fuel : nat) (st : State Env) (o : string) (e1 : Env) :
  let q := "squeue -h -u " +:+ user_name (cfg st) +:+ " --name=" +:+ job_name (cfg st)
             +:+ " -O jobid,comment,state,reason" in
  popen q "" (env st) = (o, e1) ->
  Py.split_ws (Py.strip (Py.strip o)) = [] ->
  start fuel st =
    start_new_job fuel
      (set_server_port (PortStr "")
         (set_slurm_job_id "" (set_trace (trace st ++ [Popen q ""]) (set_env e1 st)))).
Proof.
  intros q Hq Hnone. unfold start.
  rewrite (bind_return _ _ st st (cfg st)) by reflexivity.
  rewrite (bind_return _ _ _ _ _
             (query_nothing (user_name (cfg st)) (job_name (cfg st)) o e1 st Hq Hnone)).
  cbn [String.eqb].
  erewrite bind_return by reflexivity.
  erewrite bind_return by reflexivity.
  reflexivity.
Qed.

(** C5 on the code.  A job that is found and for which [squeue] names no
    node, as for a job that is still pending, is adopted all the same:
    [start] returns with [None] for the server's address, having run
    the query and the node query and nothing else.  The path that
    submits a new job does not do so: it returns only with an address. *)
Theorem start_reattaches_without_address (fuel : nat) (st : State Env) (o n : string)
    (e1 e2 : Env) (jobid port state : string) (reason : list string) :
  let q := "squeue -h -u " +:+ user_name (cfg st) +:+ " --name=" +:+ job_name (cfg st)
             +:+ " -O jobid,comment,state,reason" in
  let nq := "squeue -h -j " +:+ jobid +:+ " -o %N" in
  popen q "" (env st) = (o, e1) ->
  Py.split_ws (Py.strip (Py.strip o)) = jobid :: port :: state :: reason ->
  jobid ≠ "" -> port ≠ "" -> state ≠ "COMPLETING" -> "failed" ∉ reason ->
  popen nq "" e1 = (n, e2) ->
  Py.bytes_strip n = "" ->
  (exists st',
     start fuel st = (Return tt, st') /\
     server_ip st' = None /\
     slurm_job_id st' = jobid /\
     server_port st' = PortStr port /\
     submissions (trace st') = submissions (trace st) /\
     trace st' = trace st ++ [Popen q ""; Popen nq ""]) /\
  (forall fuel0 (st0 st0' : State Env),
     start_new_job fuel0 st0 = (Return tt, st0') -> is_Some (server_ip st0')).
Proof.
  intros q nq Hq Hcols Hj Hp Hs Hr Hn He. split.
  - destruct (start_adopts_found_job fuel st o n e1 e2 jobid port state reason
                Hq Hcols Hj Hp Hs Hr Hn) as (st' & Hstart & Hsub & Hjid & Hport & Hnone & _).
    destruct (Hnone He) as [Hip Htr].
    exists st'. by split_and!.
  - intros fuel0 st0 st0' Hnew.
    destruct (start_new_job_outcome fuel0 st0 st0' (Return tt) Hnew)
      as (_ & _ & _ & _ & Hret).
    by destruct (Hret eq_refl) as (_ & Hip & _).
Qed.

(** C9 on the code.  When the first query reports [COMPLETING] with the
    reason word [failed], the job id and the port are reset, but the
    reason words are not: [start] takes the branch of a stuck job, runs
    no [scancel] (the job id is empty by then) and no [sbatch], and
    raises, where it would have gone on to a new job had the query
    printed nothing. *)
Theorem start_completing_stale_reason (fuel : nat) (st : State Env) (o : string) (e1 : Env)
    (jobid port : string) (reason : list string) :
  let q := "squeue -h -u " +:+ user_name (cfg st) +:+ " --name=" +:+ job_name (cfg st)
             +:+ " -O jobid,comment,state,reason" in
  popen q "" (env st) = (o, e1) ->
  Py.split_ws (Py.strip (Py.strip o)) = jobid :: port :: "COMPLETING" :: reason ->
  "failed" ∈ reason ->
  (exists st',
     start fuel st = (Raise (SlurmException "Slurm failed to launch job"), st') /\
     trace st' = trace st ++ [Popen q ""; DbCommit] /\
     submissions (trace st') = submissions (trace st) /\
     cancel_attempts (trace st') = cancel_attempts (trace st) /\
     slurm_job_id st' = "" /\ slurm_port st' = "" /\ spawn_pending st' = false) /\
  (forall (absent : Env) (nothing : string),
     popen q "" absent = (nothing, e1) ->
     Py.split_ws (Py.strip (Py.strip nothing)) = [] ->
     start fuel (set_env absent st) =
       start_new_job fuel
         (set_server_port (PortStr "")
            (set_slurm_job_id "" (set_trace (trace st ++ [Popen q ""]) (set_env e1 st))))).
Proof.
  intros q Hq Hcols Hr. split.
  - eexists. split.
    + unfold start.
      rewrite (bind_return _ _ st st (cfg st)) by reflexivity.
      rewrite (bind_return _ _ _ _ _ (query_columns _ _ _ _ _ _ _ _ _ Hq Hcols)).
      cbn [String.eqb Ascii.eqb Bool.eqb andb].
      rewrite (bind_return _ _ _ (set_slurm_job_id ""
                 (set_trace (trace st ++ [Popen q ""]) (set_env e1 st))) tt) by reflexivity.
      erewrite bind_return by reflexivity.
      unfold reason_has. rewrite (bool_decide_eq_true_2 _ Hr).
      reflexivity.
    + cbn [trace slurm_job_id slurm_port spawn_pending set_trace set_env set_server_port
             set_slurm_job_id set_slurm_port set_spawn_pending].
      rewrite <- app_assoc. cbn [app].
      split_and!; try done.
      * rewrite submissions_app.
        match goal with |- (_ + ?x)%nat = _ => assert (x = 0%nat) as -> by reflexivity end.
        lia.
      * change (trace st ++ [?x; ?y]) with (trace st ++ [x] ++ [y]). rewrite app_assoc.
        rewrite !cancel_attempts_snoc. unfold q.
        rewrite (proj2 (query_is_quiet _ _ _)). cbn [runs]. lia.
  - intros absent nothing Ha Hnone.
    exact (start_nothing_found fuel (set_env absent st) nothing e1 Ha Hnone).
Qed.
End Properties.

(** ** The theorems at concrete inputs *)

Lemma state_hooks_round_trip_witness :
  exists saved st' cleared,
    get_state ∅ (alice "42" []) = (Return saved, alice "42" []) /\
    saved !! "slurm_job_id" = Some "42" /\
    saved !! "slurm_port" = None /\
    load_state saved (alice "" []) = (Return tt, st') /\
    slurm_job_id st' = "42" /\ slurm_port st' = "" /\
    clear_state (alice "42" []) = (Return tt, cleared) /\
    slurm_job_id cleared = "".
Proof.
  destruct (state_hooks_round_trip (∅ : gmap string string) (alice "42" []) (alice "" []))
    as (saved & st' & cl & Hg & Hj & Hp & _ & Hl & Hlj & Hlp & _ & Hc & Hcj & _).
  - reflexivity.
  - reflexivity.
  - exists saved, st', cl. repeat split; assumption.
Defined.

Lemma poll_without_job_id_witness :
  exists st',
    poll (alice "" ["RUNNING"]) = (Return (Some 127), st') /\
    trace st' = [] /\
    poll st' = (Return (Some 127), st').
Proof.
  destruct (poll_without_job_id (alice "" ["RUNNING"])) as (st' & Hp & _ & _ & Ht & _ & _ & Hp').
  - reflexivity.
  - exists st'. repeat split; assumption.
Defined.

Lemma pending_reason_decides_witness :
  (exists st', check_slurm_job_state (alice "7" ["PENDING"; "launch failed requeued held"])
               = (Return "FAILED", st')) /\
  (exists st', check_slurm_job_state (alice "7" ["PENDING"; "Resources"])
               = (Return "PENDING", st')).
Proof.
  split.
  - destruct (pending_reason_decides (alice "7" ["PENDING"; "launch failed requeued held"])
                "PENDING" "launch failed requeued held"
                {| replies := ["launch failed requeued held"]; free_port := 9123 |}
                {| replies := []; free_port := 9123 |})
      as (s & st' & Hc & _ & Hf & _); [done|reflexivity|reflexivity|reflexivity|].
    exists st'. rewrite Hc. by rewrite Hf.
  - destruct (pending_reason_decides (alice "7" ["PENDING"; "Resources"])
                "PENDING" "Resources"
                {| replies := ["Resources"]; free_port := 9123 |}
                {| replies := []; free_port := 9123 |})
      as (s & st' & Hc & _ & _ & Hp & _); [done|reflexivity|reflexivity|reflexivity|].
    exists st'. rewrite Hc. by rewrite Hp.
Defined.

Lemma launch_lines_from_split_witness :
  split_cmd "export A=1;srv --x=1" (alice "" []) = (Return ("export A=1", "srv --x=1"), alice "" []) /\
  split_cmd "export A=1;srv;echo bye" (alice "" []) = (Return ("export A=1", "srv"), alice "" []) /\
  split_cmd "srv" (alice "" []) = (Raise IndexError, alice "" []).
Proof.
  destruct (launch_lines_from_split (alice "" [])) as (Hs & Hn & _ & _).
  split_and!.
  - apply (Hs "export A=1" "srv --x=1" ""); [reflexivity|reflexivity|by left].
  - apply (Hs "export A=1" "srv" ";echo bye"); [reflexivity|reflexivity|by right].
  - apply Hn. reflexivity.
Defined.

Lemma hash_file_holds_digit_sum_witness :
  exists st',
    write_hash_file "alice" 9123 (alice "" []) = (Return tt, st') /\
    files st' !! "/tmp/jupyter/1000" = Some "15".
Proof.
  destruct (hash_file_holds_digit_sum (alice "" []) "alice"
              {| pw_uid := 1000; pw_gid := 100; pw_dir := "/home/alice" |} 9123)
    as (st' & Hrun & _ & Hf & _).
  - reflexivity.
  - set_solver.
  - exists st'. split; [exact Hrun|exact Hf].
Defined.

(** The scenario of a cancel that prints an error once: [stop] raises at
    the first attempt, makes no second one, and keeps the job id. *)
Lemma stop_raises_on_cancel_output :
  let st := alice "42" ["scancel: error: Invalid job id 42"; ""; ""] in
  fst (stop false st) =
    Raise (SlurmException
             "Failed to cancel job 42: slurm output: scancel: error: Invalid job id 42") /\
  slurm_job_id (snd (stop false st)) = "42" /\
  cancel_attempts (trace (snd (stop false st))) = 1%nat.
Proof. vm_compute. done. Qed.

Lemma stop_graceful_one_retry_witness :
  let st := alice "42" [""; "RUNNING"; ""; ""] in
  exists st1 st',
    _stop_slurm_job st = (Return false, st1) /\
    stop false st = (Return tt, st') /\
    cancel_attempts (trace st') = 2%nat /\
    slurm_job_id st' = "" /\ slurm_port st' = "".
Proof.
  cbn zeta.
  destruct (stop_graceful_one_retry (alice "42" [""; "RUNNING"; ""; ""]))
    as (r & st' & Hstop & _ & _ & Htwo & _ & Hclear & _).
  assert (Hr : r = Return tt) by (vm_compute in Hstop; congruence).
  subst r. eexists _, st'. split; [vm_compute; reflexivity|].
  split; [exact Hstop|].
  split; [exact (proj2 (Htwo _ eq_refl))|]. exact (Hclear eq_refl).
Defined.

(** A wall time that is no number stops the submission with an error. *)
Lemma unparsable_wall_time_raises :
  let st := with_request
              {| custom := true; form_memory := 0; form_cpus := 0; form_tasks := 0;
                 form_time := "two hours"; form_nodes := 0 |}
              (alice "" ["Submitted batch job 1"; "RUNNING"; "cn1"; "cn1 has address 10.0.0.1"]) in
  _run_jupyterhub_singleuser 5 "export X=1;run-server --port 9123" 9123 "alice" st
    = (Raise ValueError, st).
Proof. vm_compute. reflexivity. Qed.

Lemma resources_override_or_default_witness :
  let st := with_request
              {| custom := true; form_memory := 2048; form_cpus := 64; form_tasks := 4;
                 form_time := "2-12:00:00"; form_nodes := 0 |}
              (alice "" []) in
  exists r st',
    choose_resources st = (Return r, st') /\
    r_memory r = 2048 /\ r_cpus r = 1 /\ r_ntasks r = 4 /\ r_nodes r = 1 /\
    r_stime r = "2-12:00:00".
Proof.
  cbn zeta.
  destruct (resources_override_or_default
              (with_request
                 {| custom := true; form_memory := 2048; form_cpus := 64; form_tasks := 4;
                    form_time := "2-12:00:00"; form_nodes := 0 |}
                 (alice "" []))) as (Hnum & _ & Htime & _).
  destruct (Htime "2" "12" "00" "00") as (r & st' & Hr & Hs & _).
  - reflexivity.
  - reflexivity.
  - split; [by eapply numeral_digit|by vm_compute].
  - split; [eapply numeral_more; [reflexivity|by eapply numeral_digit]|by vm_compute].
  - split; [eapply numeral_more; [reflexivity|by eapply numeral_digit]|by vm_compute].
  - split; [eapply numeral_more; [reflexivity|by eapply numeral_digit]|by vm_compute].
  - destruct (Hnum r st' Hr) as (Hm & _ & _ & Hc & Ht & _ & _ & Hn & _).
    exists r, st'. split; [exact Hr|].
    split; [apply Hm; split; [reflexivity|cbn; lia]|].
    split; [apply Hc; intros (_ & Hle); cbn in Hle; lia|].
    split; [apply Ht; split; [reflexivity|cbn; lia]|].
    split; [apply Hn; intros (_ & Hlt); cbn in Hlt; lia|].
    apply Hs. vm_compute. discriminate.
Defined.

Lemma start_adopts_found_job_ex :
  exists st',
    start 5 (alice "" ["12 8888 RUNNING None"; "cn7"; "cn7.cluster has address 10.0.0.7"])
      = (Return tt, st') /\
    submissions (trace st') = 0%nat /\
    slurm_job_id st' = "12" /\
    server_ip st' = Some "10.0.0.7".
Proof.
  destruct (start_adopts_found_job 5
              (alice "" ["12 8888 RUNNING None"; "cn7"; "cn7.cluster has address 10.0.0.7"])
              "12 8888 RUNNING None" "cn7"
              {| replies := ["cn7"; "cn7.cluster has address 10.0.0.7"]; free_port := 9123 |}
              {| replies := ["cn7.cluster has address 10.0.0.7"]; free_port := 9123 |}
              "12" "8888" "RUNNING" ["None"])
    as (st' & Hstart & Hsub & Hjid & _ & _ & Hip).
  - reflexivity.
  - reflexivity.
  - discriminate.
  - discriminate.
  - discriminate.
  - intros Hin. inversion Hin as [|? ? ? Hin']; inversion Hin'.
  - reflexivity.
  - exists st'. split; [exact Hstart|]. split; [exact Hsub|]. split; [exact Hjid|].
    destruct (Hip ltac:(discriminate) "cn7.cluster has address 10.0.0.7"
                {| replies := []; free_port := 9123 |} eq_refl) as (Hs & _).
    exact Hs.
Qed.

(** Everything after a second [;] is missing from the script. *)
Lemma launch_line_stops_at_second_semicolon :
  let st := alice "" ["Submitted batch job 1"; "RUNNING"; "cn1"; "cn1 has address 10.0.0.1"] in
  split_cmd "export X=1;run-server --port 9123;echo done" st
    = (Return ("export X=1", "run-server --port 9123"), st) /\
  match trace (snd (_run_jupyterhub_singleuser 5
                      "export X=1;run-server --port 9123;echo done" 9123 "alice" st)) with
  | Popen "sbatch" script :: _ =>
      Py.contains "run-server --port 9123" script = true /\
      Py.contains "echo done" script = false
  | _ => False
  end.
Proof. vm_compute. done. Qed.

Lemma start_completing_as_absent_ex :
  let later := ["Submitted batch job 13"; "RUNNING"; "cn1"; "cn1 has address 10.0.0.1"] in
  start 5 (alice "" ("12 8888 COMPLETING None" :: later)) = start 5 (alice "" ("" :: later)).
Proof.
  cbn zeta.
  destruct (start_completing_as_absent 5
              (alice "" ["12 8888 COMPLETING None"; "Submitted batch job 13"; "RUNNING";
                         "cn1"; "cn1 has address 10.0.0.1"])
              "12 8888 COMPLETING None"
              {| replies := ["Submitted batch job 13"; "RUNNING"; "cn1";
                             "cn1 has address 10.0.0.1"]; free_port := 9123 |}
              "12" "8888" ["None"])
    as (st1 & _ & _ & _ & _ & Habsent).
  - reflexivity.
  - reflexivity.
  - intros Hin. inversion Hin as [|? ? ? Hin']; inversion Hin'.
  - apply (Habsent {| replies := [""; "Submitted batch job 13"; "RUNNING"; "cn1";
                                  "cn1 has address 10.0.0.1"]; free_port := 9123 |} "");
      reflexivity.
Qed.

(** C3 on the code.  A job that is reported [FAILED] after its
    submission makes [start] raise with the job id still in the record,
    and so does a stuck job whose [scancel] prints an error; only the
    stuck job whose [scancel] is silent leaves a cleared record. *)
Theorem start_failure_keeps_job_id :
  let submitted := alice "" [""; "Submitted batch job 209"; "FAILED"] in
  let stuck := alice "" ["12 8888 PENDING launch failed requeued held";
                         "scancel: error: Invalid job id 12"] in
  let stuck_cancelled := alice "" ["12 8888 PENDING launch failed requeued held"; ""; ""] in
  (fst (start 5 submitted) = Raise (SlurmException "Job 209 failed to start!") /\
   slurm_job_id (snd (start 5 submitted)) = "209") /\
  (fst (start 5 stuck) =
     Raise (SlurmException
              "Failed to cancel job 12: slurm output: scancel: error: Invalid job id 12") /\
   slurm_job_id (snd (start 5 stuck)) = "12") /\
  (fst (start 5 stuck_cancelled) = Raise (SlurmException "Slurm failed to launch job") /\
   slurm_job_id (snd (start 5 stuck_cancelled)) = "" /\
   slurm_port (snd (start 5 stuck_cancelled)) = "").
Proof. vm_compute. done. Qed.

(** A pending job without a node is adopted with no address, where a new
    job without a node makes [start] raise. *)
Lemma start_reattaches_without_address_witness :
  let pending := alice "" ["12 8888 PENDING Resources"; ""] in
  let submitted := alice "" [""; "Submitted batch job 13"; "RUNNING"; ""] in
  (exists st',
     start 5 pending = (Return tt, st') /\
     server_ip st' = None /\ slurm_job_id st' = "12" /\
     submissions (trace st') = 0%nat) /\
  fst (start 5 submitted) =
    Raise (SlurmException "There appears to be no node info available for job 13").
Proof.
  cbn zeta. split; [|vm_compute; reflexivity].
  destruct (start_reattaches_without_address 5
              (alice "" ["12 8888 PENDING Resources"; ""])
              "12 8888 PENDING Resources" ""
              {| replies := [""]; free_port := 9123 |}
              {| replies := []; free_port := 9123 |}
              "12" "8888" "PENDING" ["Resources"])
    as [(st' & Hstart & Hip & Hjid & _ & Hsub & _) _].
  - reflexivity.
  - reflexivity.
  - discriminate.
  - discriminate.
  - discriminate.
  - intros Hin. inversion Hin as [|? ? ? Hin']; inversion Hin'.
  - reflexivity.
  - reflexivity.
  - exists st'. split; [exact Hstart|]. split; [exact Hip|]. split; [exact Hjid|exact Hsub].
Defined.

(** A job that is [COMPLETING] with the reason word [failed]: [start]
    raises, cancels nothing and submits nothing, where it submits a job
    when the query prints nothing. *)
Lemma start_completing_stale_reason_witness :
  let later := ["Submitted batch job 13"; "RUNNING"; "cn1"; "cn1 has address 10.0.0.1"] in
  let found := alice "" ("12 8888 COMPLETING launch failed requeued held" :: later) in
  let absent := alice "" ("" :: later) in
  (exists st',
     start 5 found = (Raise (SlurmException "Slurm failed to launch job"), st') /\
     submissions (trace st') = 0%nat /\
     cancel_attempts (trace st') = 0%nat) /\
  fst (start 5 absent) = Return tt /\
  submissions (trace (snd (start 5 absent))) = 1%nat.
Proof.
  cbn zeta. split; [|vm_compute; done].
  destruct (start_completing_stale_reason 5
              (alice "" ["12 8888 COMPLETING launch failed requeued held";
                         "Submitted batch job 13"; "RUNNING"; "cn1";
                         "cn1 has address 10.0.0.1"])
              "12 8888 COMPLETING launch failed requeued held"
              {| replies := ["Submitted batch job 13"; "RUNNING"; "cn1";
                             "cn1 has address 10.0.0.1"]; free_port := 9123 |}
              "12" "8888" ["launch"; "failed"; "requeued"; "held"])
    as [(st' & Hstart & _ & Hsub & Hcan & _) _].
  - reflexivity.
  - reflexivity.
  - rewrite !elem_of_cons. right. by left.
  - exists st'. split; [exact Hstart|]. split; [exact Hsub|exact Hcan].
Defined.

(** ** The further properties at concrete inputs *)

Lemma query_answer_shapes_witness :
  fst (query_slurm_by_jobname "alice" "nb" (alice "" ["12 8888"])) = Raise IndexError /\
  fst (query_slurm_by_jobname "alice" "nb" (alice "" ["  "]))
    = Return ("", "", "", ReasonText "") /\
  fst (query_slurm_by_jobname "alice" "nb" (alice "" ["12 8888 PENDING launch failed"]))
    = Return ("12", "8888", "PENDING", ReasonTokens ["launch"; "failed"]).
Proof.
  split_and!.
  - pose proof (query_answer_shapes "alice" "nb" "12 8888"
                  {| replies := []; free_port := 9123 |} (alice "" ["12 8888"]) eq_refl) as Hq.
    cbn zeta in Hq. change (Py.split_ws (Py.strip (Py.strip "12 8888"))) with ["12"; "8888"] in Hq.
    by rewrite Hq.
  - pose proof (query_answer_shapes "alice" "nb" "  "
                  {| replies := []; free_port := 9123 |} (alice "" ["  "]) eq_refl) as Hq.
    cbn zeta in Hq. change (Py.split_ws (Py.strip (Py.strip "  "))) with (@nil string) in Hq.
    by rewrite Hq.
  - pose proof (query_answer_shapes "alice" "nb" "12 8888 PENDING launch failed"
                  {| replies := []; free_port := 9123 |}
                  (alice "" ["12 8888 PENDING launch failed"]) eq_refl) as Hq.
    cbn zeta in Hq.
    change (Py.split_ws (Py.strip (Py.strip "12 8888 PENDING launch failed")))
      with ["12"; "8888"; "PENDING"; "launch"; "failed"] in Hq.
    destruct Hq as [Hq _]. by rewrite Hq.
Defined.

Lemma poll_cancels_stuck_job_witness :
  exists st',
    poll (alice "7" ["PENDING"; "launch failed requeued held"; ""; ""]) = (Return (Some 127), st') /\
    slurm_job_id st' = "" /\ spawn_pending st' = false /\
    cancel_attempts (trace st') = 1%nat.
Proof.
  destruct (poll_cancels_stuck_job
              (alice "7" ["PENDING"; "launch failed requeued held"; ""; ""])
              "PENDING" "launch failed requeued held" ""
              {| replies := ["launch failed requeued held"; ""; ""]; free_port := 9123 |}
              {| replies := [""; ""]; free_port := 9123 |}
              {| replies := [""]; free_port := 9123 |})
    as (st' & tr & Hp & Hj & _ & Hs & Hc & _);
    [discriminate|reflexivity|reflexivity|reflexivity|reflexivity|reflexivity|reflexivity
    |reflexivity|].
  exists st'. by split_and!.
Defined.

Lemma poll_job_gone_witness :
  exists st',
    poll (alice "7" [""]) = (Return (Some 127), st') /\
    slurm_job_id st' = "" /\ spawn_pending st' = true /\
    cancel_attempts (trace st') = 0%nat.
Proof.
  destruct (poll_job_gone (alice "7" [""]) "" {| replies := []; free_port := 9123 |})
    as (st' & Hp & Hj & _ & Hs & Ht); [discriminate|reflexivity|reflexivity|].
  exists st'. split_and!; try done. by rewrite Ht.
Defined.

Lemma poll_after_exit_witness :
  let st' := snd (stop false (alice "7" [""; ""])) in
  poll st' = (Return (Some 127), st').
Proof.
  cbn zeta. apply (poll_after_exit (alice "7" [""; ""])).
  left. exists false. vm_compute. reflexivity.
Defined.

Lemma submit_records_last_word_witness :
  exists st',
    submit "#!/bin/bash" (alice "" ["Submitted batch job 209"]) = (Return tt, st') /\
    slurm_job_id st' = "209".
Proof.
  destruct (submit_records_last_word "#!/bin/bash" "Submitted batch job 209"
              {| replies := []; free_port := 9123 |} (alice "" ["Submitted batch job 209"]))
    as (r & st' & Hs & _ & _ & Hword & _); [reflexivity|].
  destruct (Hword "Submitted batch job" "209") as [-> Hj]; [reflexivity|reflexivity|].
  by exists st'.
Defined.

Lemma run_fails_before_submitting_witness :
  _run_jupyterhub_singleuser 5 "run-server" 9123 "alice" (alice "" ["Submitted batch job 1"])
    = (Raise IndexError, alice "" ["Submitted batch job 1"]) /\
  _run_jupyterhub_singleuser 5 "export X=1;run-server" 9123 "bob" (alice "" ["Submitted batch job 1"])
    = (Raise (KeyError "bob"), alice "" ["Submitted batch job 1"]).
Proof.
  split.
  - apply (run_fails_before_submitting 5 "run-server" 9123 "alice"). reflexivity.
  - apply (proj1 (proj2 (run_fails_before_submitting 5 "export X=1;run-server" 9123 "bob"
                           (alice "" ["Submitted batch job 1"])))
             "export X=1" "run-server"); reflexivity.
Defined.

Lemma custom_request_served_once_witness :
  let st := with_request
              {| custom := true; form_memory := 2048; form_cpus := 4; form_tasks := 0;
                 form_time := ""; form_nodes := 0 |} (alice "" []) in
  exists r st1,
    choose_resources st = (Return r, st1) /\ r_memory r = 2048 /\
    choose_resources st1 =
      (Return {| r_memory := 400; r_cpus := 1; r_ntasks := 1;
                 r_stime := "1-00:00:00"; r_nodes := 1 |}, st1).
Proof.
  cbn zeta.
  set (st := with_request
               {| custom := true; form_memory := 2048; form_cpus := 4; form_tasks := 0;
                  form_time := ""; form_nodes := 0 |} (alice "" [])).
  set (r := {| r_memory := 2048; r_cpus := 4; r_ntasks := 1;
               r_stime := "1-00:00:00"; r_nodes := 1 |}).
  set (st1 := set_authenticator (served (authenticator st)) st).
  assert (Hr : choose_resources st = (Return r, st1)) by reflexivity.
  exists r, st1. split; [exact Hr|]. split; [reflexivity|].
  exact (proj2 (proj1 (custom_request_served_once st) r st1 Hr)).
Defined.

Lemma get_env_user_and_home_witness :
  exists e, get_env (alice "" []) = (Return e, alice "" []) /\
    e !! "HOME" = Some "/home/alice" /\ e !! "JPY_API_TOKEN" = Some "t0k".
Proof.
  destruct (proj1 (get_env_user_and_home (alice "" []))
              {| pw_uid := 1000; pw_gid := 100; pw_dir := "/home/alice" |} eq_refl)
    as (e & He & _ & Hhome & Hother).
  exists e. split_and!; [exact He|exact Hhome|].
  rewrite Hother by discriminate. reflexivity.
Defined.

Lemma wait_never_ends_while_pending_witness :
  exists st',
    wait_until_running 7 "PENDING" (waiting "209" "PENDING") = (OutOfFuel, st') /\
    sleeps (trace st') = 7%nat.
Proof.
  destruct (wait_never_ends_while_pending 7 "PENDING" (waiting "209" "PENDING")
              (fun e => answer e = "PENDING"))
    as (st' & Hw & Hs & _).
  - discriminate.
  - reflexivity.
  - reflexivity.
  - reflexivity.
  - intros e He. exists "PENDING", e, "PENDING", e. cbn [popen stuck_host]. rewrite He.
    split_and!; reflexivity.
  - exists st'. split; [exact Hw|exact Hs].
Defined.

Lemma run_success_postcondition_witness :
  let st := alice "" ["Submitted batch job 209"; "RUNNING"; "cn7";
                      "cn7.cluster has address 10.0.0.7"] in
  exists st',
    _run_jupyterhub_singleuser 5 "export X=1;run-server" 9123 "alice" st = (Return "209", st') /\
    slurm_job_id st' = "209" /\ submissions (trace st') = 1%nat /\
    cancel_attempts (trace st') = 0%nat.
Proof.
  cbn zeta. eexists. split; [vm_compute; reflexivity|].
  match goal with |- slurm_job_id ?s = _ /\ _ =>
    destruct (run_success_postcondition 5 "export X=1;run-server" 9123 "alice"
                (alice "" ["Submitted batch job 209"; "RUNNING"; "cn7";
                           "cn7.cluster has address 10.0.0.7"]) s "209")
      as (Hj & _ & _ & _ & Hsub & Hca & _)
  end.
  - vm_compute. reflexivity.
  - split_and!; [exact Hj|exact Hsub|exact Hca].
Defined.

Lemma run_submits_at_most_once_witness :
  let st := alice "" ["Submitted batch job 209"; "FAILED"] in
  exists st',
    _run_jupyterhub_singleuser 5 "export X=1;run-server" 9123 "alice" st
      = (Raise (SlurmException "Job 209 failed to start!"), st') /\
    (submissions (trace st') <= 1)%nat /\ cancel_attempts (trace st') = 0%nat.
Proof.
  cbn zeta. eexists. split; [vm_compute; reflexivity|].
  match goal with |- (submissions (trace ?s) <= _)%nat /\ _ =>
    destruct (run_submits_at_most_once 5 "export X=1;run-server" 9123 "alice"
                (alice "" ["Submitted batch job 209"; "FAILED"]) s
                (Raise (SlurmException "Job 209 failed to start!")))
      as (_ & Hsub & Hca & _)
  end.
  - vm_compute. reflexivity.
  - split; [exact Hsub|exact Hca].
Defined.

Lemma start_submits_at_most_once_witness :
  let st := alice "" [""; "Submitted batch job 209"; "RUNNING"; "cn7";
                      "cn7.cluster has address 10.0.0.7"] in
  exists st',
    start 5 st = (Return tt, st') /\
    (submissions (trace st') <= 1)%nat /\ slurm_job_id st' ≠ "" /\
    cancel_attempts (trace st') = 0%nat.
Proof.
  cbn zeta. eexists. split; [vm_compute; reflexivity|].
  match goal with |- (submissions (trace ?s) <= _)%nat /\ _ =>
    destruct (start_submits_at_most_once 5
                (alice "" [""; "Submitted batch job 209"; "RUNNING"; "cn7";
                           "cn7.cluster has address 10.0.0.7"]) s (Return tt))
      as (_ & Hsub & _ & Hret)
  end.
  - vm_compute. reflexivity.
  - destruct (Hret eq_refl) as [Hj Hca]. split_and!; [exact Hsub|exact Hj|exact Hca].
Defined.

Lemma start_found_job_never_submits_witness :
  exists st',
    start 5 (alice "" ["12 8888 PENDING Resources"; ""]) = (Return tt, st') /\
    submissions (trace st') = 0%nat /\ slurm_job_id st' = "12".
Proof.
  destruct (start_found_job_never_submits 5 (alice "" ["12 8888 PENDING Resources"; ""])
              "12 8888 PENDING Resources" {| replies := [""]; free_port := 9123 |}
              "12" "8888" "PENDING" ["Resources"])
    as (r & st' & Hstart & Hsub & Hiff & Hret & _).
  - reflexivity.
  - reflexivity.
  - discriminate.
  - assert (Hr : r = Return tt).
    { apply Hiff. intros Hin. inversion Hin as [|? ? ? Hin']; inversion Hin'. }
    subst r. exists st'. destruct (Hret eq_refl) as [Hj _]. by split_and!.
Defined.

Lemma start_cancels_stuck_job_witness :
  exists st',
    start 5 (alice "" ["12 8888 PENDING launch failed requeued held"; ""; ""])
      = (Raise (SlurmException "Slurm failed to launch job"), st') /\
    slurm_job_id st' = "" /\ cancel_attempts (trace st') = 1%nat.
Proof.
  destruct (start_cancels_stuck_job 5
              (alice "" ["12 8888 PENDING launch failed requeued held"; ""; ""])
              "12 8888 PENDING launch failed requeued held" ""
              {| replies := [""; ""]; free_port := 9123 |}
              {| replies := [""]; free_port := 9123 |}
              "12" "8888" "PENDING" ["launch"; "failed"; "requeued"; "held"])
    as (r & st' & Hstart & Hca & Hsilent & _).
  - reflexivity.
  - reflexivity.
  - discriminate.
  - apply list_elem_of_In. cbn. tauto.
  - reflexivity.
  - destruct (Hsilent eq_refl) as (-> & Hj & _). exists st'. by split_and!.
Defined.

Lemma start_command_splits_witness :
  split_cmd (Py.join " " [("export JPY_API_TOKEN=" +:+ Py.dq +:+ "t0k" +:+ Py.dq) +:+ ";";
                          "run-server"; "--port"; "9123"]) (alice "" [])
    = (Return ("export JPY_API_TOKEN=" +:+ Py.dq +:+ "t0k" +:+ Py.dq,
               " run-server --port 9123"), alice "" []).
Proof.
  apply (proj2 (start_command_splits "t0k" ["run-server"; "--port"; "9123"] (alice "" []))).
  - reflexivity.
  - by repeat constructor.
Defined.


Lemma node_info_shape_witness :
  (exists r st',
     get_slurm_job_info "12" (alice "12" ["cn7"; "cn7.cluster has address 10.0.0.7"])
       = (Return r, st') /\
     r = (Some "10.0.0.7", Some "cn7")) /\
  (exists r st',
     get_slurm_job_info "12" (alice "12" [""]) = (Return r, st') /\ r = (None, None)).
Proof.
  split.
  - destruct (node_info_shape "12" (alice "12" ["cn7"; "cn7.cluster has address 10.0.0.7"])
                "cn7" {| replies := ["cn7.cluster has address 10.0.0.7"]; free_port := 9123 |})
      as (r & st' & tr & Hrun & _).
    + reflexivity.
    + reflexivity.
    + intros h e3 Hh. vm_compute in Hh. by injection Hh as <- _.
    + exists r, st'. split; [exact Hrun|]. vm_compute in Hrun. congruence.
  - destruct (node_info_shape "12" (alice "12" [""])
                "" {| replies := []; free_port := 9123 |})
      as (r & st' & tr & Hrun & _ & _ & _ & _ & _ & Hnone & _).
    + reflexivity.
    + reflexivity.
    + intros h e3 Hh. vm_compute in Hh. by injection Hh as <- _.
    + exists r, st'. split; [exact Hrun|]. by destruct (Hnone eq_refl).
Defined.
